(** * Basketball shot-analysis evaluation framework: a shallow embedding

    The Python sources embedded here are
      - [ai-evaluation/src/data_manager.py]  (class [EvaluationDataManager]),
      - [ai-evaluation/src/evaluator.py]     (class [ModelEvaluator]),
      - [ai-evaluation/src/metrics.py]       (class [EvaluationMetrics]).

    Conventions of the embedding.
      - A Python [str] is the [string] of the bytes of its UTF-8 encoding;
        comparing the bytes compares the code points.  Case mapping and
        white space are those of Unicode, with the tables of CPython 3.11.
        Indexes into a string count bytes, and are only used to cut the
        string they were found in, at a character of the ASCII range.
      - A Python [dict] is an association list in insertion order; assigning
        to a key that is present replaces the value in place.
      - Python numbers that the code divides or averages are rationals ([Q]);
        a float is read as the exact quotient it rounds, and numbers stay
        in the range of floats.
      - Code that can raise returns in the error monad [exc]. *)

From Stdlib Require Import String Ascii List ZArith NArith QArith Bool Lia Arith.
From Stdlib Require Import OrderedTypeEx.
Import ListNotations.

Set Warnings "-register-all".
Close Scope Q_scope.
Local Open Scope string_scope.
Local Open Scope list_scope.

(** ** Python built-ins used by the sources *)

Module Py.

(** Exceptions the modelled code can raise.  [JSONDecodeError] is a
    subclass of [ValueError] in Python; here [ValueError] stands for a
    [ValueError] that is not a [JSONDecodeError], so that a handler of
    [JSONDecodeError] catches the first constructor only. *)
Inductive exn : Type :=
| ZeroDivisionError
| AttributeError
| TypeError
| ValueError
| FileNotFoundError
| OSError
| JSONDecodeError
| RecursionError.

Inductive exc (A : Type) : Type :=
| Return (a : A)
| Raise (e : exn).

Arguments Return {A} a.
Arguments Raise {A} e.

Definition bind {A B : Type} (c : exc A) (k : A -> exc B) : exc B :=
  match c with
  | Return a => k a
  | Raise e => Raise e
  end.

(** [a / b] on numbers. *)
Definition truediv (a b : Q) : exc Q :=
  if Qeq_bool b (0 # 1) then Raise ZeroDivisionError else Return (Qdiv a b).

(** [len(l)] as a number, and [sum(l)]. *)
Definition Q_of_nat (n : nat) : Q := inject_Z (Z.of_nat n).

Definition sum_Q (l : list Q) : Q := fold_left Qplus l (0 # 1)%Q.

(** *** dict *)

Section Dict.
Context {K V : Type} (eqb : K -> K -> bool).

(** [d.get(k)] *)
Fixpoint dict_get (d : list (K * V)) (k : K) : option V :=
  match d with
  | [] => None
  | (k', v) :: d' => if eqb k' k then Some v else dict_get d' k
  end.

(** [d[k] = v]: replaces in place when [k] is present, appends otherwise. *)
Fixpoint dict_set (d : list (K * V)) (k : K) (v : V) : list (K * V) :=
  match d with
  | [] => [(k, v)]
  | (k', v') :: d' =>
      if eqb k' k then (k', v) :: d' else (k', v') :: dict_set d' k v
  end.

(** [k in d] *)
Definition dict_contains (d : list (K * V)) (k : K) : bool :=
  match dict_get d k with
  | Some _ => true
  | None => false
  end.

End Dict.

(** *** str *)

Definition nl : string := String (ascii_of_nat 10) EmptyString.

(** Case mapping on a byte of the ASCII range. *)
Definition upper_char (c : ascii) : ascii :=
  let n := nat_of_ascii c in
  if ((97 <=? n) && (n <=? 122))%nat then ascii_of_nat (n - 32) else c.

Definition lower_char (c : ascii) : ascii :=
  let n := nat_of_ascii c in
  if ((65 <=? n) && (n <=? 90))%nat then ascii_of_nat (n + 32) else c.

(** [s[n:]] for [n >= 0]. *)
Fixpoint drop (n : nat) (s : string) : string :=
  match n, s with
  | O, _ => s
  | S _, EmptyString => EmptyString
  | S n', String _ s' => drop n' s'
  end.

(** [a > b] on strings: lexicographic, character codes compared. *)
Definition str_gt (a b : string) : bool :=
  match String.compare a b with
  | Gt => true
  | _ => false
  end.

(** *** str: characters

    A [str] is held as the bytes of its UTF-8 encoding (a lone surrogate as
    the three bytes of its code point), so that comparing bytes compares
    code points.  A character is the string of its bytes. *)

(** The number of bytes of the character whose first byte is [b]. *)
Definition width (b : ascii) : nat :=
  let n := nat_of_ascii b in
  if (n <? 192)%nat then 1%nat
  else if (n <? 224)%nat then 2%nat
  else if (n <? 240)%nat then 3%nat
  else 4%nat.

(** The characters of [s], of which there are at most [fuel]. *)
Fixpoint chars_of (fuel : nat) (s : string) : list string :=
  match fuel with
  | O => []
  | S fuel' =>
      match s with
      | EmptyString => []
      | String b s' =>
          let n := (width b - 1)%nat in
          String b (String.substring 0 n s') :: chars_of fuel' (drop n s')
      end
  end.

Definition chars (s : string) : list string := chars_of (String.length s) s.

(** The string made of the characters [cs]. *)
Fixpoint of_chars (cs : list string) : string :=
  match cs with
  | [] => EmptyString
  | c :: rest => c ++ of_chars rest
  end.

(** [len(s)] *)
Definition len (s : string) : nat := List.length (chars s).

(** The bytes of the code point [c]. *)
Definition utf8 (c : N) : string :=
  if (c <? 128)%N then String (ascii_of_N c) EmptyString
  else if (c <? 2048)%N then
    String (ascii_of_N (192 + c / 64))
      (String (ascii_of_N (128 + c mod 64)) EmptyString)
  else if (c <? 65536)%N then
    String (ascii_of_N (224 + c / 4096))
      (String (ascii_of_N (128 + (c / 64) mod 64))
         (String (ascii_of_N (128 + c mod 64)) EmptyString))
  else
    String (ascii_of_N (240 + c / 262144))
      (String (ascii_of_N (128 + (c / 4096) mod 64))
         (String (ascii_of_N (128 + (c / 64) mod 64))
            (String (ascii_of_N (128 + c mod 64)) EmptyString))).

Definition utf8s (cs : list N) : string := of_chars (map utf8 cs).

(** *** str: case and white space

    The tables are those of CPython 3.11 (Unicode 14.0.0): the code points
    beyond the ASCII range whose [upper()], or [lower()], is not the code
    point itself, with the code points of the image; the ranges of the
    cased and of the case-ignorable code points, which decide the form of a
    small sigma; and the code points [isspace()] holds of. *)

Definition upper_points : list (N * list N) :=
  [(181, [924]); (223, [83; 83]); (224, [192]); (225, [193]); (226, [194]);
   (227, [195]); (228, [196]); (229, [197]); (230, [198]); (231, [199]); (232, [200]);
   (233, [201]); (234, [202]); (235, [203]); (236, [204]); (237, [205]); (238, [206]);
   (239, [207]); (240, [208]); (241, [209]); (242, [210]); (243, [211]); (244, [212]);
   (245, [213]); (246, [214]); (248, [216]); (249, [217]); (250, [218]); (251, [219]);
   (252, [220]); (253, [221]); (254, [222]); (255, [376]); (257, [256]); (259, [258]);
   (261, [260]); (263, [262]); (265, [264]); (267, [266]); (269, [268]); (271, [270]);
   (273, [272]); (275, [274]); (277, [276]); (279, [278]); (281, [280]); (283, [282]);
   (285, [284]); (287, [286]); (289, [288]); (291, [290]); (293, [292]); (295, [294]);
   (297, [296]); (299, [298]); (301, [300]); (303, [302]); (305, [73]); (307, [306]);
   (309, [308]); (311, [310]); (314, [313]); (316, [315]); (318, [317]); (320, [319]);
   (322, [321]); (324, [323]); (326, [325]); (328, [327]); (329, [700; 78]);
   (331, [330]); (333, [332]); (335, [334]); (337, [336]); (339, [338]); (341, [340]);
   (343, [342]); (345, [344]); (347, [346]); (349, [348]); (351, [350]); (353, [352]);
   (355, [354]); (357, [356]); (359, [358]); (361, [360]); (363, [362]); (365, [364]);
   (367, [366]); (369, [368]); (371, [370]); (373, [372]); (375, [374]); (378, [377]);
   (380, [379]); (382, [381]); (383, [83]); (384, [579]); (387, [386]); (389, [388]);
   (392, [391]); (396, [395]); (402, [401]); (405, [502]); (409, [408]); (410, [573]);
   (414, [544]); (417, [416]); (419, [418]); (421, [420]); (424, [423]); (429, [428]);
   (432, [431]); (436, [435]); (438, [437]); (441, [440]); (445, [444]); (447, [503]);
   (453, [452]); (454, [452]); (456, [455]); (457, [455]); (459, [458]); (460, [458]);
   (462, [461]); (464, [463]); (466, [465]); (468, [467]); (470, [469]); (472, [471]);
   (474, [473]); (476, [475]); (477, [398]); (479, [478]); (481, [480]); (483, [482]);
   (485, [484]); (487, [486]); (489, [488]); (491, [490]); (493, [492]); (495, [494]);
   (496, [74; 780]); (498, [497]); (499, [497]); (501, [500]); (505, [504]);
   (507, [506]); (509, [508]); (511, [510]); (513, [512]); (515, [514]); (517, [516]);
   (519, [518]); (521, [520]); (523, [522]); (525, [524]); (527, [526]); (529, [528]);
   (531, [530]); (533, [532]); (535, [534]); (537, [536]); (539, [538]); (541, [540]);
   (543, [542]); (547, [546]); (549, [548]); (551, [550]); (553, [552]); (555, [554]);
   (557, [556]); (559, [558]); (561, [560]); (563, [562]); (572, [571]);
   (575, [11390]); (576, [11391]); (578, [577]); (583, [582]); (585, [584]);
   (587, [586]); (589, [588]); (591, [590]); (592, [11375]); (593, [11373]);
   (594, [11376]); (595, [385]); (596, [390]); (598, [393]); (599, [394]);
   (601, [399]); (603, [400]); (604, [42923]); (608, [403]); (609, [42924]);
   (611, [404]); (613, [42893]); (614, [42922]); (616, [407]); (617, [406]);
   (618, [42926]); (619, [11362]); (620, [42925]); (623, [412]); (625, [11374]);
   (626, [413]); (629, [415]); (637, [11364]); (640, [422]); (642, [42949]);
   (643, [425]); (647, [42929]); (648, [430]); (649, [580]); (650, [433]);
   (651, [434]); (652, [581]); (658, [439]); (669, [42930]); (670, [42928]);
   (837, [921]); (881, [880]); (883, [882]); (887, [886]); (891, [1021]);
   (892, [1022]); (893, [1023]); (912, [921; 776; 769]); (940, [902]); (941, [904]);
   (942, [905]); (943, [906]); (944, [933; 776; 769]); (945, [913]); (946, [914]);
   (947, [915]); (948, [916]); (949, [917]); (950, [918]); (951, [919]); (952, [920]);
   (953, [921]); (954, [922]); (955, [923]); (956, [924]); (957, [925]); (958, [926]);
   (959, [927]); (960, [928]); (961, [929]); (962, [931]); (963, [931]); (964, [932]);
   (965, [933]); (966, [934]); (967, [935]); (968, [936]); (969, [937]); (970, [938]);
   (971, [939]); (972, [908]); (973, [910]); (974, [911]); (976, [914]); (977, [920]);
   (981, [934]); (982, [928]); (983, [975]); (985, [984]); (987, [986]); (989, [988]);
   (991, [990]); (993, [992]); (995, [994]); (997, [996]); (999, [998]);
   (1001, [1000]); (1003, [1002]); (1005, [1004]); (1007, [1006]); (1008, [922]);
   (1009, [929]); (1010, [1017]); (1011, [895]); (1013, [917]); (1016, [1015]);
   (1019, [1018]); (1072, [1040]); (1073, [1041]); (1074, [1042]); (1075, [1043]);
   (1076, [1044]); (1077, [1045]); (1078, [1046]); (1079, [1047]); (1080, [1048]);
   (1081, [1049]); (1082, [1050]); (1083, [1051]); (1084, [1052]); (1085, [1053]);
   (1086, [1054]); (1087, [1055]); (1088, [1056]); (1089, [1057]); (1090, [1058]);
   (1091, [1059]); (1092, [1060]); (1093, [1061]); (1094, [1062]); (1095, [1063]);
   (1096, [1064]); (1097, [1065]); (1098, [1066]); (1099, [1067]); (1100, [1068]);
   (1101, [1069]); (1102, [1070]); (1103, [1071]); (1104, [1024]); (1105, [1025]);
   (1106, [1026]); (1107, [1027]); (1108, [1028]); (1109, [1029]); (1110, [1030]);
   (1111, [1031]); (1112, [1032]); (1113, [1033]); (1114, [1034]); (1115, [1035]);
   (1116, [1036]); (1117, [1037]); (1118, [1038]); (1119, [1039]); (1121, [1120]);
   (1123, [1122]); (1125, [1124]); (1127, [1126]); (1129, [1128]); (1131, [1130]);
   (1133, [1132]); (1135, [1134]); (1137, [1136]); (1139, [1138]); (1141, [1140]);
   (1143, [1142]); (1145, [1144]); (1147, [1146]); (1149, [1148]); (1151, [1150]);
   (1153, [1152]); (1163, [1162]); (1165, [1164]); (1167, [1166]); (1169, [1168]);
   (1171, [1170]); (1173, [1172]); (1175, [1174]); (1177, [1176]); (1179, [1178]);
   (1181, [1180]); (1183, [1182]); (1185, [1184]); (1187, [1186]); (1189, [1188]);
   (1191, [1190]); (1193, [1192]); (1195, [1194]); (1197, [1196]); (1199, [1198]);
   (1201, [1200]); (1203, [1202]); (1205, [1204]); (1207, [1206]); (1209, [1208]);
   (1211, [1210]); (1213, [1212]); (1215, [1214]); (1218, [1217]); (1220, [1219]);
   (1222, [1221]); (1224, [1223]); (1226, [1225]); (1228, [1227]); (1230, [1229]);
   (1231, [1216]); (1233, [1232]); (1235, [1234]); (1237, [1236]); (1239, [1238]);
   (1241, [1240]); (1243, [1242]); (1245, [1244]); (1247, [1246]); (1249, [1248]);
   (1251, [1250]); (1253, [1252]); (1255, [1254]); (1257, [1256]); (1259, [1258]);
   (1261, [1260]); (1263, [1262]); (1265, [1264]); (1267, [1266]); (1269, [1268]);
   (1271, [1270]); (1273, [1272]); (1275, [1274]); (1277, [1276]); (1279, [1278]);
   (1281, [1280]); (1283, [1282]); (1285, [1284]); (1287, [1286]); (1289, [1288]);
   (1291, [1290]); (1293, [1292]); (1295, [1294]); (1297, [1296]); (1299, [1298]);
   (1301, [1300]); (1303, [1302]); (1305, [1304]); (1307, [1306]); (1309, [1308]);
   (1311, [1310]); (1313, [1312]); (1315, [1314]); (1317, [1316]); (1319, [1318]);
   (1321, [1320]); (1323, [1322]); (1325, [1324]); (1327, [1326]); (1377, [1329]);
   (1378, [1330]); (1379, [1331]); (1380, [1332]); (1381, [1333]); (1382, [1334]);
   (1383, [1335]); (1384, [1336]); (1385, [1337]); (1386, [1338]); (1387, [1339]);
   (1388, [1340]); (1389, [1341]); (1390, [1342]); (1391, [1343]); (1392, [1344]);
   (1393, [1345]); (1394, [1346]); (1395, [1347]); (1396, [1348]); (1397, [1349]);
   (1398, [1350]); (1399, [1351]); (1400, [1352]); (1401, [1353]); (1402, [1354]);
   (1403, [1355]); (1404, [1356]); (1405, [1357]); (1406, [1358]); (1407, [1359]);
   (1408, [1360]); (1409, [1361]); (1410, [1362]); (1411, [1363]); (1412, [1364]);
   (1413, [1365]); (1414, [1366]); (1415, [1333; 1362]); (4304, [7312]);
   (4305, [7313]); (4306, [7314]); (4307, [7315]); (4308, [7316]); (4309, [7317]);
   (4310, [7318]); (4311, [7319]); (4312, [7320]); (4313, [7321]); (4314, [7322]);
   (4315, [7323]); (4316, [7324]); (4317, [7325]); (4318, [7326]); (4319, [7327]);
   (4320, [7328]); (4321, [7329]); (4322, [7330]); (4323, [7331]); (4324, [7332]);
   (4325, [7333]); (4326, [7334]); (4327, [7335]); (4328, [7336]); (4329, [7337]);
   (4330, [7338]); (4331, [7339]); (4332, [7340]); (4333, [7341]); (4334, [7342]);
   (4335, [7343]); (4336, [7344]); (4337, [7345]); (4338, [7346]); (4339, [7347]);
   (4340, [7348]); (4341, [7349]); (4342, [7350]); (4343, [7351]); (4344, [7352]);
   (4345, [7353]); (4346, [7354]); (4349, [7357]); (4350, [7358]); (4351, [7359]);
   (5112, [5104]); (5113, [5105]); (5114, [5106]); (5115, [5107]); (5116, [5108]);
   (5117, [5109]); (7296, [1042]); (7297, [1044]); (7298, [1054]); (7299, [1057]);
   (7300, [1058]); (7301, [1058]); (7302, [1066]); (7303, [1122]); (7304, [42570]);
   (7545, [42877]); (7549, [11363]); (7566, [42950]); (7681, [7680]); (7683, [7682]);
   (7685, [7684]); (7687, [7686]); (7689, [7688]); (7691, [7690]); (7693, [7692]);
   (7695, [7694]); (7697, [7696]); (7699, [7698]); (7701, [7700]); (7703, [7702]);
   (7705, [7704]); (7707, [7706]); (7709, [7708]); (7711, [7710]); (7713, [7712]);
   (7715, [7714]); (7717, [7716]); (7719, [7718]); (7721, [7720]); (7723, [7722]);
   (7725, [7724]); (7727, [7726]); (7729, [7728]); (7731, [7730]); (7733, [7732]);
   (7735, [7734]); (7737, [7736]); (7739, [7738]); (7741, [7740]); (7743, [7742]);
   (7745, [7744]); (7747, [7746]); (7749, [7748]); (7751, [7750]); (7753, [7752]);
   (7755, [7754]); (7757, [7756]); (7759, [7758]); (7761, [7760]); (7763, [7762]);
   (7765, [7764]); (7767, [7766]); (7769, [7768]); (7771, [7770]); (7773, [7772]);
   (7775, [7774]); (7777, [7776]); (7779, [7778]); (7781, [7780]); (7783, [7782]);
   (7785, [7784]); (7787, [7786]); (7789, [7788]); (7791, [7790]); (7793, [7792]);
   (7795, [7794]); (7797, [7796]); (7799, [7798]); (7801, [7800]); (7803, [7802]);
   (7805, [7804]); (7807, [7806]); (7809, [7808]); (7811, [7810]); (7813, [7812]);
   (7815, [7814]); (7817, [7816]); (7819, [7818]); (7821, [7820]); (7823, [7822]);
   (7825, [7824]); (7827, [7826]); (7829, [7828]); (7830, [72; 817]);
   (7831, [84; 776]); (7832, [87; 778]); (7833, [89; 778]); (7834, [65; 702]);
   (7835, [7776]); (7841, [7840]); (7843, [7842]); (7845, [7844]); (7847, [7846]);
   (7849, [7848]); (7851, [7850]); (7853, [7852]); (7855, [7854]); (7857, [7856]);
   (7859, [7858]); (7861, [7860]); (7863, [7862]); (7865, [7864]); (7867, [7866]);
   (7869, [7868]); (7871, [7870]); (7873, [7872]); (7875, [7874]); (7877, [7876]);
   (7879, [7878]); (7881, [7880]); (7883, [7882]); (7885, [7884]); (7887, [7886]);
   (7889, [7888]); (7891, [7890]); (7893, [7892]); (7895, [7894]); (7897, [7896]);
   (7899, [7898]); (7901, [7900]); (7903, [7902]); (7905, [7904]); (7907, [7906]);
   (7909, [7908]); (7911, [7910]); (7913, [7912]); (7915, [7914]); (7917, [7916]);
   (7919, [7918]); (7921, [7920]); (7923, [7922]); (7925, [7924]); (7927, [7926]);
   (7929, [7928]); (7931, [7930]); (7933, [7932]); (7935, [7934]); (7936, [7944]);
   (7937, [7945]); (7938, [7946]); (7939, [7947]); (7940, [7948]); (7941, [7949]);
   (7942, [7950]); (7943, [7951]); (7952, [7960]); (7953, [7961]); (7954, [7962]);
   (7955, [7963]); (7956, [7964]); (7957, [7965]); (7968, [7976]); (7969, [7977]);
   (7970, [7978]); (7971, [7979]); (7972, [7980]); (7973, [7981]); (7974, [7982]);
   (7975, [7983]); (7984, [7992]); (7985, [7993]); (7986, [7994]); (7987, [7995]);
   (7988, [7996]); (7989, [7997]); (7990, [7998]); (7991, [7999]); (8000, [8008]);
   (8001, [8009]); (8002, [8010]); (8003, [8011]); (8004, [8012]); (8005, [8013]);
   (8016, [933; 787]); (8017, [8025]); (8018, [933; 787; 768]); (8019, [8027]);
   (8020, [933; 787; 769]); (8021, [8029]); (8022, [933; 787; 834]); (8023, [8031]);
   (8032, [8040]); (8033, [8041]); (8034, [8042]); (8035, [8043]); (8036, [8044]);
   (8037, [8045]); (8038, [8046]); (8039, [8047]); (8048, [8122]); (8049, [8123]);
   (8050, [8136]); (8051, [8137]); (8052, [8138]); (8053, [8139]); (8054, [8154]);
   (8055, [8155]); (8056, [8184]); (8057, [8185]); (8058, [8170]); (8059, [8171]);
   (8060, [8186]); (8061, [8187]); (8064, [7944; 921]); (8065, [7945; 921]);
   (8066, [7946; 921]); (8067, [7947; 921]); (8068, [7948; 921]); (8069, [7949; 921]);
   (8070, [7950; 921]); (8071, [7951; 921]); (8072, [7944; 921]); (8073, [7945; 921]);
   (8074, [7946; 921]); (8075, [7947; 921]); (8076, [7948; 921]); (8077, [7949; 921]);
   (8078, [7950; 921]); (8079, [7951; 921]); (8080, [7976; 921]); (8081, [7977; 921]);
   (8082, [7978; 921]); (8083, [7979; 921]); (8084, [7980; 921]); (8085, [7981; 921]);
   (8086, [7982; 921]); (8087, [7983; 921]); (8088, [7976; 921]); (8089, [7977; 921]);
   (8090, [7978; 921]); (8091, [7979; 921]); (8092, [7980; 921]); (8093, [7981; 921]);
   (8094, [7982; 921]); (8095, [7983; 921]); (8096, [8040; 921]); (8097, [8041; 921]);
   (8098, [8042; 921]); (8099, [8043; 921]); (8100, [8044; 921]); (8101, [8045; 921]);
   (8102, [8046; 921]); (8103, [8047; 921]); (8104, [8040; 921]); (8105, [8041; 921]);
   (8106, [8042; 921]); (8107, [8043; 921]); (8108, [8044; 921]); (8109, [8045; 921]);
   (8110, [8046; 921]); (8111, [8047; 921]); (8112, [8120]); (8113, [8121]);
   (8114, [8122; 921]); (8115, [913; 921]); (8116, [902; 921]); (8118, [913; 834]);
   (8119, [913; 834; 921]); (8124, [913; 921]); (8126, [921]); (8130, [8138; 921]);
   (8131, [919; 921]); (8132, [905; 921]); (8134, [919; 834]); (8135, [919; 834; 921]);
   (8140, [919; 921]); (8144, [8152]); (8145, [8153]); (8146, [921; 776; 768]);
   (8147, [921; 776; 769]); (8150, [921; 834]); (8151, [921; 776; 834]);
   (8160, [8168]); (8161, [8169]); (8162, [933; 776; 768]); (8163, [933; 776; 769]);
   (8164, [929; 787]); (8165, [8172]); (8166, [933; 834]); (8167, [933; 776; 834]);
   (8178, [8186; 921]); (8179, [937; 921]); (8180, [911; 921]); (8182, [937; 834]);
   (8183, [937; 834; 921]); (8188, [937; 921]); (8526, [8498]); (8560, [8544]);
   (8561, [8545]); (8562, [8546]); (8563, [8547]); (8564, [8548]); (8565, [8549]);
   (8566, [8550]); (8567, [8551]); (8568, [8552]); (8569, [8553]); (8570, [8554]);
   (8571, [8555]); (8572, [8556]); (8573, [8557]); (8574, [8558]); (8575, [8559]);
   (8580, [8579]); (9424, [9398]); (9425, [9399]); (9426, [9400]); (9427, [9401]);
   (9428, [9402]); (9429, [9403]); (9430, [9404]); (9431, [9405]); (9432, [9406]);
   (9433, [9407]); (9434, [9408]); (9435, [9409]); (9436, [9410]); (9437, [9411]);
   (9438, [9412]); (9439, [9413]); (9440, [9414]); (9441, [9415]); (9442, [9416]);
   (9443, [9417]); (9444, [9418]); (9445, [9419]); (9446, [9420]); (9447, [9421]);
   (9448, [9422]); (9449, [9423]); (11312, [11264]); (11313, [11265]);
   (11314, [11266]); (11315, [11267]); (11316, [11268]); (11317, [11269]);
   (11318, [11270]); (11319, [11271]); (11320, [11272]); (11321, [11273]);
   (11322, [11274]); (11323, [11275]); (11324, [11276]); (11325, [11277]);
   (11326, [11278]); (11327, [11279]); (11328, [11280]); (11329, [11281]);
   (11330, [11282]); (11331, [11283]); (11332, [11284]); (11333, [11285]);
   (11334, [11286]); (11335, [11287]); (11336, [11288]); (11337, [11289]);
   (11338, [11290]); (11339, [11291]); (11340, [11292]); (11341, [11293]);
   (11342, [11294]); (11343, [11295]); (11344, [11296]); (11345, [11297]);
   (11346, [11298]); (11347, [11299]); (11348, [11300]); (11349, [11301]);
   (11350, [11302]); (11351, [11303]); (11352, [11304]); (11353, [11305]);
   (11354, [11306]); (11355, [11307]); (11356, [11308]); (11357, [11309]);
   (11358, [11310]); (11359, [11311]); (11361, [11360]); (11365, [570]);
   (11366, [574]); (11368, [11367]); (11370, [11369]); (11372, [11371]);
   (11379, [11378]); (11382, [11381]); (11393, [11392]); (11395, [11394]);
   (11397, [11396]); (11399, [11398]); (11401, [11400]); (11403, [11402]);
   (11405, [11404]); (11407, [11406]); (11409, [11408]); (11411, [11410]);
   (11413, [11412]); (11415, [11414]); (11417, [11416]); (11419, [11418]);
   (11421, [11420]); (11423, [11422]); (11425, [11424]); (11427, [11426]);
   (11429, [11428]); (11431, [11430]); (11433, [11432]); (11435, [11434]);
   (11437, [11436]); (11439, [11438]); (11441, [11440]); (11443, [11442]);
   (11445, [11444]); (11447, [11446]); (11449, [11448]); (11451, [11450]);
   (11453, [11452]); (11455, [11454]); (11457, [11456]); (11459, [11458]);
   (11461, [11460]); (11463, [11462]); (11465, [11464]); (11467, [11466]);
   (11469, [11468]); (11471, [11470]); (11473, [11472]); (11475, [11474]);
   (11477, [11476]); (11479, [11478]); (11481, [11480]); (11483, [11482]);
   (11485, [11484]); (11487, [11486]); (11489, [11488]); (11491, [11490]);
   (11500, [11499]); (11502, [11501]); (11507, [11506]); (11520, [4256]);
   (11521, [4257]); (11522, [4258]); (11523, [4259]); (11524, [4260]); (11525, [4261]);
   (11526, [4262]); (11527, [4263]); (11528, [4264]); (11529, [4265]); (11530, [4266]);
   (11531, [4267]); (11532, [4268]); (11533, [4269]); (11534, [4270]); (11535, [4271]);
   (11536, [4272]); (11537, [4273]); (11538, [4274]); (11539, [4275]); (11540, [4276]);
   (11541, [4277]); (11542, [4278]); (11543, [4279]); (11544, [4280]); (11545, [4281]);
   (11546, [4282]); (11547, [4283]); (11548, [4284]); (11549, [4285]); (11550, [4286]);
   (11551, [4287]); (11552, [4288]); (11553, [4289]); (11554, [4290]); (11555, [4291]);
   (11556, [4292]); (11557, [4293]); (11559, [4295]); (11565, [4301]);
   (42561, [42560]); (42563, [42562]); (42565, [42564]); (42567, [42566]);
   (42569, [42568]); (42571, [42570]); (42573, [42572]); (42575, [42574]);
   (42577, [42576]); (42579, [42578]); (42581, [42580]); (42583, [42582]);
   (42585, [42584]); (42587, [42586]); (42589, [42588]); (42591, [42590]);
   (42593, [42592]); (42595, [42594]); (42597, [42596]); (42599, [42598]);
   (42601, [42600]); (42603, [42602]); (42605, [42604]); (42625, [42624]);
   (42627, [42626]); (42629, [42628]); (42631, [42630]); (42633, [42632]);
   (42635, [42634]); (42637, [42636]); (42639, [42638]); (42641, [42640]);
   (42643, [42642]); (42645, [42644]); (42647, [42646]); (42649, [42648]);
   (42651, [42650]); (42787, [42786]); (42789, [42788]); (42791, [42790]);
   (42793, [42792]); (42795, [42794]); (42797, [42796]); (42799, [42798]);
   (42803, [42802]); (42805, [42804]); (42807, [42806]); (42809, [42808]);
   (42811, [42810]); (42813, [42812]); (42815, [42814]); (42817, [42816]);
   (42819, [42818]); (42821, [42820]); (42823, [42822]); (42825, [42824]);
   (42827, [42826]); (42829, [42828]); (42831, [42830]); (42833, [42832]);
   (42835, [42834]); (42837, [42836]); (42839, [42838]); (42841, [42840]);
   (42843, [42842]); (42845, [42844]); (42847, [42846]); (42849, [42848]);
   (42851, [42850]); (42853, [42852]); (42855, [42854]); (42857, [42856]);
   (42859, [42858]); (42861, [42860]); (42863, [42862]); (42874, [42873]);
   (42876, [42875]); (42879, [42878]); (42881, [42880]); (42883, [42882]);
   (42885, [42884]); (42887, [42886]); (42892, [42891]); (42897, [42896]);
   (42899, [42898]); (42900, [42948]); (42903, [42902]); (42905, [42904]);
   (42907, [42906]); (42909, [42908]); (42911, [42910]); (42913, [42912]);
   (42915, [42914]); (42917, [42916]); (42919, [42918]); (42921, [42920]);
   (42933, [42932]); (42935, [42934]); (42937, [42936]); (42939, [42938]);
   (42941, [42940]); (42943, [42942]); (42945, [42944]); (42947, [42946]);
   (42952, [42951]); (42954, [42953]); (42961, [42960]); (42967, [42966]);
   (42969, [42968]); (42998, [42997]); (43859, [42931]); (43888, [5024]);
   (43889, [5025]); (43890, [5026]); (43891, [5027]); (43892, [5028]); (43893, [5029]);
   (43894, [5030]); (43895, [5031]); (43896, [5032]); (43897, [5033]); (43898, [5034]);
   (43899, [5035]); (43900, [5036]); (43901, [5037]); (43902, [5038]); (43903, [5039]);
   (43904, [5040]); (43905, [5041]); (43906, [5042]); (43907, [5043]); (43908, [5044]);
   (43909, [5045]); (43910, [5046]); (43911, [5047]); (43912, [5048]); (43913, [5049]);
   (43914, [5050]); (43915, [5051]); (43916, [5052]); (43917, [5053]); (43918, [5054]);
   (43919, [5055]); (43920, [5056]); (43921, [5057]); (43922, [5058]); (43923, [5059]);
   (43924, [5060]); (43925, [5061]); (43926, [5062]); (43927, [5063]); (43928, [5064]);
   (43929, [5065]); (43930, [5066]); (43931, [5067]); (43932, [5068]); (43933, [5069]);
   (43934, [5070]); (43935, [5071]); (43936, [5072]); (43937, [5073]); (43938, [5074]);
   (43939, [5075]); (43940, [5076]); (43941, [5077]); (43942, [5078]); (43943, [5079]);
   (43944, [5080]); (43945, [5081]); (43946, [5082]); (43947, [5083]); (43948, [5084]);
   (43949, [5085]); (43950, [5086]); (43951, [5087]); (43952, [5088]); (43953, [5089]);
   (43954, [5090]); (43955, [5091]); (43956, [5092]); (43957, [5093]); (43958, [5094]);
   (43959, [5095]); (43960, [5096]); (43961, [5097]); (43962, [5098]); (43963, [5099]);
   (43964, [5100]); (43965, [5101]); (43966, [5102]); (43967, [5103]);
   (64256, [70; 70]); (64257, [70; 73]); (64258, [70; 76]); (64259, [70; 70; 73]);
   (64260, [70; 70; 76]); (64261, [83; 84]); (64262, [83; 84]); (64275, [1348; 1350]);
   (64276, [1348; 1333]); (64277, [1348; 1339]); (64278, [1358; 1350]);
   (64279, [1348; 1341]); (65345, [65313]); (65346, [65314]); (65347, [65315]);
   (65348, [65316]); (65349, [65317]); (65350, [65318]); (65351, [65319]);
   (65352, [65320]); (65353, [65321]); (65354, [65322]); (65355, [65323]);
   (65356, [65324]); (65357, [65325]); (65358, [65326]); (65359, [65327]);
   (65360, [65328]); (65361, [65329]); (65362, [65330]); (65363, [65331]);
   (65364, [65332]); (65365, [65333]); (65366, [65334]); (65367, [65335]);
   (65368, [65336]); (65369, [65337]); (65370, [65338]); (66600, [66560]);
   (66601, [66561]); (66602, [66562]); (66603, [66563]); (66604, [66564]);
   (66605, [66565]); (66606, [66566]); (66607, [66567]); (66608, [66568]);
   (66609, [66569]); (66610, [66570]); (66611, [66571]); (66612, [66572]);
   (66613, [66573]); (66614, [66574]); (66615, [66575]); (66616, [66576]);
   (66617, [66577]); (66618, [66578]); (66619, [66579]); (66620, [66580]);
   (66621, [66581]); (66622, [66582]); (66623, [66583]); (66624, [66584]);
   (66625, [66585]); (66626, [66586]); (66627, [66587]); (66628, [66588]);
   (66629, [66589]); (66630, [66590]); (66631, [66591]); (66632, [66592]);
   (66633, [66593]); (66634, [66594]); (66635, [66595]); (66636, [66596]);
   (66637, [66597]); (66638, [66598]); (66639, [66599]); (66776, [66736]);
   (66777, [66737]); (66778, [66738]); (66779, [66739]); (66780, [66740]);
   (66781, [66741]); (66782, [66742]); (66783, [66743]); (66784, [66744]);
   (66785, [66745]); (66786, [66746]); (66787, [66747]); (66788, [66748]);
   (66789, [66749]); (66790, [66750]); (66791, [66751]); (66792, [66752]);
   (66793, [66753]); (66794, [66754]); (66795, [66755]); (66796, [66756]);
   (66797, [66757]); (66798, [66758]); (66799, [66759]); (66800, [66760]);
   (66801, [66761]); (66802, [66762]); (66803, [66763]); (66804, [66764]);
   (66805, [66765]); (66806, [66766]); (66807, [66767]); (66808, [66768]);
   (66809, [66769]); (66810, [66770]); (66811, [66771]); (66967, [66928]);
   (66968, [66929]); (66969, [66930]); (66970, [66931]); (66971, [66932]);
   (66972, [66933]); (66973, [66934]); (66974, [66935]); (66975, [66936]);
   (66976, [66937]); (66977, [66938]); (66979, [66940]); (66980, [66941]);
   (66981, [66942]); (66982, [66943]); (66983, [66944]); (66984, [66945]);
   (66985, [66946]); (66986, [66947]); (66987, [66948]); (66988, [66949]);
   (66989, [66950]); (66990, [66951]); (66991, [66952]); (66992, [66953]);
   (66993, [66954]); (66995, [66956]); (66996, [66957]); (66997, [66958]);
   (66998, [66959]); (66999, [66960]); (67000, [66961]); (67001, [66962]);
   (67003, [66964]); (67004, [66965]); (68800, [68736]); (68801, [68737]);
   (68802, [68738]); (68803, [68739]); (68804, [68740]); (68805, [68741]);
   (68806, [68742]); (68807, [68743]); (68808, [68744]); (68809, [68745]);
   (68810, [68746]); (68811, [68747]); (68812, [68748]); (68813, [68749]);
   (68814, [68750]); (68815, [68751]); (68816, [68752]); (68817, [68753]);
   (68818, [68754]); (68819, [68755]); (68820, [68756]); (68821, [68757]);
   (68822, [68758]); (68823, [68759]); (68824, [68760]); (68825, [68761]);
   (68826, [68762]); (68827, [68763]); (68828, [68764]); (68829, [68765]);
   (68830, [68766]); (68831, [68767]); (68832, [68768]); (68833, [68769]);
   (68834, [68770]); (68835, [68771]); (68836, [68772]); (68837, [68773]);
   (68838, [68774]); (68839, [68775]); (68840, [68776]); (68841, [68777]);
   (68842, [68778]); (68843, [68779]); (68844, [68780]); (68845, [68781]);
   (68846, [68782]); (68847, [68783]); (68848, [68784]); (68849, [68785]);
   (68850, [68786]); (71872, [71840]); (71873, [71841]); (71874, [71842]);
   (71875, [71843]); (71876, [71844]); (71877, [71845]); (71878, [71846]);
   (71879, [71847]); (71880, [71848]); (71881, [71849]); (71882, [71850]);
   (71883, [71851]); (71884, [71852]); (71885, [71853]); (71886, [71854]);
   (71887, [71855]); (71888, [71856]); (71889, [71857]); (71890, [71858]);
   (71891, [71859]); (71892, [71860]); (71893, [71861]); (71894, [71862]);
   (71895, [71863]); (71896, [71864]); (71897, [71865]); (71898, [71866]);
   (71899, [71867]); (71900, [71868]); (71901, [71869]); (71902, [71870]);
   (71903, [71871]); (93792, [93760]); (93793, [93761]); (93794, [93762]);
   (93795, [93763]); (93796, [93764]); (93797, [93765]); (93798, [93766]);
   (93799, [93767]); (93800, [93768]); (93801, [93769]); (93802, [93770]);
   (93803, [93771]); (93804, [93772]); (93805, [93773]); (93806, [93774]);
   (93807, [93775]); (93808, [93776]); (93809, [93777]); (93810, [93778]);
   (93811, [93779]); (93812, [93780]); (93813, [93781]); (93814, [93782]);
   (93815, [93783]); (93816, [93784]); (93817, [93785]); (93818, [93786]);
   (93819, [93787]); (93820, [93788]); (93821, [93789]); (93822, [93790]);
   (93823, [93791]); (125218, [125184]); (125219, [125185]); (125220, [125186]);
   (125221, [125187]); (125222, [125188]); (125223, [125189]); (125224, [125190]);
   (125225, [125191]); (125226, [125192]); (125227, [125193]); (125228, [125194]);
   (125229, [125195]); (125230, [125196]); (125231, [125197]); (125232, [125198]);
   (125233, [125199]); (125234, [125200]); (125235, [125201]); (125236, [125202]);
   (125237, [125203]); (125238, [125204]); (125239, [125205]); (125240, [125206]);
   (125241, [125207]); (125242, [125208]); (125243, [125209]); (125244, [125210]);
   (125245, [125211]); (125246, [125212]); (125247, [125213]); (125248, [125214]);
   (125249, [125215]); (125250, [125216]); (125251, [125217])]%N.

Definition lower_points : list (N * list N) :=
  [(192, [224]); (193, [225]); (194, [226]); (195, [227]); (196, [228]); (197, [229]);
   (198, [230]); (199, [231]); (200, [232]); (201, [233]); (202, [234]); (203, [235]);
   (204, [236]); (205, [237]); (206, [238]); (207, [239]); (208, [240]); (209, [241]);
   (210, [242]); (211, [243]); (212, [244]); (213, [245]); (214, [246]); (216, [248]);
   (217, [249]); (218, [250]); (219, [251]); (220, [252]); (221, [253]); (222, [254]);
   (256, [257]); (258, [259]); (260, [261]); (262, [263]); (264, [265]); (266, [267]);
   (268, [269]); (270, [271]); (272, [273]); (274, [275]); (276, [277]); (278, [279]);
   (280, [281]); (282, [283]); (284, [285]); (286, [287]); (288, [289]); (290, [291]);
   (292, [293]); (294, [295]); (296, [297]); (298, [299]); (300, [301]); (302, [303]);
   (304, [105; 775]); (306, [307]); (308, [309]); (310, [311]); (313, [314]);
   (315, [316]); (317, [318]); (319, [320]); (321, [322]); (323, [324]); (325, [326]);
   (327, [328]); (330, [331]); (332, [333]); (334, [335]); (336, [337]); (338, [339]);
   (340, [341]); (342, [343]); (344, [345]); (346, [347]); (348, [349]); (350, [351]);
   (352, [353]); (354, [355]); (356, [357]); (358, [359]); (360, [361]); (362, [363]);
   (364, [365]); (366, [367]); (368, [369]); (370, [371]); (372, [373]); (374, [375]);
   (376, [255]); (377, [378]); (379, [380]); (381, [382]); (385, [595]); (386, [387]);
   (388, [389]); (390, [596]); (391, [392]); (393, [598]); (394, [599]); (395, [396]);
   (398, [477]); (399, [601]); (400, [603]); (401, [402]); (403, [608]); (404, [611]);
   (406, [617]); (407, [616]); (408, [409]); (412, [623]); (413, [626]); (415, [629]);
   (416, [417]); (418, [419]); (420, [421]); (422, [640]); (423, [424]); (425, [643]);
   (428, [429]); (430, [648]); (431, [432]); (433, [650]); (434, [651]); (435, [436]);
   (437, [438]); (439, [658]); (440, [441]); (444, [445]); (452, [454]); (453, [454]);
   (455, [457]); (456, [457]); (458, [460]); (459, [460]); (461, [462]); (463, [464]);
   (465, [466]); (467, [468]); (469, [470]); (471, [472]); (473, [474]); (475, [476]);
   (478, [479]); (480, [481]); (482, [483]); (484, [485]); (486, [487]); (488, [489]);
   (490, [491]); (492, [493]); (494, [495]); (497, [499]); (498, [499]); (500, [501]);
   (502, [405]); (503, [447]); (504, [505]); (506, [507]); (508, [509]); (510, [511]);
   (512, [513]); (514, [515]); (516, [517]); (518, [519]); (520, [521]); (522, [523]);
   (524, [525]); (526, [527]); (528, [529]); (530, [531]); (532, [533]); (534, [535]);
   (536, [537]); (538, [539]); (540, [541]); (542, [543]); (544, [414]); (546, [547]);
   (548, [549]); (550, [551]); (552, [553]); (554, [555]); (556, [557]); (558, [559]);
   (560, [561]); (562, [563]); (570, [11365]); (571, [572]); (573, [410]);
   (574, [11366]); (577, [578]); (579, [384]); (580, [649]); (581, [652]);
   (582, [583]); (584, [585]); (586, [587]); (588, [589]); (590, [591]); (880, [881]);
   (882, [883]); (886, [887]); (895, [1011]); (902, [940]); (904, [941]); (905, [942]);
   (906, [943]); (908, [972]); (910, [973]); (911, [974]); (913, [945]); (914, [946]);
   (915, [947]); (916, [948]); (917, [949]); (918, [950]); (919, [951]); (920, [952]);
   (921, [953]); (922, [954]); (923, [955]); (924, [956]); (925, [957]); (926, [958]);
   (927, [959]); (928, [960]); (929, [961]); (931, [963]); (932, [964]); (933, [965]);
   (934, [966]); (935, [967]); (936, [968]); (937, [969]); (938, [970]); (939, [971]);
   (975, [983]); (984, [985]); (986, [987]); (988, [989]); (990, [991]); (992, [993]);
   (994, [995]); (996, [997]); (998, [999]); (1000, [1001]); (1002, [1003]);
   (1004, [1005]); (1006, [1007]); (1012, [952]); (1015, [1016]); (1017, [1010]);
   (1018, [1019]); (1021, [891]); (1022, [892]); (1023, [893]); (1024, [1104]);
   (1025, [1105]); (1026, [1106]); (1027, [1107]); (1028, [1108]); (1029, [1109]);
   (1030, [1110]); (1031, [1111]); (1032, [1112]); (1033, [1113]); (1034, [1114]);
   (1035, [1115]); (1036, [1116]); (1037, [1117]); (1038, [1118]); (1039, [1119]);
   (1040, [1072]); (1041, [1073]); (1042, [1074]); (1043, [1075]); (1044, [1076]);
   (1045, [1077]); (1046, [1078]); (1047, [1079]); (1048, [1080]); (1049, [1081]);
   (1050, [1082]); (1051, [1083]); (1052, [1084]); (1053, [1085]); (1054, [1086]);
   (1055, [1087]); (1056, [1088]); (1057, [1089]); (1058, [1090]); (1059, [1091]);
   (1060, [1092]); (1061, [1093]); (1062, [1094]); (1063, [1095]); (1064, [1096]);
   (1065, [1097]); (1066, [1098]); (1067, [1099]); (1068, [1100]); (1069, [1101]);
   (1070, [1102]); (1071, [1103]); (1120, [1121]); (1122, [1123]); (1124, [1125]);
   (1126, [1127]); (1128, [1129]); (1130, [1131]); (1132, [1133]); (1134, [1135]);
   (1136, [1137]); (1138, [1139]); (1140, [1141]); (1142, [1143]); (1144, [1145]);
   (1146, [1147]); (1148, [1149]); (1150, [1151]); (1152, [1153]); (1162, [1163]);
   (1164, [1165]); (1166, [1167]); (1168, [1169]); (1170, [1171]); (1172, [1173]);
   (1174, [1175]); (1176, [1177]); (1178, [1179]); (1180, [1181]); (1182, [1183]);
   (1184, [1185]); (1186, [1187]); (1188, [1189]); (1190, [1191]); (1192, [1193]);
   (1194, [1195]); (1196, [1197]); (1198, [1199]); (1200, [1201]); (1202, [1203]);
   (1204, [1205]); (1206, [1207]); (1208, [1209]); (1210, [1211]); (1212, [1213]);
   (1214, [1215]); (1216, [1231]); (1217, [1218]); (1219, [1220]); (1221, [1222]);
   (1223, [1224]); (1225, [1226]); (1227, [1228]); (1229, [1230]); (1232, [1233]);
   (1234, [1235]); (1236, [1237]); (1238, [1239]); (1240, [1241]); (1242, [1243]);
   (1244, [1245]); (1246, [1247]); (1248, [1249]); (1250, [1251]); (1252, [1253]);
   (1254, [1255]); (1256, [1257]); (1258, [1259]); (1260, [1261]); (1262, [1263]);
   (1264, [1265]); (1266, [1267]); (1268, [1269]); (1270, [1271]); (1272, [1273]);
   (1274, [1275]); (1276, [1277]); (1278, [1279]); (1280, [1281]); (1282, [1283]);
   (1284, [1285]); (1286, [1287]); (1288, [1289]); (1290, [1291]); (1292, [1293]);
   (1294, [1295]); (1296, [1297]); (1298, [1299]); (1300, [1301]); (1302, [1303]);
   (1304, [1305]); (1306, [1307]); (1308, [1309]); (1310, [1311]); (1312, [1313]);
   (1314, [1315]); (1316, [1317]); (1318, [1319]); (1320, [1321]); (1322, [1323]);
   (1324, [1325]); (1326, [1327]); (1329, [1377]); (1330, [1378]); (1331, [1379]);
   (1332, [1380]); (1333, [1381]); (1334, [1382]); (1335, [1383]); (1336, [1384]);
   (1337, [1385]); (1338, [1386]); (1339, [1387]); (1340, [1388]); (1341, [1389]);
   (1342, [1390]); (1343, [1391]); (1344, [1392]); (1345, [1393]); (1346, [1394]);
   (1347, [1395]); (1348, [1396]); (1349, [1397]); (1350, [1398]); (1351, [1399]);
   (1352, [1400]); (1353, [1401]); (1354, [1402]); (1355, [1403]); (1356, [1404]);
   (1357, [1405]); (1358, [1406]); (1359, [1407]); (1360, [1408]); (1361, [1409]);
   (1362, [1410]); (1363, [1411]); (1364, [1412]); (1365, [1413]); (1366, [1414]);
   (4256, [11520]); (4257, [11521]); (4258, [11522]); (4259, [11523]); (4260, [11524]);
   (4261, [11525]); (4262, [11526]); (4263, [11527]); (4264, [11528]); (4265, [11529]);
   (4266, [11530]); (4267, [11531]); (4268, [11532]); (4269, [11533]); (4270, [11534]);
   (4271, [11535]); (4272, [11536]); (4273, [11537]); (4274, [11538]); (4275, [11539]);
   (4276, [11540]); (4277, [11541]); (4278, [11542]); (4279, [11543]); (4280, [11544]);
   (4281, [11545]); (4282, [11546]); (4283, [11547]); (4284, [11548]); (4285, [11549]);
   (4286, [11550]); (4287, [11551]); (4288, [11552]); (4289, [11553]); (4290, [11554]);
   (4291, [11555]); (4292, [11556]); (4293, [11557]); (4295, [11559]); (4301, [11565]);
   (5024, [43888]); (5025, [43889]); (5026, [43890]); (5027, [43891]); (5028, [43892]);
   (5029, [43893]); (5030, [43894]); (5031, [43895]); (5032, [43896]); (5033, [43897]);
   (5034, [43898]); (5035, [43899]); (5036, [43900]); (5037, [43901]); (5038, [43902]);
   (5039, [43903]); (5040, [43904]); (5041, [43905]); (5042, [43906]); (5043, [43907]);
   (5044, [43908]); (5045, [43909]); (5046, [43910]); (5047, [43911]); (5048, [43912]);
   (5049, [43913]); (5050, [43914]); (5051, [43915]); (5052, [43916]); (5053, [43917]);
   (5054, [43918]); (5055, [43919]); (5056, [43920]); (5057, [43921]); (5058, [43922]);
   (5059, [43923]); (5060, [43924]); (5061, [43925]); (5062, [43926]); (5063, [43927]);
   (5064, [43928]); (5065, [43929]); (5066, [43930]); (5067, [43931]); (5068, [43932]);
   (5069, [43933]); (5070, [43934]); (5071, [43935]); (5072, [43936]); (5073, [43937]);
   (5074, [43938]); (5075, [43939]); (5076, [43940]); (5077, [43941]); (5078, [43942]);
   (5079, [43943]); (5080, [43944]); (5081, [43945]); (5082, [43946]); (5083, [43947]);
   (5084, [43948]); (5085, [43949]); (5086, [43950]); (5087, [43951]); (5088, [43952]);
   (5089, [43953]); (5090, [43954]); (5091, [43955]); (5092, [43956]); (5093, [43957]);
   (5094, [43958]); (5095, [43959]); (5096, [43960]); (5097, [43961]); (5098, [43962]);
   (5099, [43963]); (5100, [43964]); (5101, [43965]); (5102, [43966]); (5103, [43967]);
   (5104, [5112]); (5105, [5113]); (5106, [5114]); (5107, [5115]); (5108, [5116]);
   (5109, [5117]); (7312, [4304]); (7313, [4305]); (7314, [4306]); (7315, [4307]);
   (7316, [4308]); (7317, [4309]); (7318, [4310]); (7319, [4311]); (7320, [4312]);
   (7321, [4313]); (7322, [4314]); (7323, [4315]); (7324, [4316]); (7325, [4317]);
   (7326, [4318]); (7327, [4319]); (7328, [4320]); (7329, [4321]); (7330, [4322]);
   (7331, [4323]); (7332, [4324]); (7333, [4325]); (7334, [4326]); (7335, [4327]);
   (7336, [4328]); (7337, [4329]); (7338, [4330]); (7339, [4331]); (7340, [4332]);
   (7341, [4333]); (7342, [4334]); (7343, [4335]); (7344, [4336]); (7345, [4337]);
   (7346, [4338]); (7347, [4339]); (7348, [4340]); (7349, [4341]); (7350, [4342]);
   (7351, [4343]); (7352, [4344]); (7353, [4345]); (7354, [4346]); (7357, [4349]);
   (7358, [4350]); (7359, [4351]); (7680, [7681]); (7682, [7683]); (7684, [7685]);
   (7686, [7687]); (7688, [7689]); (7690, [7691]); (7692, [7693]); (7694, [7695]);
   (7696, [7697]); (7698, [7699]); (7700, [7701]); (7702, [7703]); (7704, [7705]);
   (7706, [7707]); (7708, [7709]); (7710, [7711]); (7712, [7713]); (7714, [7715]);
   (7716, [7717]); (7718, [7719]); (7720, [7721]); (7722, [7723]); (7724, [7725]);
   (7726, [7727]); (7728, [7729]); (7730, [7731]); (7732, [7733]); (7734, [7735]);
   (7736, [7737]); (7738, [7739]); (7740, [7741]); (7742, [7743]); (7744, [7745]);
   (7746, [7747]); (7748, [7749]); (7750, [7751]); (7752, [7753]); (7754, [7755]);
   (7756, [7757]); (7758, [7759]); (7760, [7761]); (7762, [7763]); (7764, [7765]);
   (7766, [7767]); (7768, [7769]); (7770, [7771]); (7772, [7773]); (7774, [7775]);
   (7776, [7777]); (7778, [7779]); (7780, [7781]); (7782, [7783]); (7784, [7785]);
   (7786, [7787]); (7788, [7789]); (7790, [7791]); (7792, [7793]); (7794, [7795]);
   (7796, [7797]); (7798, [7799]); (7800, [7801]); (7802, [7803]); (7804, [7805]);
   (7806, [7807]); (7808, [7809]); (7810, [7811]); (7812, [7813]); (7814, [7815]);
   (7816, [7817]); (7818, [7819]); (7820, [7821]); (7822, [7823]); (7824, [7825]);
   (7826, [7827]); (7828, [7829]); (7838, [223]); (7840, [7841]); (7842, [7843]);
   (7844, [7845]); (7846, [7847]); (7848, [7849]); (7850, [7851]); (7852, [7853]);
   (7854, [7855]); (7856, [7857]); (7858, [7859]); (7860, [7861]); (7862, [7863]);
   (7864, [7865]); (7866, [7867]); (7868, [7869]); (7870, [7871]); (7872, [7873]);
   (7874, [7875]); (7876, [7877]); (7878, [7879]); (7880, [7881]); (7882, [7883]);
   (7884, [7885]); (7886, [7887]); (7888, [7889]); (7890, [7891]); (7892, [7893]);
   (7894, [7895]); (7896, [7897]); (7898, [7899]); (7900, [7901]); (7902, [7903]);
   (7904, [7905]); (7906, [7907]); (7908, [7909]); (7910, [7911]); (7912, [7913]);
   (7914, [7915]); (7916, [7917]); (7918, [7919]); (7920, [7921]); (7922, [7923]);
   (7924, [7925]); (7926, [7927]); (7928, [7929]); (7930, [7931]); (7932, [7933]);
   (7934, [7935]); (7944, [7936]); (7945, [7937]); (7946, [7938]); (7947, [7939]);
   (7948, [7940]); (7949, [7941]); (7950, [7942]); (7951, [7943]); (7960, [7952]);
   (7961, [7953]); (7962, [7954]); (7963, [7955]); (7964, [7956]); (7965, [7957]);
   (7976, [7968]); (7977, [7969]); (7978, [7970]); (7979, [7971]); (7980, [7972]);
   (7981, [7973]); (7982, [7974]); (7983, [7975]); (7992, [7984]); (7993, [7985]);
   (7994, [7986]); (7995, [7987]); (7996, [7988]); (7997, [7989]); (7998, [7990]);
   (7999, [7991]); (8008, [8000]); (8009, [8001]); (8010, [8002]); (8011, [8003]);
   (8012, [8004]); (8013, [8005]); (8025, [8017]); (8027, [8019]); (8029, [8021]);
   (8031, [8023]); (8040, [8032]); (8041, [8033]); (8042, [8034]); (8043, [8035]);
   (8044, [8036]); (8045, [8037]); (8046, [8038]); (8047, [8039]); (8072, [8064]);
   (8073, [8065]); (8074, [8066]); (8075, [8067]); (8076, [8068]); (8077, [8069]);
   (8078, [8070]); (8079, [8071]); (8088, [8080]); (8089, [8081]); (8090, [8082]);
   (8091, [8083]); (8092, [8084]); (8093, [8085]); (8094, [8086]); (8095, [8087]);
   (8104, [8096]); (8105, [8097]); (8106, [8098]); (8107, [8099]); (8108, [8100]);
   (8109, [8101]); (8110, [8102]); (8111, [8103]); (8120, [8112]); (8121, [8113]);
   (8122, [8048]); (8123, [8049]); (8124, [8115]); (8136, [8050]); (8137, [8051]);
   (8138, [8052]); (8139, [8053]); (8140, [8131]); (8152, [8144]); (8153, [8145]);
   (8154, [8054]); (8155, [8055]); (8168, [8160]); (8169, [8161]); (8170, [8058]);
   (8171, [8059]); (8172, [8165]); (8184, [8056]); (8185, [8057]); (8186, [8060]);
   (8187, [8061]); (8188, [8179]); (8486, [969]); (8490, [107]); (8491, [229]);
   (8498, [8526]); (8544, [8560]); (8545, [8561]); (8546, [8562]); (8547, [8563]);
   (8548, [8564]); (8549, [8565]); (8550, [8566]); (8551, [8567]); (8552, [8568]);
   (8553, [8569]); (8554, [8570]); (8555, [8571]); (8556, [8572]); (8557, [8573]);
   (8558, [8574]); (8559, [8575]); (8579, [8580]); (9398, [9424]); (9399, [9425]);
   (9400, [9426]); (9401, [9427]); (9402, [9428]); (9403, [9429]); (9404, [9430]);
   (9405, [9431]); (9406, [9432]); (9407, [9433]); (9408, [9434]); (9409, [9435]);
   (9410, [9436]); (9411, [9437]); (9412, [9438]); (9413, [9439]); (9414, [9440]);
   (9415, [9441]); (9416, [9442]); (9417, [9443]); (9418, [9444]); (9419, [9445]);
   (9420, [9446]); (9421, [9447]); (9422, [9448]); (9423, [9449]); (11264, [11312]);
   (11265, [11313]); (11266, [11314]); (11267, [11315]); (11268, [11316]);
   (11269, [11317]); (11270, [11318]); (11271, [11319]); (11272, [11320]);
   (11273, [11321]); (11274, [11322]); (11275, [11323]); (11276, [11324]);
   (11277, [11325]); (11278, [11326]); (11279, [11327]); (11280, [11328]);
   (11281, [11329]); (11282, [11330]); (11283, [11331]); (11284, [11332]);
   (11285, [11333]); (11286, [11334]); (11287, [11335]); (11288, [11336]);
   (11289, [11337]); (11290, [11338]); (11291, [11339]); (11292, [11340]);
   (11293, [11341]); (11294, [11342]); (11295, [11343]); (11296, [11344]);
   (11297, [11345]); (11298, [11346]); (11299, [11347]); (11300, [11348]);
   (11301, [11349]); (11302, [11350]); (11303, [11351]); (11304, [11352]);
   (11305, [11353]); (11306, [11354]); (11307, [11355]); (11308, [11356]);
   (11309, [11357]); (11310, [11358]); (11311, [11359]); (11360, [11361]);
   (11362, [619]); (11363, [7549]); (11364, [637]); (11367, [11368]); (11369, [11370]);
   (11371, [11372]); (11373, [593]); (11374, [625]); (11375, [592]); (11376, [594]);
   (11378, [11379]); (11381, [11382]); (11390, [575]); (11391, [576]);
   (11392, [11393]); (11394, [11395]); (11396, [11397]); (11398, [11399]);
   (11400, [11401]); (11402, [11403]); (11404, [11405]); (11406, [11407]);
   (11408, [11409]); (11410, [11411]); (11412, [11413]); (11414, [11415]);
   (11416, [11417]); (11418, [11419]); (11420, [11421]); (11422, [11423]);
   (11424, [11425]); (11426, [11427]); (11428, [11429]); (11430, [11431]);
   (11432, [11433]); (11434, [11435]); (11436, [11437]); (11438, [11439]);
   (11440, [11441]); (11442, [11443]); (11444, [11445]); (11446, [11447]);
   (11448, [11449]); (11450, [11451]); (11452, [11453]); (11454, [11455]);
   (11456, [11457]); (11458, [11459]); (11460, [11461]); (11462, [11463]);
   (11464, [11465]); (11466, [11467]); (11468, [11469]); (11470, [11471]);
   (11472, [11473]); (11474, [11475]); (11476, [11477]); (11478, [11479]);
   (11480, [11481]); (11482, [11483]); (11484, [11485]); (11486, [11487]);
   (11488, [11489]); (11490, [11491]); (11499, [11500]); (11501, [11502]);
   (11506, [11507]); (42560, [42561]); (42562, [42563]); (42564, [42565]);
   (42566, [42567]); (42568, [42569]); (42570, [42571]); (42572, [42573]);
   (42574, [42575]); (42576, [42577]); (42578, [42579]); (42580, [42581]);
   (42582, [42583]); (42584, [42585]); (42586, [42587]); (42588, [42589]);
   (42590, [42591]); (42592, [42593]); (42594, [42595]); (42596, [42597]);
   (42598, [42599]); (42600, [42601]); (42602, [42603]); (42604, [42605]);
   (42624, [42625]); (42626, [42627]); (42628, [42629]); (42630, [42631]);
   (42632, [42633]); (42634, [42635]); (42636, [42637]); (42638, [42639]);
   (42640, [42641]); (42642, [42643]); (42644, [42645]); (42646, [42647]);
   (42648, [42649]); (42650, [42651]); (42786, [42787]); (42788, [42789]);
   (42790, [42791]); (42792, [42793]); (42794, [42795]); (42796, [42797]);
   (42798, [42799]); (42802, [42803]); (42804, [42805]); (42806, [42807]);
   (42808, [42809]); (42810, [42811]); (42812, [42813]); (42814, [42815]);
   (42816, [42817]); (42818, [42819]); (42820, [42821]); (42822, [42823]);
   (42824, [42825]); (42826, [42827]); (42828, [42829]); (42830, [42831]);
   (42832, [42833]); (42834, [42835]); (42836, [42837]); (42838, [42839]);
   (42840, [42841]); (42842, [42843]); (42844, [42845]); (42846, [42847]);
   (42848, [42849]); (42850, [42851]); (42852, [42853]); (42854, [42855]);
   (42856, [42857]); (42858, [42859]); (42860, [42861]); (42862, [42863]);
   (42873, [42874]); (42875, [42876]); (42877, [7545]); (42878, [42879]);
   (42880, [42881]); (42882, [42883]); (42884, [42885]); (42886, [42887]);
   (42891, [42892]); (42893, [613]); (42896, [42897]); (42898, [42899]);
   (42902, [42903]); (42904, [42905]); (42906, [42907]); (42908, [42909]);
   (42910, [42911]); (42912, [42913]); (42914, [42915]); (42916, [42917]);
   (42918, [42919]); (42920, [42921]); (42922, [614]); (42923, [604]); (42924, [609]);
   (42925, [620]); (42926, [618]); (42928, [670]); (42929, [647]); (42930, [669]);
   (42931, [43859]); (42932, [42933]); (42934, [42935]); (42936, [42937]);
   (42938, [42939]); (42940, [42941]); (42942, [42943]); (42944, [42945]);
   (42946, [42947]); (42948, [42900]); (42949, [642]); (42950, [7566]);
   (42951, [42952]); (42953, [42954]); (42960, [42961]); (42966, [42967]);
   (42968, [42969]); (42997, [42998]); (65313, [65345]); (65314, [65346]);
   (65315, [65347]); (65316, [65348]); (65317, [65349]); (65318, [65350]);
   (65319, [65351]); (65320, [65352]); (65321, [65353]); (65322, [65354]);
   (65323, [65355]); (65324, [65356]); (65325, [65357]); (65326, [65358]);
   (65327, [65359]); (65328, [65360]); (65329, [65361]); (65330, [65362]);
   (65331, [65363]); (65332, [65364]); (65333, [65365]); (65334, [65366]);
   (65335, [65367]); (65336, [65368]); (65337, [65369]); (65338, [65370]);
   (66560, [66600]); (66561, [66601]); (66562, [66602]); (66563, [66603]);
   (66564, [66604]); (66565, [66605]); (66566, [66606]); (66567, [66607]);
   (66568, [66608]); (66569, [66609]); (66570, [66610]); (66571, [66611]);
   (66572, [66612]); (66573, [66613]); (66574, [66614]); (66575, [66615]);
   (66576, [66616]); (66577, [66617]); (66578, [66618]); (66579, [66619]);
   (66580, [66620]); (66581, [66621]); (66582, [66622]); (66583, [66623]);
   (66584, [66624]); (66585, [66625]); (66586, [66626]); (66587, [66627]);
   (66588, [66628]); (66589, [66629]); (66590, [66630]); (66591, [66631]);
   (66592, [66632]); (66593, [66633]); (66594, [66634]); (66595, [66635]);
   (66596, [66636]); (66597, [66637]); (66598, [66638]); (66599, [66639]);
   (66736, [66776]); (66737, [66777]); (66738, [66778]); (66739, [66779]);
   (66740, [66780]); (66741, [66781]); (66742, [66782]); (66743, [66783]);
   (66744, [66784]); (66745, [66785]); (66746, [66786]); (66747, [66787]);
   (66748, [66788]); (66749, [66789]); (66750, [66790]); (66751, [66791]);
   (66752, [66792]); (66753, [66793]); (66754, [66794]); (66755, [66795]);
   (66756, [66796]); (66757, [66797]); (66758, [66798]); (66759, [66799]);
   (66760, [66800]); (66761, [66801]); (66762, [66802]); (66763, [66803]);
   (66764, [66804]); (66765, [66805]); (66766, [66806]); (66767, [66807]);
   (66768, [66808]); (66769, [66809]); (66770, [66810]); (66771, [66811]);
   (66928, [66967]); (66929, [66968]); (66930, [66969]); (66931, [66970]);
   (66932, [66971]); (66933, [66972]); (66934, [66973]); (66935, [66974]);
   (66936, [66975]); (66937, [66976]); (66938, [66977]); (66940, [66979]);
   (66941, [66980]); (66942, [66981]); (66943, [66982]); (66944, [66983]);
   (66945, [66984]); (66946, [66985]); (66947, [66986]); (66948, [66987]);
   (66949, [66988]); (66950, [66989]); (66951, [66990]); (66952, [66991]);
   (66953, [66992]); (66954, [66993]); (66956, [66995]); (66957, [66996]);
   (66958, [66997]); (66959, [66998]); (66960, [66999]); (66961, [67000]);
   (66962, [67001]); (66964, [67003]); (66965, [67004]); (68736, [68800]);
   (68737, [68801]); (68738, [68802]); (68739, [68803]); (68740, [68804]);
   (68741, [68805]); (68742, [68806]); (68743, [68807]); (68744, [68808]);
   (68745, [68809]); (68746, [68810]); (68747, [68811]); (68748, [68812]);
   (68749, [68813]); (68750, [68814]); (68751, [68815]); (68752, [68816]);
   (68753, [68817]); (68754, [68818]); (68755, [68819]); (68756, [68820]);
   (68757, [68821]); (68758, [68822]); (68759, [68823]); (68760, [68824]);
   (68761, [68825]); (68762, [68826]); (68763, [68827]); (68764, [68828]);
   (68765, [68829]); (68766, [68830]); (68767, [68831]); (68768, [68832]);
   (68769, [68833]); (68770, [68834]); (68771, [68835]); (68772, [68836]);
   (68773, [68837]); (68774, [68838]); (68775, [68839]); (68776, [68840]);
   (68777, [68841]); (68778, [68842]); (68779, [68843]); (68780, [68844]);
   (68781, [68845]); (68782, [68846]); (68783, [68847]); (68784, [68848]);
   (68785, [68849]); (68786, [68850]); (71840, [71872]); (71841, [71873]);
   (71842, [71874]); (71843, [71875]); (71844, [71876]); (71845, [71877]);
   (71846, [71878]); (71847, [71879]); (71848, [71880]); (71849, [71881]);
   (71850, [71882]); (71851, [71883]); (71852, [71884]); (71853, [71885]);
   (71854, [71886]); (71855, [71887]); (71856, [71888]); (71857, [71889]);
   (71858, [71890]); (71859, [71891]); (71860, [71892]); (71861, [71893]);
   (71862, [71894]); (71863, [71895]); (71864, [71896]); (71865, [71897]);
   (71866, [71898]); (71867, [71899]); (71868, [71900]); (71869, [71901]);
   (71870, [71902]); (71871, [71903]); (93760, [93792]); (93761, [93793]);
   (93762, [93794]); (93763, [93795]); (93764, [93796]); (93765, [93797]);
   (93766, [93798]); (93767, [93799]); (93768, [93800]); (93769, [93801]);
   (93770, [93802]); (93771, [93803]); (93772, [93804]); (93773, [93805]);
   (93774, [93806]); (93775, [93807]); (93776, [93808]); (93777, [93809]);
   (93778, [93810]); (93779, [93811]); (93780, [93812]); (93781, [93813]);
   (93782, [93814]); (93783, [93815]); (93784, [93816]); (93785, [93817]);
   (93786, [93818]); (93787, [93819]); (93788, [93820]); (93789, [93821]);
   (93790, [93822]); (93791, [93823]); (125184, [125218]); (125185, [125219]);
   (125186, [125220]); (125187, [125221]); (125188, [125222]); (125189, [125223]);
   (125190, [125224]); (125191, [125225]); (125192, [125226]); (125193, [125227]);
   (125194, [125228]); (125195, [125229]); (125196, [125230]); (125197, [125231]);
   (125198, [125232]); (125199, [125233]); (125200, [125234]); (125201, [125235]);
   (125202, [125236]); (125203, [125237]); (125204, [125238]); (125205, [125239]);
   (125206, [125240]); (125207, [125241]); (125208, [125242]); (125209, [125243]);
   (125210, [125244]); (125211, [125245]); (125212, [125246]); (125213, [125247]);
   (125214, [125248]); (125215, [125249]); (125216, [125250]); (125217, [125251])]%N.

Definition cased_ranges : list (N * N) :=
  [(65, 90); (97, 122); (170, 170); (181, 181); (186, 186); (192, 214); (216, 246);
   (248, 442); (444, 447); (452, 659); (661, 696); (704, 705); (736, 740); (837, 837);
   (880, 883); (886, 887); (890, 893); (895, 895); (902, 902); (904, 906); (908, 908);
   (910, 929); (931, 1013); (1015, 1153); (1162, 1327); (1329, 1366); (1376, 1416);
   (4256, 4293); (4295, 4295); (4301, 4301); (4304, 4346); (4349, 4351); (5024, 5109);
   (5112, 5117); (7296, 7304); (7312, 7354); (7357, 7359); (7424, 7615); (7680, 7957);
   (7960, 7965); (7968, 8005); (8008, 8013); (8016, 8023); (8025, 8025); (8027, 8027);
   (8029, 8029); (8031, 8061); (8064, 8116); (8118, 8124); (8126, 8126); (8130, 8132);
   (8134, 8140); (8144, 8147); (8150, 8155); (8160, 8172); (8178, 8180); (8182, 8188);
   (8305, 8305); (8319, 8319); (8336, 8348); (8450, 8450); (8455, 8455); (8458, 8467);
   (8469, 8469); (8473, 8477); (8484, 8484); (8486, 8486); (8488, 8488); (8490, 8493);
   (8495, 8500); (8505, 8505); (8508, 8511); (8517, 8521); (8526, 8526); (8544, 8575);
   (8579, 8580); (9398, 9449); (11264, 11492); (11499, 11502); (11506, 11507);
   (11520, 11557); (11559, 11559); (11565, 11565); (42560, 42605); (42624, 42653);
   (42786, 42887); (42891, 42894); (42896, 42954); (42960, 42961); (42963, 42963);
   (42965, 42969); (42997, 42998); (43000, 43002); (43824, 43866); (43868, 43880);
   (43888, 43967); (64256, 64262); (64275, 64279); (65313, 65338); (65345, 65370);
   (66560, 66639); (66736, 66771); (66776, 66811); (66928, 66938); (66940, 66954);
   (66956, 66962); (66964, 66965); (66967, 66977); (66979, 66993); (66995, 67001);
   (67003, 67004); (67456, 67456); (67459, 67461); (67463, 67504); (67506, 67514);
   (68736, 68786); (68800, 68850); (71840, 71903); (93760, 93823); (119808, 119892);
   (119894, 119964); (119966, 119967); (119970, 119970); (119973, 119974);
   (119977, 119980); (119982, 119993); (119995, 119995); (119997, 120003);
   (120005, 120069); (120071, 120074); (120077, 120084); (120086, 120092);
   (120094, 120121); (120123, 120126); (120128, 120132); (120134, 120134);
   (120138, 120144); (120146, 120485); (120488, 120512); (120514, 120538);
   (120540, 120570); (120572, 120596); (120598, 120628); (120630, 120654);
   (120656, 120686); (120688, 120712); (120714, 120744); (120746, 120770);
   (120772, 120779); (122624, 122633); (122635, 122654); (125184, 125251);
   (127280, 127305); (127312, 127337); (127344, 127369)]%N.

Definition case_ignorable_ranges : list (N * N) :=
  [(39, 39); (46, 46); (58, 58); (94, 94); (96, 96); (168, 168); (173, 173);
   (175, 175); (180, 180); (183, 184); (688, 879); (884, 885); (890, 890); (900, 901);
   (903, 903); (1155, 1161); (1369, 1369); (1375, 1375); (1425, 1469); (1471, 1471);
   (1473, 1474); (1476, 1477); (1479, 1479); (1524, 1524); (1536, 1541); (1552, 1562);
   (1564, 1564); (1600, 1600); (1611, 1631); (1648, 1648); (1750, 1757); (1759, 1768);
   (1770, 1773); (1807, 1807); (1809, 1809); (1840, 1866); (1958, 1968); (2027, 2037);
   (2042, 2042); (2045, 2045); (2070, 2093); (2137, 2139); (2184, 2184); (2192, 2193);
   (2200, 2207); (2249, 2306); (2362, 2362); (2364, 2364); (2369, 2376); (2381, 2381);
   (2385, 2391); (2402, 2403); (2417, 2417); (2433, 2433); (2492, 2492); (2497, 2500);
   (2509, 2509); (2530, 2531); (2558, 2558); (2561, 2562); (2620, 2620); (2625, 2626);
   (2631, 2632); (2635, 2637); (2641, 2641); (2672, 2673); (2677, 2677); (2689, 2690);
   (2748, 2748); (2753, 2757); (2759, 2760); (2765, 2765); (2786, 2787); (2810, 2815);
   (2817, 2817); (2876, 2876); (2879, 2879); (2881, 2884); (2893, 2893); (2901, 2902);
   (2914, 2915); (2946, 2946); (3008, 3008); (3021, 3021); (3072, 3072); (3076, 3076);
   (3132, 3132); (3134, 3136); (3142, 3144); (3146, 3149); (3157, 3158); (3170, 3171);
   (3201, 3201); (3260, 3260); (3263, 3263); (3270, 3270); (3276, 3277); (3298, 3299);
   (3328, 3329); (3387, 3388); (3393, 3396); (3405, 3405); (3426, 3427); (3457, 3457);
   (3530, 3530); (3538, 3540); (3542, 3542); (3633, 3633); (3636, 3642); (3654, 3662);
   (3761, 3761); (3764, 3772); (3782, 3782); (3784, 3789); (3864, 3865); (3893, 3893);
   (3895, 3895); (3897, 3897); (3953, 3966); (3968, 3972); (3974, 3975); (3981, 3991);
   (3993, 4028); (4038, 4038); (4141, 4144); (4146, 4151); (4153, 4154); (4157, 4158);
   (4184, 4185); (4190, 4192); (4209, 4212); (4226, 4226); (4229, 4230); (4237, 4237);
   (4253, 4253); (4348, 4348); (4957, 4959); (5906, 5908); (5938, 5939); (5970, 5971);
   (6002, 6003); (6068, 6069); (6071, 6077); (6086, 6086); (6089, 6099); (6103, 6103);
   (6109, 6109); (6155, 6159); (6211, 6211); (6277, 6278); (6313, 6313); (6432, 6434);
   (6439, 6440); (6450, 6450); (6457, 6459); (6679, 6680); (6683, 6683); (6742, 6742);
   (6744, 6750); (6752, 6752); (6754, 6754); (6757, 6764); (6771, 6780); (6783, 6783);
   (6823, 6823); (6832, 6862); (6912, 6915); (6964, 6964); (6966, 6970); (6972, 6972);
   (6978, 6978); (7019, 7027); (7040, 7041); (7074, 7077); (7080, 7081); (7083, 7085);
   (7142, 7142); (7144, 7145); (7149, 7149); (7151, 7153); (7212, 7219); (7222, 7223);
   (7288, 7293); (7376, 7378); (7380, 7392); (7394, 7400); (7405, 7405); (7412, 7412);
   (7416, 7417); (7468, 7530); (7544, 7544); (7579, 7679); (8125, 8125); (8127, 8129);
   (8141, 8143); (8157, 8159); (8173, 8175); (8189, 8190); (8203, 8207); (8216, 8217);
   (8228, 8228); (8231, 8231); (8234, 8238); (8288, 8292); (8294, 8303); (8305, 8305);
   (8319, 8319); (8336, 8348); (8400, 8432); (11388, 11389); (11503, 11505);
   (11631, 11631); (11647, 11647); (11744, 11775); (11823, 11823); (12293, 12293);
   (12330, 12333); (12337, 12341); (12347, 12347); (12441, 12446); (12540, 12542);
   (40981, 40981); (42232, 42237); (42508, 42508); (42607, 42610); (42612, 42621);
   (42623, 42623); (42652, 42655); (42736, 42737); (42752, 42785); (42864, 42864);
   (42888, 42890); (42994, 42996); (43000, 43001); (43010, 43010); (43014, 43014);
   (43019, 43019); (43045, 43046); (43052, 43052); (43204, 43205); (43232, 43249);
   (43263, 43263); (43302, 43309); (43335, 43345); (43392, 43394); (43443, 43443);
   (43446, 43449); (43452, 43453); (43471, 43471); (43493, 43494); (43561, 43566);
   (43569, 43570); (43573, 43574); (43587, 43587); (43596, 43596); (43632, 43632);
   (43644, 43644); (43696, 43696); (43698, 43700); (43703, 43704); (43710, 43711);
   (43713, 43713); (43741, 43741); (43756, 43757); (43763, 43764); (43766, 43766);
   (43867, 43871); (43881, 43883); (44005, 44005); (44008, 44008); (44013, 44013);
   (64286, 64286); (64434, 64450); (65024, 65039); (65043, 65043); (65056, 65071);
   (65106, 65106); (65109, 65109); (65279, 65279); (65287, 65287); (65294, 65294);
   (65306, 65306); (65342, 65342); (65344, 65344); (65392, 65392); (65438, 65439);
   (65507, 65507); (65529, 65531); (66045, 66045); (66272, 66272); (66422, 66426);
   (67456, 67461); (67463, 67504); (67506, 67514); (68097, 68099); (68101, 68102);
   (68108, 68111); (68152, 68154); (68159, 68159); (68325, 68326); (68900, 68903);
   (69291, 69292); (69446, 69456); (69506, 69509); (69633, 69633); (69688, 69702);
   (69744, 69744); (69747, 69748); (69759, 69761); (69811, 69814); (69817, 69818);
   (69821, 69821); (69826, 69826); (69837, 69837); (69888, 69890); (69927, 69931);
   (69933, 69940); (70003, 70003); (70016, 70017); (70070, 70078); (70089, 70092);
   (70095, 70095); (70191, 70193); (70196, 70196); (70198, 70199); (70206, 70206);
   (70367, 70367); (70371, 70378); (70400, 70401); (70459, 70460); (70464, 70464);
   (70502, 70508); (70512, 70516); (70712, 70719); (70722, 70724); (70726, 70726);
   (70750, 70750); (70835, 70840); (70842, 70842); (70847, 70848); (70850, 70851);
   (71090, 71093); (71100, 71101); (71103, 71104); (71132, 71133); (71219, 71226);
   (71229, 71229); (71231, 71232); (71339, 71339); (71341, 71341); (71344, 71349);
   (71351, 71351); (71453, 71455); (71458, 71461); (71463, 71467); (71727, 71735);
   (71737, 71738); (71995, 71996); (71998, 71998); (72003, 72003); (72148, 72151);
   (72154, 72155); (72160, 72160); (72193, 72202); (72243, 72248); (72251, 72254);
   (72263, 72263); (72273, 72278); (72281, 72283); (72330, 72342); (72344, 72345);
   (72752, 72758); (72760, 72765); (72767, 72767); (72850, 72871); (72874, 72880);
   (72882, 72883); (72885, 72886); (73009, 73014); (73018, 73018); (73020, 73021);
   (73023, 73029); (73031, 73031); (73104, 73105); (73109, 73109); (73111, 73111);
   (73459, 73460); (78896, 78904); (92912, 92916); (92976, 92982); (92992, 92995);
   (94031, 94031); (94095, 94111); (94176, 94177); (94179, 94180); (110576, 110579);
   (110581, 110587); (110589, 110590); (113821, 113822); (113824, 113827);
   (118528, 118573); (118576, 118598); (119143, 119145); (119155, 119170);
   (119173, 119179); (119210, 119213); (119362, 119364); (121344, 121398);
   (121403, 121452); (121461, 121461); (121476, 121476); (121499, 121503);
   (121505, 121519); (122880, 122886); (122888, 122904); (122907, 122913);
   (122915, 122916); (122918, 122922); (123184, 123197); (123566, 123566);
   (123628, 123631); (125136, 125142); (125252, 125259); (127995, 127999);
   (917505, 917505); (917536, 917631); (917760, 917999)]%N.

Definition space_points : list N :=
  [9; 10; 11; 12; 13; 28; 29; 30; 31; 32; 133; 160; 5760; 8192; 8193; 8194; 8195; 8196;
   8197; 8198; 8199; 8200; 8201; 8202; 8232; 8233; 8239; 8287; 12288]%N.

(** The tables, by the bytes of the characters. *)
Definition upper_table : list (string * string) :=
  Eval vm_compute in map (fun e => (utf8 (fst e), utf8s (snd e))) upper_points.

Definition lower_table : list (string * string) :=
  Eval vm_compute in map (fun e => (utf8 (fst e), utf8s (snd e))) lower_points.

Definition cased_bounds : list (string * string) :=
  Eval vm_compute in map (fun r => (utf8 (fst r), utf8 (snd r))) cased_ranges.

Definition case_ignorable_bounds : list (string * string) :=
  Eval vm_compute in map (fun r => (utf8 (fst r), utf8 (snd r))) case_ignorable_ranges.

Definition spaces : list string := Eval vm_compute in map utf8 space_points.

(** [c.upper()] and [c.lower()] for one character: the letters of the ASCII
    range, and the tables beyond. *)
Definition upper_one (c : string) : string :=
  match c with
  | String b EmptyString => String (upper_char b) EmptyString
  | _ => match dict_get String.eqb upper_table c with
         | Some image => image
         | None => c
         end
  end.

Definition lower_one (c : string) : string :=
  match c with
  | String b EmptyString => String (lower_char b) EmptyString
  | _ => match dict_get String.eqb lower_table c with
         | Some image => image
         | None => c
         end
  end.

(** [c] lies in one of the ranges, bounds included. *)
Definition in_ranges (bounds : list (string * string)) (c : string) : bool :=
  existsb (fun r => negb (str_gt (fst r) c) && negb (str_gt c (snd r))) bounds.

Definition cased (c : string) : bool := in_ranges cased_bounds c.
Definition case_ignorable (c : string) : bool := in_ranges case_ignorable_bounds c.

Fixpoint skip_ignorable (cs : list string) : list string :=
  match cs with
  | [] => []
  | c :: rest => if case_ignorable c then skip_ignorable rest else cs
  end.

(** Capital sigma, and the two small sigmas. *)
Definition capital_sigma : string := Eval vm_compute in utf8 931.
Definition final_sigma : string := Eval vm_compute in utf8 962.
Definition small_sigma : string := Eval vm_compute in utf8 963.

(** A capital sigma is final when the nearest character before it that is
    not case-ignorable is cased and the nearest such character after it, if
    any, is not.  [before] holds the characters before it, nearest first. *)
Definition is_final_sigma (before after : list string) : bool :=
  match skip_ignorable before with
  | c :: _ => cased c
  | [] => false
  end
  && match skip_ignorable after with
     | c :: _ => negb (cased c)
     | [] => true
     end.

(** [lower()] of the character [c] between [before] and [after]. *)
Definition lower_image (before : list string) (c : string) (after : list string)
  : string :=
  if (c =? capital_sigma) && is_final_sigma before after
  then final_sigma else lower_one c.

Fixpoint lower_from (before cs : list string) : list string :=
  match cs with
  | [] => []
  | c :: after => lower_image before c after :: lower_from (c :: before) after
  end.

(** [s.upper()] and [s.lower()] *)
Definition upper (s : string) : string := of_chars (map upper_one (chars s)).

Definition lower (s : string) : string := of_chars (lower_from [] (chars s)).

(** [c.isspace()] *)
Definition is_space (c : string) : bool := existsb (String.eqb c) spaces.

Fixpoint lstrip_chars (cs : list string) : list string :=
  match cs with
  | [] => []
  | c :: rest => if is_space c then lstrip_chars rest else cs
  end.

(** [s.lstrip()], [s.rstrip()] and [s.strip()] *)
Definition lstrip (s : string) : string := of_chars (lstrip_chars (chars s)).

Definition rstrip (s : string) : string :=
  of_chars (rev (lstrip_chars (rev (chars s)))).

Definition strip (s : string) : string := rstrip (lstrip s).

(** *** Reading the characters *)

(** [c] is a character with all its bytes. *)
Definition complete (c : string) : bool :=
  match c with
  | EmptyString => false
  | String b r => (String.length r =? width b - 1)%nat
  end.

(** [c] is a character, or the first bytes of one that the end of the
    string cuts short. *)
Definition short (c : string) : bool :=
  match c with
  | EmptyString => false
  | String b r => (String.length r <=? width b - 1)%nat
  end.

(** [s] is made of complete characters. *)
Definition whole (s : string) : bool := forallb complete (chars s).

(** A character that [lower] leaves as it is wherever it stands. *)
Definition lower_fixed (c : string) : bool :=
  (lower_one c =? c) && negb (c =? capital_sigma).

(** Every byte of [s] satisfies [p]. *)
Fixpoint all_bytes (p : ascii -> bool) (s : string) : bool :=
  match s with
  | EmptyString => true
  | String b s' => p b && all_bytes p s'
  end.

(** What the proofs need of an image [image] of a character [c] under
    [lower]: it is not empty, it is made of complete characters that [lower]
    leaves alone, and when its upper case is written with bytes of [p], it
    is the upper case of [c] too. *)
Definition image_ok (p : ascii -> bool) (c image : string) : bool :=
  negb (image =? EmptyString)
  && whole image
  && forallb lower_fixed (chars image)
  && implb (all_bytes p (upper image)) (upper_one c =? upper image).

(** An entry of the table of [lower]: a complete character of several bytes
    with a good image. *)
Definition lower_entry_ok (p : ascii -> bool) (entry : string * string) : bool :=
  complete (fst entry)
  && (1 <? String.length (fst entry))%nat
  && image_ok p (fst entry) (snd entry).

(** A byte as a character of its own. *)
Definition byte_ok (b : ascii) : bool :=
  let c := String b EmptyString in
  let image := lower_one c in
  (if complete c
   then complete image && lower_fixed image
   else image =? c)
  && (upper_one image =? upper_one c).

(** The last byte of a string. *)
Fixpoint last_byte (s : string) : option ascii :=
  match s with
  | EmptyString => None
  | String c EmptyString => Some c
  | String _ s' => last_byte s'
  end.

(** [s.startswith(p)] *)
Definition startswith (s p : string) : bool := String.prefix p s.

(** [s.split(sep)] for a non-empty [sep]: separators are found left to right
    and do not overlap; [skip] counts the characters of a separator that is
    being passed over. *)
Fixpoint split_from (sep : string) (skip : nat) (s : string) : list string :=
  match s with
  | EmptyString => [EmptyString]
  | String c s' =>
      match skip with
      | S k => split_from sep k s'
      | O =>
          if String.prefix sep s
          then EmptyString :: split_from sep (String.length sep - 1) s'
          else match split_from sep 0 s' with
               | h :: t => String c h :: t
               | [] => [String c EmptyString]
               end
      end
  end.

Definition split (s sep : string) : list string := split_from sep 0 s.

(** [sep.join(l)] *)
Definition join (sep : string) (l : list string) : string := String.concat sep l.

(** [l[1:-1]] *)
Definition slice_1_m1 {A : Type} (l : list A) : list A := removelast (tl l).

(** [s.find(sub)]: index of the first occurrence, [-1] when there is none. *)
Fixpoint find_from (sub s : string) (i : Z) : Z :=
  if String.prefix sub s then i
  else match s with
       | EmptyString => (-1)%Z
       | String _ s' => find_from sub s' (i + 1)%Z
       end.

Definition find (s sub : string) : Z := find_from sub s 0%Z.

(** [s.rfind(sub)]: index of the last occurrence, [-1] when there is none. *)
Fixpoint rfind_from (sub s : string) (i : Z) : Z :=
  match s with
  | EmptyString => if String.prefix sub s then i else (-1)%Z
  | String _ s' =>
      let r := rfind_from sub s' (i + 1)%Z in
      if (0 <=? r)%Z then r
      else if String.prefix sub s then i else (-1)%Z
  end.

Definition rfind (s sub : string) : Z := rfind_from sub s 0%Z.

(** [sub in s] *)
Definition contains (s sub : string) : bool := (0 <=? find s sub)%Z.

(** [s[a:b]] for [0 <= a <= b]. *)
Definition slice (s : string) (a b : Z) : string :=
  String.substring (Z.to_nat a) (Z.to_nat (b - a)) s.

Fixpoint map_chars (f : ascii -> ascii) (s : string) : string :=
  match s with
  | EmptyString => EmptyString
  | String c s' => String (f c) (map_chars f s')
  end.

(** Truth value of an optional string: [None] and the empty string are false. *)
Definition truthy_str (x : option string) : bool :=
  match x with
  | Some s => negb (s =? EmptyString)
  | None => false
  end.

Definition opt_str_eqb (x y : option string) : bool :=
  match x, y with
  | None, None => true
  | Some a, Some b => a =? b
  | _, _ => false
  end.

(** [s.replace(old, new)] for a non-empty [old]: occurrences are found left
    to right and do not overlap; [skip] counts the characters of an
    occurrence that is being passed over. *)
Fixpoint replace_from (old new : string) (skip : nat) (s : string) : string :=
  match s with
  | EmptyString => EmptyString
  | String c s' =>
      match skip with
      | S k => replace_from old new k s'
      | O =>
          if String.prefix old s
          then new ++ replace_from old new (String.length old - 1) s'
          else String c (replace_from old new 0 s')
      end
  end.

Definition replace (s old new : string) : string := replace_from old new 0 s.

Definition newline : ascii := ascii_of_nat 10.
Definition lbrace : ascii := "{"%char.
Definition rbrace : ascii := "}"%char.

(** The character [c] does not occur in [s]. *)
Fixpoint char_absent (c : ascii) (s : string) : Prop :=
  match s with
  | EmptyString => True
  | String a s' => c <> a /\ char_absent c s'
  end.

End Py.

Import Py.

Notation "x <- c ;; k" := (Py.bind c (fun x => k))
  (at level 61, c at next level, right associativity).

(** ** JSON values, as [json.loads] returns them *)

Module Json.

Inductive json : Type :=
| JNull
| JBool (b : bool)
| JNum (q : Q)
| JStr (s : string)
| JArr (items : list json)
| JObj (members : list (string * json)).

(** Truth value of a Python object: [None], [False], zero and the empty
    string, list and dict are false. *)
Definition truthy (v : json) : bool :=
  match v with
  | JNull => false
  | JBool b => b
  | JNum q => negb (Qeq_bool q (0 # 1))
  | JStr s => negb (s =? EmptyString)
  | JArr l => match l with [] => false | _ => true end
  | JObj d => match d with [] => false | _ => true end
  end.

(** [d.get(k)] on the members of a dict: a missing key gives [None]. *)
Definition lookup (d : list (string * json)) (k : string) : json :=
  match dict_get String.eqb d k with
  | Some v => v
  | None => JNull
  end.

(** [obj.get(k)]: only a dict has [get]. *)
Definition get (obj : json) (k : string) : exc json :=
  match obj with
  | JObj d => Return (lookup d k)
  | _ => Raise AttributeError
  end.

(** [k in obj] for a dict. *)
Definition has_key (obj : json) (k : string) : bool :=
  match obj with
  | JObj d => dict_contains String.eqb d k
  | _ => false
  end.

Definition is_null (v : json) : bool :=
  match v with
  | JNull => true
  | _ => false
  end.

Definition of_opt_str (x : option string) : json :=
  match x with
  | Some s => JStr s
  | None => JNull
  end.

End Json.

Import Json.

(** ** data_manager.py *)

Module DataManager.

(** Rows of the three remote tables, as the table reads return them. *)
Record ClipRow : Type := {
  c_id : string;
  c_storage_key : string;
  c_duration_s : Q;
  c_created_at : string
}.

Record AnalysisRow : Type := {
  a_id : string;
  a_clip_id : string;
  a_status : string;
  a_shot_type : option string;
  a_result : option string;
  a_confidence : option Q;
  a_tips_text : option string;
  a_completed_at : option string
}.

Record OverrideRow : Type := {
  o_analysis_id : string;
  o_field_name : string;
  o_override_value : option string;
  o_created_at : string
}.

(** A row of the evaluation dataset: the columns of the joined query, and
    the keys of the dict [_process_fallback_data] builds. *)
Record Row : Type := {
  clip_id : string;
  storage_key : string;
  duration_s : Q;
  clip_created_at : string;
  analysis_id : string;
  original_shot_type : option string;
  original_result : option string;
  confidence : option Q;
  tips_text : option string;
  completed_at : option string;
  ground_truth_shot_type : option string;
  ground_truth_result : option string
}.

(** Keys of [overrides_dict]: the tuple [(analysis_id, field_name)]. *)
Definition key_eqb (k1 k2 : string * string) : bool :=
  (fst k1 =? fst k2) && (snd k1 =? snd k2).

(** [{clip['id']: clip for clip in clips_data}] *)
Definition clips_dict (clips_data : list ClipRow) : list (string * ClipRow) :=
  fold_left (fun d clip => dict_set String.eqb d (c_id clip) clip) clips_data [].

(** [{analysis['clip_id']: analysis for analysis in analysis_data}] *)
Definition analysis_dict (analysis_data : list AnalysisRow)
  : list (string * AnalysisRow) :=
  fold_left (fun d analysis => dict_set String.eqb d (a_clip_id analysis) analysis)
            analysis_data [].

(** One turn of the loop over [overrides_data]. *)
Definition overrides_step (d : list (string * string * OverrideRow))
           (override : OverrideRow) : list (string * string * OverrideRow) :=
  let key := (o_analysis_id override, o_field_name override) in
  match dict_get key_eqb d key with
  | None => dict_set key_eqb d key override
  | Some kept =>
      if str_gt (o_created_at override) (o_created_at kept)
      then dict_set key_eqb d key override
      else d
  end.

Definition overrides_dict (overrides_data : list OverrideRow)
  : list (string * string * OverrideRow) :=
  fold_left overrides_step overrides_data [].

(** The dict [combined] of one clip and its analysis. *)
Definition combined (ovd : list (string * string * OverrideRow))
           (clip_id : string) (clip : ClipRow) (analysis : AnalysisRow) : Row :=
  let shot_type_override := dict_get key_eqb ovd (a_id analysis, "shot_type") in
  let result_override := dict_get key_eqb ovd (a_id analysis, "result") in
  {| clip_id := clip_id;
     storage_key := c_storage_key clip;
     duration_s := c_duration_s clip;
     clip_created_at := c_created_at clip;
     analysis_id := a_id analysis;
     original_shot_type := a_shot_type analysis;
     original_result := a_result analysis;
     confidence := a_confidence analysis;
     tips_text := a_tips_text analysis;
     completed_at := a_completed_at analysis;
     ground_truth_shot_type :=
       match shot_type_override with
       | Some o => o_override_value o
       | None => a_shot_type analysis
       end;
     ground_truth_result :=
       match result_override with
       | Some o => o_override_value o
       | None => a_result analysis
       end |}.

Definition _process_fallback_data (clips_data : list ClipRow)
           (analysis_data : list AnalysisRow) (overrides_data : list OverrideRow)
  : list Row :=
  let cd := clips_dict clips_data in
  let ad := analysis_dict analysis_data in
  let ovd := overrides_dict overrides_data in
  flat_map (fun item : string * ClipRow =>
              let (clip_id, clip) := item in
              match dict_get String.eqb ad clip_id with
              | Some analysis => [combined ovd clip_id clip analysis]
              | None => []
              end) cd.

(** The fallback branch of [fetch_evaluation_dataset]: the analysis table is
    read with [.eq('status', 'success')]. *)
Definition fetch_fallback (clips : list ClipRow) (analyses : list AnalysisRow)
           (overrides : list OverrideRow) : list Row :=
  _process_fallback_data clips
    (filter (fun a => a_status a =? "success") analyses) overrides.

(** [fetch_evaluation_dataset]: [rpc] is the answer of the remote procedure
    call that runs the joined query, [None] when the call raises; the three
    tables are what the fallback reads. *)
Definition fetch_evaluation_dataset (rpc : option (list Row))
           (clips : list ClipRow) (analyses : list AnalysisRow)
           (overrides : list OverrideRow) : list Row :=
  match rpc with
  | Some data => data
  | None => fetch_fallback clips analyses overrides
  end.

(** *** Override resolution *)

(** [o] is an override of the field [field] of the analysis [aid]. *)
Definition matches (aid field : string) (o : OverrideRow) : bool :=
  (o_analysis_id o =? aid) && (o_field_name o =? field).

(** [o] is an override of [(aid, field)] whose [created_at] no other
    override of [(aid, field)] exceeds. *)
Definition is_latest (overrides : list OverrideRow) (aid field : string)
           (o : OverrideRow) : Prop :=
  In o overrides /\ matches aid field o = true
  /\ (forall o', In o' overrides -> matches aid field o' = true ->
                 str_gt (o_created_at o') (o_created_at o) = false).

(** The override-resolution rule: [gt] is the value of a latest override of
    [(aid, field)], and the original value when there is no override. *)
Definition resolved (overrides : list OverrideRow) (aid field : string)
           (original gt : option string) : Prop :=
  ((forall o, In o overrides -> matches aid field o = false) /\ gt = original)
  \/ (exists o, is_latest overrides aid field o /\ gt = o_override_value o).

(** What the loop over [overrides_data] maintains for the key [(aid, field)]:
    the dict holds a latest override among those [seen], and no entry when
    none of them is for the key. *)
Definition kept_ok (aid field : string) (d : list (string * string * OverrideRow))
           (seen : list OverrideRow) : Prop :=
  match dict_get key_eqb d (aid, field) with
  | None => forall o, In o seen -> matches aid field o = false
  | Some o => is_latest seen aid field o
  end.

(** *** The joined query of [fetch_evaluation_dataset]

    The SQL text is read as a relation between the tables and a result row.
    [created_at] is a timestamp column: [instant] gives the point in time
    that the text of a timestamp, as a table read returns it, denotes.
    [ORDER BY created_at DESC LIMIT 1] takes a row that no matching row is
    later than, and leaves the choice among rows of one instant open. *)

Section JoinedQuery.
Variable instant : string -> Z.

(** [o] is an override of [(aid, field)] that no override of [(aid, field)]
    is later than. *)
Definition is_newest (overrides : list OverrideRow) (aid field : string)
           (o : OverrideRow) : Prop :=
  In o overrides /\ matches aid field o = true
  /\ (forall o', In o' overrides -> matches aid field o' = true ->
                 (instant (o_created_at o') <= instant (o_created_at o))%Z).

(** [(SELECT override_value FROM analysis_overrides ao WHERE ao.analysis_id =
    a.id AND ao.field_name = field ORDER BY ao.created_at DESC LIMIT 1)]:
    SQL NULL when no row matches. *)
Definition latest_override_value (overrides : list OverrideRow)
           (aid field : string) (v : option string) : Prop :=
  ((forall o, In o overrides -> matches aid field o = false) /\ v = None)
  \/ (exists o, is_newest overrides aid field o /\ v = o_override_value o).

(** [COALESCE(v, d)] *)
Definition coalesce (v d : option string) : option string :=
  match v with
  | Some x => Some x
  | None => d
  end.

(** [r] is a row of [FROM clips c JOIN analysis a ON c.id = a.clip_id
    WHERE a.status = 'success'] with the selected columns. *)
Definition joined_query_row (clips : list ClipRow) (analyses : list AnalysisRow)
           (overrides : list OverrideRow) (r : Row) : Prop :=
  exists c a v_shot v_result,
    In c clips /\ In a analyses /\ c_id c = a_clip_id a
    /\ a_status a = "success"
    /\ latest_override_value overrides (a_id a) "shot_type" v_shot
    /\ latest_override_value overrides (a_id a) "result" v_result
    /\ r = {| clip_id := c_id c;
              storage_key := c_storage_key c;
              duration_s := c_duration_s c;
              clip_created_at := c_created_at c;
              analysis_id := a_id a;
              original_shot_type := a_shot_type a;
              original_result := a_result a;
              confidence := a_confidence a;
              tips_text := a_tips_text a;
              completed_at := a_completed_at a;
              ground_truth_shot_type := coalesce v_shot (a_shot_type a);
              ground_truth_result := coalesce v_result (a_result a) |}.

End JoinedQuery.

(** The text order of the fallback is the time order of the query on the
    timestamps of [overrides]. *)
Definition text_order_is_time_order (instant : string -> Z)
           (overrides : list OverrideRow) : Prop :=
  forall o1 o2, In o1 overrides -> In o2 overrides ->
    (str_gt (o_created_at o1) (o_created_at o2) = true
     <-> (instant (o_created_at o2) < instant (o_created_at o1))%Z).

(** *** The persisted snapshot *)

Record GroundTruth : Type := {
  shot_type : option string;
  result : option string
}.

Record OriginalAnalysis : Type := {
  oa_shot_type : option string;
  oa_result : option string;
  oa_confidence : option Q;
  oa_tips_text : option string
}.

Record Metadata : Type := {
  md_analysis_id : string;
  md_clip_created_at : string;
  md_completed_at : option string
}.

Record Entry : Type := {
  e_clip_id : string;
  e_storage_key : string;
  e_duration_s : Q;
  e_video_path : string;
  ground_truth : GroundTruth;
  original_analysis : OriginalAnalysis;
  metadata : Metadata
}.

(** The entries [save_ground_truth] writes, for the rows of the data frame. *)
Definition save_ground_truth (videos_dir : string) (df : list Row) : list Entry :=
  map (fun row =>
         {| e_clip_id := clip_id row;
            e_storage_key := storage_key row;
            e_duration_s := duration_s row;
            e_video_path := videos_dir ++ "/" ++ clip_id row ++ ".mp4";
            ground_truth := {| shot_type := ground_truth_shot_type row;
                               result := ground_truth_result row |};
            original_analysis := {| oa_shot_type := original_shot_type row;
                                    oa_result := original_result row;
                                    oa_confidence := confidence row;
                                    oa_tips_text := tips_text row |};
            metadata := {| md_analysis_id := analysis_id row;
                           md_clip_created_at := clip_created_at row;
                           md_completed_at := completed_at row |} |}) df.

(** [load_ground_truth]: [file] is the content of [ground_truth.json], [None]
    when the file does not exist. *)
Definition load_ground_truth (file : option (list Entry)) : exc (list Entry) :=
  match file with
  | None => Raise FileNotFoundError
  | Some entries => Return entries
  end.

Record Stats : Type := {
  total_clips : nat;
  shot_type_distribution : list (option string * nat);
  result_distribution : list (option string * nat);
  has_user_corrections : nat;
  average_duration : Q;
  videos_downloaded : nat;
  correction_rate : option Q
}.

(** What [get_dataset_stats] returns: the error dict or the stats dict. *)
Inductive StatsDict : Type :=
| StatsError (msg : string)
| StatsOk (stats : Stats).

(** [d[k] = d.get(k, 0) + 1] *)
Definition count_up (d : list (option string * nat)) (k : option string)
  : list (option string * nat) :=
  dict_set opt_str_eqb d k
           (match dict_get opt_str_eqb d k with Some n => n | None => 0%nat end + 1)%nat.

(** One turn of the loop of [get_dataset_stats]. *)
Definition stats_step (path_exists : string -> bool) (stats : Stats) (entry : Entry)
  : Stats :=
  let gt := ground_truth entry in
  let oa := original_analysis entry in
  {| total_clips := total_clips stats;
     shot_type_distribution := count_up (shot_type_distribution stats) (shot_type gt);
     result_distribution := count_up (result_distribution stats) (result gt);
     has_user_corrections :=
       if negb (opt_str_eqb (shot_type gt) (oa_shot_type oa))
          || negb (opt_str_eqb (result gt) (oa_result oa))
       then (has_user_corrections stats + 1)%nat
       else has_user_corrections stats;
     average_duration := Qplus (average_duration stats) (e_duration_s entry);
     videos_downloaded :=
       if path_exists (e_video_path entry)
       then (videos_downloaded stats + 1)%nat
       else videos_downloaded stats;
     correction_rate := correction_rate stats |}.

(** An entry whose ground truth differs from the original analysis. *)
Definition corrected (entry : Entry) : bool :=
  negb (opt_str_eqb (shot_type (ground_truth entry))
                    (oa_shot_type (original_analysis entry)))
  || negb (opt_str_eqb (result (ground_truth entry))
                       (oa_result (original_analysis entry))).

Definition get_dataset_stats (file : option (list Entry))
           (path_exists : string -> bool) : exc StatsDict :=
  match load_ground_truth file with
  | Raise FileNotFoundError =>
      Return (StatsError "No ground truth dataset found. Run data sync first.")
  | Raise e => Raise e
  | Return ground_truth =>
      let stats :=
        fold_left (stats_step path_exists) ground_truth
                  {| total_clips := List.length ground_truth;
                     shot_type_distribution := [];
                     result_distribution := [];
                     has_user_corrections := 0;
                     average_duration := 0 # 1;
                     videos_downloaded := 0;
                     correction_rate := None |} in
      avg <- truediv (average_duration stats) (Q_of_nat (List.length ground_truth)) ;;
      rate <- truediv (Q_of_nat (has_user_corrections stats))
                      (Q_of_nat (List.length ground_truth)) ;;
      Return (StatsOk {| total_clips := total_clips stats;
                         shot_type_distribution := shot_type_distribution stats;
                         result_distribution := result_distribution stats;
                         has_user_corrections := has_user_corrections stats;
                         average_duration := avg;
                         videos_downloaded := videos_downloaded stats;
                         correction_rate := Some rate |})
  end.

(** *** Downloading the videos *)

(** What [download_missing_videos] reaches outside the program: the signed
    URL of a storage key, the body of a GET of that URL (an error status
    raises), whether [open(video_path, 'wb')] succeeds, and what
    [f.write(content)] does at a path: [None] when the content is written
    whole, [Some partial] when the write raises and leaves [partial] in the
    file. *)
Record Storage : Type := {
  create_signed_url : string -> exc string;
  http_get : string -> exc string;
  open_for_write : string -> bool;
  f_write : string -> string -> option string
}.

(** [str(self.videos_dir / f"{clip_id}.mp4")] *)
Definition video_path (videos_dir clip_id : string) : string :=
  videos_dir ++ "/" ++ clip_id ++ ".mp4".

(** The first loop: the rows whose video file does not exist.  [files] is
    the content of the file system, by path. *)
Definition missing_videos (videos_dir : string) (files : list (string * string))
           (df : list Row) : list (string * string) :=
  flat_map (fun row =>
              if negb (dict_contains String.eqb files
                                     (video_path videos_dir (clip_id row)))
              then [(clip_id row, storage_key row)]
              else []) df.

(** The body of the [try] for one missing video up to the opened file:
    the content to write. *)
Definition fetch_video (st : Storage) (videos_dir : string) (item : string * string)
  : exc string :=
  signed_url <- create_signed_url st (snd item) ;;
  content <- http_get st signed_url ;;
  if open_for_write st (video_path videos_dir (fst item))
  then Return content else Raise OSError.

(** The second loop: the clips downloaded and the file system left.  A
    write that raises leaves the opened file with what was written, and the
    clip is not appended. *)
Fixpoint download_loop (st : Storage) (videos_dir : string)
         (missing : list (string * string)) (files : list (string * string))
  : list string * list (string * string) :=
  match missing with
  | [] => ([], files)
  | item :: rest =>
      match fetch_video st videos_dir item with
      | Return content =>
          let video_path := video_path videos_dir (fst item) in
          match f_write st video_path content with
          | None =>
              let (downloaded, files') :=
                download_loop st videos_dir rest
                              (dict_set String.eqb files video_path content) in
              (fst item :: downloaded, files')
          | Some partial =>
              download_loop st videos_dir rest
                            (dict_set String.eqb files video_path partial)
          end
      | Raise _ => download_loop st videos_dir rest files
      end
  end.

Definition download_missing_videos (st : Storage) (videos_dir : string)
           (files : list (string * string)) (df : list Row)
  : list string * list (string * string) :=
  match missing_videos videos_dir files df with
  | [] => ([], files)
  | missing => download_loop st videos_dir missing files
  end.

(** The download of an item succeeds: the file is opened for its content. *)
Definition fetched (st : Storage) (videos_dir : string) (item : string * string)
  : bool :=
  match fetch_video st videos_dir item with
  | Return _ => true
  | Raise _ => false
  end.

(** The body of the [try] returns for an item: the download succeeds and its
    content is written whole. *)
Definition saved (st : Storage) (videos_dir : string) (item : string * string)
  : bool :=
  match fetch_video st videos_dir item with
  | Return content =>
      match f_write st (video_path videos_dir (fst item)) content with
      | None => true
      | Some _ => false
      end
  | Raise _ => false
  end.

(** [d.get(k, 0)] on a distribution of [get_dataset_stats]. *)
Definition occurrences (d : list (option string * nat)) (k : option string) : nat :=
  match dict_get opt_str_eqb d k with
  | Some n => n
  | None => 0%nat
  end.

End DataManager.

(** ** evaluator.py *)

Module Evaluator.

Import DataManager.

(** The sentinel [_parse_model_output] returns when no JSON is found. *)
Definition parse_failure (raw_text : string) : json :=
  JObj [("make_miss", JNull);
        ("range", JNull);
        ("confidence", JNum (0 # 1));
        ("tips", JArr []);
        ("error", JStr "Failed to parse JSON");
        ("raw_output", JStr raw_text)].

(** The text the first [json.loads] of [_parse_model_output] is given:
    the markdown fence and a leading [json] tag are removed. *)
Definition cleaned_text (raw_text : string) : string :=
  let text := strip raw_text in
  if startswith text "```" then
    let lines := split text nl in
    let text := if (2 <? List.length lines)%nat
                then join nl (slice_1_m1 lines) else text in
    if startswith text "json" then strip (drop 4 text) else text
  else text.

(** [self.model_pricing]: price per million tokens, input and output. *)
Definition model_pricing : list (string * (Q * Q)) :=
  [("models/gemini-2.5-flash", (75 # 1000, 30 # 100)%Q);
   ("models/gemini-2.5-flash-lite", (75 # 1000, 30 # 100)%Q);
   ("models/gemini-2.5-pro", (350 # 100, 1050 # 100)%Q)].

Definition _estimate_cost (model_name : string) (video_size_bytes output_length : Z)
  : Q :=
  match dict_get String.eqb model_pricing model_name with
  | None => (0 # 1)%Q
  | Some pricing =>
      let estimated_input_tokens := Z.max 1000 (video_size_bytes / 1000) in
      let estimated_output_tokens := Z.max 100 (output_length / 4) in
      let input_cost :=
        Qmult (Qdiv (inject_Z estimated_input_tokens) (1000000 # 1)) (fst pricing) in
      let output_cost :=
        Qmult (Qdiv (inject_Z estimated_output_tokens) (1000000 # 1)) (snd pricing) in
      Qplus input_cost output_cost
  end.

Definition shot_type_mapping : list (string * string) :=
  [("LAY_UP", "lay_up");
   ("IN_PAINT", "in_paint");
   ("MID_RANGE", "mid_range");
   ("THREE_POINTER", "three_pointer");
   ("FREE_THROW", "free_throw")].

(** A byte of a key of the mapping. *)
Definition key_letter (b : ascii) : bool :=
  existsb (fun key => existsb (Ascii.eqb b) (list_ascii_of_string key))
          (map fst shot_type_mapping).

(** The argument is whatever [pred.get('range')] gave: only a string has
    [upper] and [lower]. *)
Definition _normalize_shot_type (shot_type : json) : exc (option string) :=
  if negb (truthy shot_type) then Return None
  else match shot_type with
       | JStr s =>
           Return (Some (match dict_get String.eqb shot_type_mapping (upper s) with
                         | Some v => v
                         | None => lower s
                         end))
       | _ => Raise AttributeError
       end.

Definition _normalize_result (result : json) : exc (option string) :=
  if negb (truthy result) then Return None
  else match result with
       | JStr s =>
           let result_upper := upper s in
           if result_upper =? "MAKE" then Return (Some "make")
           else if result_upper =? "MISS" then Return (Some "miss")
           else Return None
       | _ => Raise AttributeError
       end.

Record SampleResult : Type := {
  sr_clip_id : string;
  sr_ground_truth : GroundTruth;
  prediction : json;
  inference_time_s : Q;
  cost_usd : Q;
  sr_model_name : string;
  sr_fps : Z;
  sr_media_resolution : string
}.

(** The local variables of the loop of [_calculate_metrics]. *)
Record Counters : Type := {
  shot_type_correct : nat;
  result_correct : nat;
  both_correct : nat;
  valid_predictions : nat;
  shot_type_confusion : list (string * nat);
  result_confusion : list (string * nat);
  confidence_scores : list json
}.

Definition counters0 : Counters :=
  {| shot_type_correct := 0;
     result_correct := 0;
     both_correct := 0;
     valid_predictions := 0;
     shot_type_confusion := [];
     result_confusion := [];
     confidence_scores := [] |}.

(** [f"{x}"] *)
Definition format_opt (x : option string) : string :=
  match x with
  | Some s => s
  | None => "None"
  end.

(** [f"{gt} -> {pred}"] *)
Definition confusion_key (gt pred : option string) : string :=
  format_opt gt ++ " -> " ++ format_opt pred.

(** [d[key] = d.get(key, 0) + 1] *)
Definition bump (d : list (string * nat)) (key : string) : list (string * nat) :=
  dict_set String.eqb d key
           (match dict_get String.eqb d key with Some n => n | None => 0%nat end + 1)%nat.

(** One turn of the loop of [_calculate_metrics]. *)
Definition metrics_step (st : Counters) (res : SampleResult) : exc Counters :=
  let gt := sr_ground_truth res in
  let pred := prediction res in
  err <- Json.get pred "error" ;;
  if truthy err then Return st
  else
    let valid := (valid_predictions st + 1)%nat in
    let gt_shot_type := shot_type gt in
    range <- Json.get pred "range" ;;
    pred_shot_type <- _normalize_shot_type range ;;
    let st_hit := truthy_str gt_shot_type && truthy_str pred_shot_type in
    let stc := if st_hit && opt_str_eqb gt_shot_type pred_shot_type
               then (shot_type_correct st + 1)%nat else shot_type_correct st in
    let stconf := if st_hit
                  then bump (shot_type_confusion st)
                            (confusion_key gt_shot_type pred_shot_type)
                  else shot_type_confusion st in
    let gt_result := result gt in
    make_miss <- Json.get pred "make_miss" ;;
    pred_result <- _normalize_result make_miss ;;
    let r_hit := truthy_str gt_result && truthy_str pred_result in
    let rc := if r_hit && opt_str_eqb gt_result pred_result
              then (result_correct st + 1)%nat else result_correct st in
    let rconf := if r_hit
                 then bump (result_confusion st) (confusion_key gt_result pred_result)
                 else result_confusion st in
    let bc := if opt_str_eqb gt_shot_type pred_shot_type
                 && opt_str_eqb gt_result pred_result
              then (both_correct st + 1)%nat else both_correct st in
    conf <- Json.get pred "confidence" ;;
    Return {| shot_type_correct := stc;
              result_correct := rc;
              both_correct := bc;
              valid_predictions := valid;
              shot_type_confusion := stconf;
              result_confusion := rconf;
              confidence_scores :=
                if is_null conf then confidence_scores st
                else confidence_scores st ++ [conf] |}.

Fixpoint metrics_loop (st : Counters) (results : list SampleResult) : exc Counters :=
  match results with
  | [] => Return st
  | res :: rest => st' <- metrics_step st res ;; metrics_loop st' rest
  end.

(** [sum(scores)]: numbers add, [True] and [False] count as 1 and 0, and
    anything else cannot be added to a number.  Numbers are exact: the
    [OverflowError] that Python raises when an int beyond the range of
    floats meets a float or a true division is outside the model, and the
    claims about a return are stated for confidences that cannot reach it
    ([confidence_in_unit] below). *)
Fixpoint sum_scores (acc : Q) (scores : list json) : exc Q :=
  match scores with
  | [] => Return acc
  | JNum q :: rest => sum_scores (Qplus acc q) rest
  | JBool b :: rest => sum_scores (Qplus acc (if b then 1 # 1 else 0 # 1)%Q) rest
  | _ :: _ => Raise TypeError
  end.

(** [n / d if d else 0] *)
Definition ratio (n d : nat) : Q :=
  if (d =? 0)%nat then (0 # 1)%Q else Qdiv (Q_of_nat n) (Q_of_nat d).

Record Metrics : Type := {
  total_samples : nat;
  m_valid_predictions : nat;
  parse_success_rate : Q;
  shot_type_accuracy : Q;
  result_accuracy : Q;
  both_correct_accuracy : Q;
  average_confidence : Q;
  shot_type_confusion_matrix : list (string * nat);
  result_confusion_matrix : list (string * nat)
}.

(** [None] stands for the empty dict returned for no results. *)
Definition _calculate_metrics (results : list SampleResult) : exc (option Metrics) :=
  match results with
  | [] => Return None
  | _ :: _ =>
      st <- metrics_loop counters0 results ;;
      let valid := valid_predictions st in
      avg <- match confidence_scores st with
             | [] => Return (0 # 1)%Q
             | scores =>
                 total <- sum_scores (0 # 1)%Q scores ;;
                 truediv total (Q_of_nat (List.length scores))
             end ;;
      Return (Some {| total_samples := List.length results;
                      m_valid_predictions := valid;
                      parse_success_rate := ratio valid (List.length results);
                      shot_type_accuracy := ratio (shot_type_correct st) valid;
                      result_accuracy := ratio (result_correct st) valid;
                      both_correct_accuracy := ratio (both_correct st) valid;
                      average_confidence := avg;
                      shot_type_confusion_matrix := shot_type_confusion st;
                      result_confusion_matrix := result_confusion st |})
  end.

(** *** Reading the loop of [_calculate_metrics]

    What a sample contributes, for samples on which the loop does not raise. *)

(** The labels a normalizer accepts: a string, or anything false. *)
Definition label_like (v : json) : bool :=
  match v with
  | JStr _ => true
  | _ => negb (truthy v)
  end.

(** The confidences [sum] accepts, and null, which the loop leaves out. *)
Definition number_like (v : json) : bool :=
  match v with
  | JNum _ | JBool _ | JNull => true
  | _ => false
  end.

(** [pred.get('error')] is true. *)
Definition error_truthy (res : SampleResult) : bool :=
  match prediction res with
  | JObj d => truthy (lookup d "error")
  | _ => false
  end.

(** The prediction is a dict, and when it is counted its labels and its
    confidence have the expected types. *)
Definition sample_ok (res : SampleResult) : bool :=
  match prediction res with
  | JObj d =>
      if truthy (lookup d "error") then true
      else label_like (lookup d "range") && label_like (lookup d "make_miss")
           && number_like (lookup d "confidence")
  | _ => false
  end.

(** The confidence of the prediction, when it is a number, lies between 0
    and 1.  Numbers are exact here; in Python a sum that includes an int
    beyond the range of floats raises [OverflowError], which confidences
    between 0 and 1 cannot reach. *)
Definition confidence_in_unit (res : SampleResult) : bool :=
  match prediction res with
  | JObj d =>
      match lookup d "confidence" with
      | JNum q => Qle_bool (0 # 1) q && Qle_bool q (1 # 1)
      | _ => true
      end
  | _ => true
  end.

Definition value_of (c : exc (option string)) : option string :=
  match c with
  | Return y => y
  | Raise _ => None
  end.

Definition pred_shot_type (res : SampleResult) : option string :=
  match prediction res with
  | JObj d => value_of (_normalize_shot_type (lookup d "range"))
  | _ => None
  end.

Definition pred_result (res : SampleResult) : option string :=
  match prediction res with
  | JObj d => value_of (_normalize_result (lookup d "make_miss"))
  | _ => None
  end.

(** The sample is counted in [valid_predictions]. *)
Definition valid_sample (res : SampleResult) : bool := negb (error_truthy res).

(** The sample is counted in [shot_type_correct]. *)
Definition shot_type_hit (res : SampleResult) : bool :=
  valid_sample res
  && (truthy_str (shot_type (sr_ground_truth res)) && truthy_str (pred_shot_type res))
  && opt_str_eqb (shot_type (sr_ground_truth res)) (pred_shot_type res).

(** The sample is counted in [result_correct]. *)
Definition result_hit (res : SampleResult) : bool :=
  valid_sample res
  && (truthy_str (result (sr_ground_truth res)) && truthy_str (pred_result res))
  && opt_str_eqb (result (sr_ground_truth res)) (pred_result res).

(** The sample is counted in [both_correct]. *)
Definition both_hit (res : SampleResult) : bool :=
  valid_sample res
  && (opt_str_eqb (shot_type (sr_ground_truth res)) (pred_shot_type res)
      && opt_str_eqb (result (sr_ground_truth res)) (pred_result res)).

Definition count {A : Type} (f : A -> bool) (l : list A) : nat :=
  List.length (filter f l).

Definition b2n (b : bool) : nat := if b then 1%nat else 0%nat.

(** The values [sum] adds to a number. *)
Definition summable (v : json) : bool :=
  match v with
  | JNum _ | JBool _ => true
  | _ => false
  end.

(** What lies outside the program: the file system, the inference provider
    and the clock. *)
Record World : Type := {
  (** [video_path.exists()] *)
  path_exists : string -> bool;
  (** [open(video_path, 'rb').read()] *)
  read_file : string -> exc string;
  (** [generate_content] for a model, the video bytes, the prompt, the frame
      rate and the resolved media resolution: the text of the first
      candidate, [None] when the response has no candidate. *)
  generate_content : string -> string -> string -> Z -> string -> exc (option string);
  (** seconds between the two [time.time()] around the inference of a path *)
  elapsed : string -> Q;
  (** outcome of writing the artifact in [_save_results] *)
  save_results : exc unit
}.

(** [ground_truth_data[:max_samples]] *)
Definition take {A : Type} (l : list A) (n : Z) : list A :=
  if (0 <=? n)%Z then firstn (Z.to_nat n) l
  else firstn (List.length l - Z.to_nat (- n)) l.

Record Report : Type := {
  r_model_name : string;
  r_total_samples : nat;
  total_cost_usd : Q;
  average_inference_time_s : Q;
  metrics : option Metrics;
  results : list SampleResult
}.

Section Run.
Variable json_loads : string -> exc json.
Variable w : World.

(** [json_loads] stands for [json.loads]: it returns the decoded value,
    raises [JSONDecodeError] on a text that is not JSON, and can raise
    other exceptions ([RecursionError] on deep nesting, [ValueError] on an
    integer of too many digits).  The two handlers catch [JSONDecodeError]
    only. *)
Definition _parse_model_output (raw_text : string) : exc json :=
  match json_loads (cleaned_text raw_text) with
  | Return v => Return v
  | Raise JSONDecodeError =>
      let start_idx := find raw_text "{" in
      let end_idx := (rfind raw_text "}" + 1)%Z in
      if (0 <=? start_idx)%Z && (start_idx <? end_idx)%Z
      then match json_loads (slice raw_text start_idx end_idx) with
           | Return v => Return v
           | Raise JSONDecodeError => Return (parse_failure raw_text)
           | Raise e => Raise e
           end
      else Return (parse_failure raw_text)
  | Raise e => Raise e
  end.

(** Both parse attempts of [_parse_model_output] fail: the decoder raises
    [JSONDecodeError] on the cleaned text, and raises it on the text from
    the first opening brace to the last closing brace when there is one. *)
Definition parse_attempts_fail (raw_text : string) : bool :=
  match json_loads (cleaned_text raw_text) with
  | Raise JSONDecodeError =>
      let start_idx := find raw_text "{" in
      let end_idx := (rfind raw_text "}" + 1)%Z in
      if (0 <=? start_idx)%Z && (start_idx <? end_idx)%Z
      then match json_loads (slice raw_text start_idx end_idx) with
           | Raise JSONDecodeError => true
           | _ => false
           end
      else true
  | _ => false
  end.

(** [resolution_map.get(media_resolution, MEDIUM)] *)
Definition resolve_resolution (media_resolution : string) : string :=
  if (media_resolution =? "LOW") || (media_resolution =? "MEDIUM")
     || (media_resolution =? "HIGH")
  then media_resolution else "MEDIUM".

Definition _run_inference (model_name prompt video_path : string) (fps : Z)
           (media_resolution : string) : exc (json * Q) :=
  video_bytes <- read_file w video_path ;;
  response <- generate_content w model_name video_bytes prompt fps
                               (resolve_resolution media_resolution) ;;
  let raw_text := match response with Some t => t | None => EmptyString end in
  prediction <- _parse_model_output raw_text ;;
  let cost := _estimate_cost model_name (Z.of_nat (String.length video_bytes))
                             (Z.of_nat (len raw_text)) in
  Return (prediction, cost).

(** The body of the loop of [evaluate_model] for one entry: [None] when the
    entry is skipped ([continue]). *)
Definition evaluate_entry (model_name prompt : string) (fps : Z)
           (media_resolution : string) (entry : Entry) : option SampleResult :=
  let video_path := e_video_path entry in
  if negb (path_exists w video_path) then None
  else match _run_inference model_name prompt video_path fps media_resolution with
       | Raise _ => None
       | Return (prediction, cost) =>
           Some {| sr_clip_id := e_clip_id entry;
                   sr_ground_truth := ground_truth entry;
                   prediction := prediction;
                   inference_time_s := elapsed w video_path;
                   cost_usd := cost;
                   sr_model_name := model_name;
                   sr_fps := fps;
                   sr_media_resolution := media_resolution |}
       end.

Fixpoint evaluate_loop (model_name prompt : string) (fps : Z)
         (media_resolution : string) (data : list Entry) : list SampleResult :=
  match data with
  | [] => []
  | entry :: rest =>
      match evaluate_entry model_name prompt fps media_resolution entry with
      | Some res => res :: evaluate_loop model_name prompt fps media_resolution rest
      | None => evaluate_loop model_name prompt fps media_resolution rest
      end
  end.

Definition evaluate_model (model_name prompt : string)
           (ground_truth_data : list Entry) (fps : Z) (media_resolution : string)
           (max_samples : option Z) : exc Report :=
  let ground_truth_data :=
    match max_samples with
    | Some n => if (n =? 0)%Z then ground_truth_data else take ground_truth_data n
    | None => ground_truth_data
    end in
  let results := evaluate_loop model_name prompt fps media_resolution ground_truth_data in
  let total_cost := sum_Q (map cost_usd results) in
  metrics <- _calculate_metrics results ;;
  _ <- save_results w ;;
  avg <- truediv (sum_Q (map inference_time_s results))
                 (Q_of_nat (List.length results)) ;;
  Return {| r_model_name := model_name;
            r_total_samples := List.length results;
            total_cost_usd := total_cost;
            average_inference_time_s := avg;
            metrics := metrics;
            results := results |}.

(** The loop of [evaluate_model] keeps the entry. *)
Definition evaluated (model_name prompt : string) (fps : Z)
           (media_resolution : string) (entry : Entry) : bool :=
  match evaluate_entry model_name prompt fps media_resolution entry with
  | Some _ => true
  | None => false
  end.

End Run.

(** *** Reading the confusion dicts *)

(** [d.get(key, 0)] on a confusion dict. *)
Definition tally (d : list (string * nat)) (key : string) : nat :=
  match dict_get String.eqb d key with
  | Some n => n
  | None => 0%nat
  end.

(** The sample is tallied in [shot_type_confusion]: it is counted, and both
    its shot types are true. *)
Definition shot_type_pair (res : SampleResult) : bool :=
  valid_sample res
  && (truthy_str (shot_type (sr_ground_truth res)) && truthy_str (pred_shot_type res)).

(** The sample is tallied in [result_confusion]. *)
Definition result_pair (res : SampleResult) : bool :=
  valid_sample res
  && (truthy_str (result (sr_ground_truth res)) && truthy_str (pred_result res)).

Definition shot_type_key (res : SampleResult) : string :=
  confusion_key (shot_type (sr_ground_truth res)) (pred_shot_type res).

Definition result_key (res : SampleResult) : string :=
  confusion_key (result (sr_ground_truth res)) (pred_result res).

(** *** The artifact of a run *)

(** [model_name.replace("/", "_").replace("models_", "")]: the name of the
    directory [_save_results] writes in, under the output directory. *)
Definition results_dir (model_name : string) : string :=
  replace (replace model_name "/" "_") "models_" EmptyString.

(** A run artifact, as [_save_results] dumps it and [json.load] reads it
    back: [metrics] is the metrics dict, empty for a run without result. *)
Record RunArtifact : Type := {
  ra_model_name : string;
  evaluation_timestamp : Z;
  configuration : list (string * json);
  ra_metrics : list (string * json);
  ra_results : list SampleResult
}.

Definition JInt (n : nat) : json := JNum (Q_of_nat n).

Definition confusion_json (confusion : list (string * nat)) : json :=
  JObj (map (fun item => (fst item, JInt (snd item))) confusion).

(** The metrics dict of [_calculate_metrics] as JSON. *)
Definition metrics_json (metrics : option Metrics) : list (string * json) :=
  match metrics with
  | None => []
  | Some m =>
      [("total_samples", JInt (total_samples m));
       ("valid_predictions", JInt (m_valid_predictions m));
       ("parse_success_rate", JNum (parse_success_rate m));
       ("shot_type_accuracy", JNum (shot_type_accuracy m));
       ("result_accuracy", JNum (result_accuracy m));
       ("both_correct_accuracy", JNum (both_correct_accuracy m));
       ("average_confidence", JNum (average_confidence m));
       ("shot_type_confusion_matrix", confusion_json (shot_type_confusion_matrix m));
       ("result_confusion_matrix", confusion_json (result_confusion_matrix m))]
  end.

(** [output_data] of [_save_results], written at the time [timestamp]. *)
Definition output_data (timestamp : Z) (model_name : string)
           (results : list SampleResult) (metrics : option Metrics)
           (prompt : string) (fps : Z) (media_resolution : string) : RunArtifact :=
  {| ra_model_name := model_name;
     evaluation_timestamp := timestamp;
     configuration := [("fps", JNum (inject_Z fps));
                       ("media_resolution", JStr media_resolution);
                       ("prompt", JStr prompt)];
     ra_metrics := metrics_json metrics;
     ra_results := results |}.

End Evaluator.

(** ** metrics.py *)

Module Metrics.

(** [self.shot_types] and [self.results] *)
Definition shot_types : list string :=
  ["lay_up"; "in_paint"; "mid_range"; "three_pointer"; "free_throw"].

Definition results : list string := ["make"; "miss"].

(** [np.zeros((n, n), dtype=int)] *)
Definition zeros (n : nat) : list (list Z) := repeat (repeat 0%Z n) n.

(** [x in labels] *)
Definition mem (x : string) (labels : list string) : bool :=
  existsb (String.eqb x) labels.

(** [labels.index(x)], called only when [x in labels]. *)
Fixpoint index (labels : list string) (x : string) : nat :=
  match labels with
  | [] => 0
  | l :: rest => if l =? x then 0 else S (index rest x)
  end.

Fixpoint set_nth {A : Type} (l : list A) (i : nat) (v : A) : list A :=
  match l, i with
  | [], _ => []
  | _ :: t, O => v :: t
  | h :: t, S i' => h :: set_nth t i' v
  end.

(** [matrix[i][j] = v], for indexes in range. *)
Definition set_cell (matrix : list (list Z)) (i j : nat) (v : Z) : list (list Z) :=
  match nth_error matrix i with
  | Some row => set_nth matrix i (set_nth row j v)
  | None => matrix
  end.

(** [matrix[i][j]] *)
Definition cell (matrix : list (list Z)) (i j : nat) : option Z :=
  match nth_error matrix i with
  | Some row => nth_error row j
  | None => None
  end.

(** One turn of the loop of [_build_confusion_matrix]; unpacking the split
    into two names raises [ValueError] unless it has two parts. *)
Definition confusion_step (labels : list string) (matrix : list (list Z))
           (item : string * Z) : exc (list (list Z)) :=
  let (transition, count) := item in
  if contains transition " -> " then
    match split transition " -> " with
    | [true_label; pred_label] =>
        if mem true_label labels && mem pred_label labels
        then Return (set_cell matrix (index labels true_label)
                              (index labels pred_label) count)
        else Return matrix
    | _ => Raise ValueError
    end
  else Return matrix.

Fixpoint confusion_loop (labels : list string) (matrix : list (list Z))
         (items : list (string * Z)) : exc (list (list Z)) :=
  match items with
  | [] => Return matrix
  | item :: rest =>
      matrix' <- confusion_step labels matrix item ;;
      confusion_loop labels matrix' rest
  end.

Definition _build_confusion_matrix (confusion_dict : list (string * Z))
           (labels : list string) : exc (list (list Z) * list string) :=
  matrix <- confusion_loop labels (zeros (List.length labels)) confusion_dict ;;
  Return (matrix, labels).

(** *** Reading [_build_confusion_matrix] *)

(** The key [_calculate_metrics] writes for a pair of labels. *)
Definition transition_key (true_label pred_label : string) : string :=
  true_label ++ " -> " ++ pred_label.

(** A key the loop passes without raising: no separator, or two parts. *)
Definition key_ok (transition : string) : bool :=
  negb (contains transition " -> ")
  || (List.length (split transition " -> ") =? 2)%nat.

Definition splits_as (transition a b : string) : bool :=
  match split transition " -> " with
  | [x; y] => (x =? a) && (y =? b)
  | _ => false
  end.

(** Labels whose keys split back into the two labels. *)
Definition plain_labels (labels : list string) : bool :=
  forallb (fun a =>
             forallb (fun b =>
                        contains (transition_key a b) " -> "
                        && splits_as (transition_key a b) a b) labels) labels.

(** [m] is an [n] by [n] matrix. *)
Definition square (n : nat) (m : list (list Z)) : Prop :=
  List.length m = n /\ Forall (fun row => List.length row = n) m.

(** [confusion_dict.get(key, 0)] *)
Definition count_of (confusion_dict : list (string * Z)) (key : string) : Z :=
  match dict_get String.eqb confusion_dict key with
  | Some c => c
  | None => 0%Z
  end.

(** The two normalizers of [EvaluationMetrics] repeat those of
    [ModelEvaluator] line for line. *)
Definition _normalize_shot_type (shot_type : json) : exc (option string) :=
  if negb (truthy shot_type) then Return None
  else match shot_type with
       | JStr s =>
           Return (Some (match dict_get String.eqb Evaluator.shot_type_mapping
                                        (upper s) with
                         | Some v => v
                         | None => lower s
                         end))
       | _ => Raise AttributeError
       end.

Definition _normalize_result (result : json) : exc (option string) :=
  if negb (truthy result) then Return None
  else match result with
       | JStr s =>
           let result_upper := upper s in
           if result_upper =? "MAKE" then Return (Some "make")
           else if result_upper =? "MISS" then Return (Some "miss")
           else Return None
       | _ => Raise AttributeError
       end.

(** A confusion dict of the evaluator as it is read back from the artifact:
    the counts are JSON integers. *)
Definition as_read (confusion : list (string * nat)) : list (string * Z) :=
  map (fun item => (fst item, Z.of_nat (snd item))) confusion.

(** *** The comparison table *)

Record ComparisonRow : Type := {
  cr_model_name : string;
  cr_fps : json;
  cr_media_resolution : json;
  cr_total_samples : json;
  cr_valid_predictions : json;
  cr_parse_success_rate : json;
  cr_shot_type_accuracy : json;
  cr_result_accuracy : json;
  cr_both_correct_accuracy : json;
  cr_average_confidence : json;
  (** [np.mean] of the times: [None] is NaN, the mean of no number *)
  cr_average_inference_time : option Q;
  cr_total_cost : Q;
  cr_cost_per_sample : Q;
  cr_evaluation_timestamp : Z
}.

(** [d.get(k, default)] *)
Definition get_default (d : list (string * json)) (k : string) (default : json)
  : json :=
  match dict_get String.eqb d k with
  | Some v => v
  | None => default
  end.

(** [np.mean(l)] *)
Definition mean (l : list Q) : option Q :=
  match l with
  | [] => None
  | _ => Some (Qdiv (sum_Q l) (Q_of_nat (List.length l)))
  end.

(** The row of one evaluation of the model directory [model_name]. *)
Definition comparison_row (model_name : string) (eval_data : Evaluator.RunArtifact)
  : ComparisonRow :=
  let metrics := Evaluator.ra_metrics eval_data in
  let config := Evaluator.configuration eval_data in
  let results := Evaluator.ra_results eval_data in
  {| cr_model_name := model_name;
     cr_fps := get_default config "fps" (JNum (24 # 1));
     cr_media_resolution := get_default config "media_resolution" (JStr "MEDIUM");
     cr_total_samples := get_default metrics "total_samples" (JNum (0 # 1));
     cr_valid_predictions := get_default metrics "valid_predictions" (JNum (0 # 1));
     cr_parse_success_rate := get_default metrics "parse_success_rate" (JNum (0 # 1));
     cr_shot_type_accuracy := get_default metrics "shot_type_accuracy" (JNum (0 # 1));
     cr_result_accuracy := get_default metrics "result_accuracy" (JNum (0 # 1));
     cr_both_correct_accuracy :=
       get_default metrics "both_correct_accuracy" (JNum (0 # 1));
     cr_average_confidence := get_default metrics "average_confidence" (JNum (0 # 1));
     cr_average_inference_time := mean (map Evaluator.inference_time_s results);
     cr_total_cost := sum_Q (map Evaluator.cost_usd results);
     cr_cost_per_sample :=
       match results with
       | [] => (0 # 1)%Q
       | _ => Qdiv (sum_Q (map Evaluator.cost_usd results))
                   (Q_of_nat (List.length results))
       end;
     cr_evaluation_timestamp := Evaluator.evaluation_timestamp eval_data |}.

(** [all_results] maps the name of a model directory to its evaluations. *)
Definition create_comparison_dataframe
           (all_results : list (string * list Evaluator.RunArtifact))
  : list ComparisonRow :=
  flat_map (fun item => map (comparison_row (fst item)) (snd item)) all_results.

(** *** The error table *)

Record ErrorRow : Type := {
  er_clip_id : string;
  er_gt_shot_type : option string;
  er_pred_shot_type : option string;
  shot_type_error : bool;
  er_gt_result : option string;
  er_pred_result : option string;
  result_error : bool;
  er_confidence : json;
  er_inference_time : Q;
  has_parse_error : bool
}.

(** The body of the loop of [generate_error_analysis]: the row appended,
    [None] for a sample that is right on both counts. *)
Definition error_row (res : Evaluator.SampleResult) : exc (option ErrorRow) :=
  let gt := Evaluator.sr_ground_truth res in
  let pred := Evaluator.prediction res in
  let gt_shot_type := DataManager.shot_type gt in
  let gt_result := DataManager.result gt in
  range <- Json.get pred "range" ;;
  pred_shot_type <- _normalize_shot_type range ;;
  make_miss <- Json.get pred "make_miss" ;;
  pred_result <- _normalize_result make_miss ;;
  let shot_type_correct := opt_str_eqb gt_shot_type pred_shot_type in
  let result_correct := opt_str_eqb gt_result pred_result in
  if negb (shot_type_correct && result_correct) then
    Return (Some {| er_clip_id := Evaluator.sr_clip_id res;
                    er_gt_shot_type := gt_shot_type;
                    er_pred_shot_type := pred_shot_type;
                    shot_type_error := negb shot_type_correct;
                    er_gt_result := gt_result;
                    er_pred_result := pred_result;
                    result_error := negb result_correct;
                    er_confidence :=
                      match pred with
                      | JObj d => get_default d "confidence" (JNum (0 # 1))
                      | _ => JNull
                      end;
                    er_inference_time := Evaluator.inference_time_s res;
                    has_parse_error := Json.has_key pred "error" |})
  else Return None.

Fixpoint generate_error_analysis (results : list Evaluator.SampleResult)
  : exc (list ErrorRow) :=
  match results with
  | [] => Return []
  | res :: rest =>
      row <- error_row res ;;
      rows <- generate_error_analysis rest ;;
      Return (match row with
              | Some r => r :: rows
              | None => rows
              end)
  end.

(** The sample is right on both counts for [generate_error_analysis]. *)
Definition matching (res : Evaluator.SampleResult) : bool :=
  opt_str_eqb (DataManager.shot_type (Evaluator.sr_ground_truth res))
              (Evaluator.pred_shot_type res)
  && opt_str_eqb (DataManager.result (Evaluator.sr_ground_truth res))
                 (Evaluator.pred_result res).

(** A sample [generate_error_analysis] can read: its prediction is a dict
    whose range and make_miss are strings or false values. *)
Definition analysable (res : Evaluator.SampleResult) : bool :=
  match Evaluator.prediction res with
  | JObj d =>
      Evaluator.label_like (lookup d "range")
      && Evaluator.label_like (lookup d "make_miss")
  | _ => false
  end.

End Metrics.

(** ** python-worker/modal_app.py: the labels the worker stores *)

Module Worker.

(** [_normalize_range]: the argument is [data.get("range")]. *)
Definition _normalize_range (rng : json) : exc (option string) :=
  if negb (truthy rng) then Return None
  else match rng with
       | JStr s =>
           Return (dict_get String.eqb Evaluator.shot_type_mapping (upper (strip s)))
       | _ => Raise AttributeError
       end.

(** [_normalize_result]: the argument is [data.get("make_miss")]. *)
Definition _normalize_result (res : json) : exc (option string) :=
  if negb (truthy res) then Return None
  else match res with
       | JStr s =>
           let upper := upper (strip s) in
           if upper =? "MAKE" then Return (Some "make")
           else if upper =? "MISS" then Return (Some "miss")
           else Return None
       | _ => Raise AttributeError
       end.

End Worker.

(** ** A decoder for a fragment of JSON

    [json.loads] belongs to the Python library, and the evaluator above takes
    it as a parameter.  This decoder reads objects, arrays, strings with the
    common escapes, decimal numbers and the three literals; like [json.loads]
    it raises [JSONDecodeError] on a text it cannot read and [ValueError] on
    an integer of more digits than [int] accepts.  It instantiates the
    parameter in the examples. *)

Module MiniJson.

Definition dquote : ascii := ascii_of_nat 34.
Definition backslash : ascii := ascii_of_nat 92.

Definition is_ws (c : ascii) : bool :=
  let n := nat_of_ascii c in
  ((n =? 32) || (n =? 9) || (n =? 10) || (n =? 13))%nat.

Fixpoint skip_ws (s : string) : string :=
  match s with
  | EmptyString => EmptyString
  | String c s' => if is_ws c then skip_ws s' else s
  end.

Definition digit_of (c : ascii) : option Z :=
  let n := nat_of_ascii c in
  if ((48 <=? n) && (n <=? 57))%nat then Some (Z.of_nat (n - 48)) else None.

(** Reads a run of digits: its value after [acc], its length, the rest. *)
Fixpoint read_digits (s : string) (acc : Z) (count : nat) : Z * nat * string :=
  match s with
  | EmptyString => (acc, count, s)
  | String c s' =>
      match digit_of c with
      | Some d => read_digits s' (acc * 10 + d)%Z (S count)
      | None => (acc, count, s)
      end
  end.

(** [sys.get_int_max_str_digits()]: [int] raises [ValueError] on a decimal
    text of more digits. *)
Definition int_max_str_digits : nat := 4300.

Definition read_number (s : string) : exc (Q * string) :=
  let (sign, s1) := match s with
                    | String "-"%char r => ((-1)%Z, r)
                    | _ => (1%Z, s)
                    end in
  let '(int_part, n_int, s2) := read_digits s1 0%Z 0 in
  if (n_int =? 0)%nat then Raise JSONDecodeError
  else match s2 with
       | String "."%char r =>
           let '(all, n_frac, s3) := read_digits r int_part 0 in
           if (n_frac =? 0)%nat then Raise JSONDecodeError
           else Return (Qmake (sign * all) (Pos.pow 10 (Pos.of_nat n_frac)), s3)
       | _ =>
           if (int_max_str_digits <? n_int)%nat then Raise ValueError
           else Return (inject_Z (sign * int_part), s2)
       end.

(** Reads the characters of a string up to its closing quote. *)
Fixpoint read_string (s : string) : option (string * string) :=
  match s with
  | EmptyString => None
  | String c r =>
      if Ascii.eqb c dquote then Some (EmptyString, r)
      else if Ascii.eqb c backslash then
        match r with
        | String e r' =>
            let decoded :=
              if Ascii.eqb e dquote then Some dquote
              else if Ascii.eqb e backslash then Some backslash
              else if Ascii.eqb e "/"%char then Some "/"%char
              else if Ascii.eqb e "n"%char then Some (ascii_of_nat 10)
              else if Ascii.eqb e "t"%char then Some (ascii_of_nat 9)
              else None in
            match decoded, read_string r' with
            | Some d, Some (body, rest) => Some (String d body, rest)
            | _, _ => None
            end
        | EmptyString => None
        end
      else match read_string r with
           | Some (body, rest) => Some (String c body, rest)
           | None => None
           end
  end.

Fixpoint read_value (fuel : nat) (s : string) {struct fuel} : exc (json * string) :=
  match fuel with
  | O => Raise JSONDecodeError
  | S fuel' =>
      match skip_ws s with
      | EmptyString => Raise JSONDecodeError
      | String c rest as s0 =>
          if Ascii.eqb c "{"%char then
            match skip_ws rest with
            | String "}"%char r => Return (JObj [], r)
            | _ => read_members fuel' [] rest
            end
          else if Ascii.eqb c "["%char then
            match skip_ws rest with
            | String "]"%char r => Return (JArr [], r)
            | _ => read_items fuel' [] rest
            end
          else if Ascii.eqb c dquote then
            match read_string rest with
            | Some (body, r) => Return (JStr body, r)
            | None => Raise JSONDecodeError
            end
          else if String.prefix "null" s0 then Return (JNull, drop 4 s0)
          else if String.prefix "true" s0 then Return (JBool true, drop 4 s0)
          else if String.prefix "false" s0 then Return (JBool false, drop 5 s0)
          else match read_number s0 with
               | Return (q, r) => Return (JNum q, r)
               | Raise e => Raise e
               end
      end
  end
with read_items (fuel : nat) (acc : list json) (s : string) {struct fuel}
  : exc (json * string) :=
  match fuel with
  | O => Raise JSONDecodeError
  | S fuel' =>
      match read_value fuel' s with
      | Return (v, r) =>
          match skip_ws r with
          | String ","%char r' => read_items fuel' (acc ++ [v]) r'
          | String "]"%char r' => Return (JArr (acc ++ [v]), r')
          | _ => Raise JSONDecodeError
          end
      | Raise e => Raise e
      end
  end
with read_members (fuel : nat) (acc : list (string * json)) (s : string) {struct fuel}
  : exc (json * string) :=
  match fuel with
  | O => Raise JSONDecodeError
  | S fuel' =>
      match skip_ws s with
      | String c r =>
          if Ascii.eqb c dquote then
            match read_string r with
            | Some (key, r1) =>
                match skip_ws r1 with
                | String ":"%char r2 =>
                    match read_value fuel' r2 with
                    | Return (v, r3) =>
                        match skip_ws r3 with
                        | String ","%char r4 =>
                            read_members fuel' (dict_set String.eqb acc key v) r4
                        | String "}"%char r4 =>
                            Return (JObj (dict_set String.eqb acc key v), r4)
                        | _ => Raise JSONDecodeError
                        end
                    | Raise e => Raise e
                    end
                | _ => Raise JSONDecodeError
                end
            | None => Raise JSONDecodeError
            end
          else Raise JSONDecodeError
      | EmptyString => Raise JSONDecodeError
      end
  end.

Definition json_loads (s : string) : exc json :=
  match read_value (2 * String.length s + 2) s with
  | Return (v, rest) =>
      match skip_ws rest with
      | EmptyString => Return v
      | _ => Raise JSONDecodeError
      end
  | Raise e => Raise e
  end.

(** Writes a JSON text with apostrophes where the quotes go. *)
Definition quoted (s : string) : string :=
  map_chars (fun c => if Ascii.eqb c "'"%char then dquote else c) s.

End MiniJson.

(** ** Label normalizers as functions on labels

    A normalizer is idempotent when, on every string or null, it returns a
    label that it maps to itself. *)

Definition idempotent_on_labels (f : json -> exc (option string)) : Prop :=
  forall x : option string,
    exists y, f (of_opt_str x) = Return y /\ f (of_opt_str y) = Return y.

(** ** Example data *)

Module Examples.

Import DataManager.

Definition clip1 : ClipRow :=
  {| c_id := "clip-1"; c_storage_key := "clips/1.mp4"; c_duration_s := (3 # 1)%Q;
     c_created_at := "2024-05-01T10:00:00" |}.

Definition clip2 : ClipRow :=
  {| c_id := "clip-2"; c_storage_key := "clips/2.mp4"; c_duration_s := (5 # 1)%Q;
     c_created_at := "2024-05-01T11:00:00" |}.

Definition analysis1 : AnalysisRow :=
  {| a_id := "an-1"; a_clip_id := "clip-1"; a_status := "success";
     a_shot_type := Some "lay_up"; a_result := Some "make";
     a_confidence := Some (8 # 10)%Q; a_tips_text := Some "follow through";
     a_completed_at := Some "2024-05-01T10:05:00" |}.

Definition analysis2 : AnalysisRow :=
  {| a_id := "an-2"; a_clip_id := "clip-2"; a_status := "success";
     a_shot_type := Some "mid_range"; a_result := Some "make";
     a_confidence := Some (6 # 10)%Q; a_tips_text := None;
     a_completed_at := Some "2024-05-01T11:05:00" |}.

(** A second successful analysis of the first clip. *)
Definition analysis1b : AnalysisRow :=
  {| a_id := "an-1b"; a_clip_id := "clip-1"; a_status := "success";
     a_shot_type := Some "free_throw"; a_result := Some "miss";
     a_confidence := Some (5 # 10)%Q; a_tips_text := None;
     a_completed_at := Some "2024-05-01T10:09:00" |}.

Definition override (aid field value at_ : string) : OverrideRow :=
  {| o_analysis_id := aid; o_field_name := field;
     o_override_value := Some value; o_created_at := at_ |}.

Definition overrides : list OverrideRow :=
  [override "an-1" "shot_type" "mid_range" "2024-05-02T09:00:00";
   override "an-1" "shot_type" "three_pointer" "2024-05-03T09:00:00";
   override "an-2" "result" "miss" "2024-05-02T10:00:00";
   override "an-1" "shot_type" "in_paint" "2024-05-02T12:00:00"].

(** The row expected for the first clip: the shot type of the override of
    3 May, the result of the analysis. *)
Definition row1 : Row :=
  {| clip_id := "clip-1"; storage_key := "clips/1.mp4"; duration_s := (3 # 1)%Q;
     clip_created_at := "2024-05-01T10:00:00"; analysis_id := "an-1";
     original_shot_type := Some "lay_up"; original_result := Some "make";
     confidence := Some (8 # 10)%Q; tips_text := Some "follow through";
     completed_at := Some "2024-05-01T10:05:00";
     ground_truth_shot_type := Some "three_pointer";
     ground_truth_result := Some "make" |}.

(** Model outputs. *)
Definition answer_text : string :=
  MiniJson.quoted
    "{'make_miss':'MAKE','range':'LAY_UP','confidence':0.9,'tips':['a','b','c']}".

Definition fenced_answer : string :=
  "```json" ++ nl ++ answer_text ++ nl ++ "```".

Definition answer_object : json :=
  JObj [("make_miss", JStr "MAKE");
        ("range", JStr "LAY_UP");
        ("confidence", JNum (9 # 10));
        ("tips", JArr [JStr "a"; JStr "b"; JStr "c"])].

(** Samples of a run. *)
Definition answer (range make_miss : string) : json :=
  JObj [("make_miss", JStr make_miss);
        ("range", JStr range);
        ("confidence", JNum (9 # 10));
        ("tips", JArr [])].

Definition sample (cid : string) (gt_shot_type gt_result : option string)
           (pred : json) : Evaluator.SampleResult :=
  {| Evaluator.sr_clip_id := cid;
     Evaluator.sr_ground_truth := {| shot_type := gt_shot_type; result := gt_result |};
     Evaluator.prediction := pred;
     Evaluator.inference_time_s := (2 # 1)%Q;
     Evaluator.cost_usd := (0 # 1)%Q;
     Evaluator.sr_model_name := "models/gemini-2.5-flash";
     Evaluator.sr_fps := 24%Z;
     Evaluator.sr_media_resolution := "MEDIUM" |}.

(** Ten samples, two of them with a parse error. *)
Definition ten_samples : list Evaluator.SampleResult :=
  [sample "s01" (Some "lay_up") (Some "make") (answer "LAY_UP" "MAKE");
   sample "s02" (Some "mid_range") (Some "miss") (answer "MID_RANGE" "MAKE");
   sample "s03" (Some "three_pointer") (Some "make") (answer "LAY_UP" "MAKE");
   sample "s04" (Some "lay_up") (Some "make") (Evaluator.parse_failure "I cannot tell");
   sample "s05" (Some "free_throw") (Some "make") (answer "FREE_THROW" "MAKE");
   sample "s06" (Some "in_paint") (Some "miss") (answer "IN_PAINT" "MISS");
   sample "s07" (Some "lay_up") (Some "miss") (Evaluator.parse_failure "no idea");
   sample "s08" (Some "lay_up") (Some "miss") (answer "LAY_UP" "MISS");
   sample "s09" (Some "mid_range") (Some "make") (answer "THREE_POINTER" "MISS");
   sample "s10" (Some "lay_up") (Some "make") (answer "LAY_UP" "MAKE")].

(** An answer that carries the key [error] with the value null. *)
Definition null_error_sample : Evaluator.SampleResult :=
  sample "s11" (Some "lay_up") (Some "make")
         (JObj [("make_miss", JStr "MAKE");
                ("range", JStr "LAY_UP");
                ("confidence", JNum (9 # 10));
                ("tips", JArr []);
                ("error", JNull)]).

(** A clip whose analysis has no shot type, and an answer without range. *)
Definition null_pair_sample : Evaluator.SampleResult :=
  sample "s12" None (Some "make")
         (JObj [("make_miss", JStr "MAKE");
                ("range", JNull);
                ("confidence", JNum (9 # 10));
                ("tips", JArr [])]).

(** Entries of a snapshot, and a world in which only the first video is on
    disk and the provider answers every video with [fenced_answer]. *)
Definition entry (cid path : string) : Entry :=
  {| e_clip_id := cid;
     e_storage_key := "clips/" ++ cid ++ ".mp4";
     e_duration_s := (3 # 1)%Q;
     e_video_path := path;
     ground_truth := {| shot_type := Some "lay_up"; result := Some "make" |};
     original_analysis := {| oa_shot_type := Some "lay_up"; oa_result := Some "make";
                             oa_confidence := Some (8 # 10)%Q;
                             oa_tips_text := None |};
     metadata := {| md_analysis_id := "an-" ++ cid;
                    md_clip_created_at := "2024-05-01T10:00:00";
                    md_completed_at := None |} |}.

Definition entry_present : Entry := entry "clip-1" "data/videos/clip-1.mp4".
Definition entry_missing : Entry := entry "clip-2" "data/videos/clip-2.mp4".

Definition world (reply : string) : Evaluator.World :=
  {| Evaluator.path_exists := fun p => p =? "data/videos/clip-1.mp4";
     Evaluator.read_file := fun _ => Return "video bytes";
     Evaluator.generate_content := fun _ _ _ _ _ => Return (Some reply);
     Evaluator.elapsed := fun _ => (2 # 1)%Q;
     Evaluator.save_results := Return tt |}.

(** The instant of a timestamp text for the examples: the number its digits
    write, which orders the zero-padded timestamps of one zone by time. *)
Fixpoint digits_value (acc : Z) (s : string) : Z :=
  match s with
  | EmptyString => acc
  | String c s' =>
      let n := Z.of_nat (nat_of_ascii c) in
      if ((48 <=? n) && (n <=? 57))%Z
      then digits_value (10 * acc + (n - 48))%Z s'
      else digits_value acc s'
  end.

Definition instant (s : string) : Z := digits_value 0%Z s.

(** A second row of a data frame, a storage that answers every request, and
    a disk that holds the video of the first clip only. *)
Definition row2 : Row :=
  {| clip_id := "clip-2"; storage_key := "clips/2.mp4"; duration_s := (5 # 1)%Q;
     clip_created_at := "2024-05-01T11:00:00"; analysis_id := "an-2";
     original_shot_type := Some "mid_range"; original_result := Some "make";
     confidence := Some (6 # 10)%Q; tips_text := None;
     completed_at := Some "2024-05-01T11:05:00";
     ground_truth_shot_type := Some "mid_range";
     ground_truth_result := Some "miss" |}.

Definition data_frame : list Row := [row1; row2].

Definition storage : Storage :=
  {| create_signed_url := fun key => Return ("https://storage/" ++ key)%string;
     http_get := fun _ => Return "video bytes";
     open_for_write := fun _ => true;
     f_write := fun _ _ => None |}.

Definition disk : list (string * string) :=
  [("data/videos/clip-1.mp4", "video bytes")].

(** An override about an analysis that is not in the dataset. *)
Definition stray_overrides : list OverrideRow :=
  [override "an-9" "shot_type" "mid_range" "2024-05-02T09:00:00"].

(** A world whose provider returns no candidate. *)
Definition silent_world : Evaluator.World :=
  {| Evaluator.path_exists := fun p => p =? "data/videos/clip-1.mp4";
     Evaluator.read_file := fun _ => Return "video bytes";
     Evaluator.generate_content := fun _ _ _ _ _ => Return None;
     Evaluator.elapsed := fun _ => (2 # 1)%Q;
     Evaluator.save_results := Return tt |}.

(** Two samples of [ten_samples] whose answers were not JSON, and three
    whose answers were. *)
Definition unparsed_samples : list Evaluator.SampleResult :=
  [sample "s04" (Some "lay_up") (Some "make") (Evaluator.parse_failure "I cannot tell");
   sample "s07" (Some "lay_up") (Some "miss") (Evaluator.parse_failure "no idea")].

Definition parsed_samples : list Evaluator.SampleResult :=
  [sample "s01" (Some "lay_up") (Some "make") (answer "LAY_UP" "MAKE");
   sample "s02" (Some "mid_range") (Some "miss") (answer "MID_RANGE" "MAKE");
   sample "s03" (Some "three_pointer") (Some "make") (answer "LAY_UP" "MAKE")].

End Examples.

(** * Properties *)

(** ** Dictionaries *)

Section DictFacts.
Context {K V : Type} (eqb : K -> K -> bool).
Hypothesis eqb_eq : forall x y, eqb x y = true <-> x = y.

Lemma dict_get_set_same (d : list (K * V)) k v :
  dict_get eqb (dict_set eqb d k v) k = Some v.
Proof.
  induction d as [|[k' v'] d IH]; simpl.
  - now rewrite (proj2 (eqb_eq k k) eq_refl).
  - destruct (eqb k' k) eqn:E; simpl; rewrite E; auto.
Qed.

Lemma dict_get_set_other (d : list (K * V)) k v k' :
  k <> k' -> dict_get eqb (dict_set eqb d k v) k' = dict_get eqb d k'.
Proof.
  intros Hne. induction d as [|[k0 v0] d IH]; simpl.
  - destruct (eqb k k') eqn:E; auto. apply eqb_eq in E. contradiction.
  - destruct (eqb k0 k) eqn:E; simpl.
    + apply eqb_eq in E; subst k0.
      destruct (eqb k k') eqn:E2; auto. apply eqb_eq in E2. contradiction.
    + destruct (eqb k0 k'); auto.
Qed.

Lemma dict_get_In (d : list (K * V)) k v :
  dict_get eqb d k = Some v -> In (k, v) d.
Proof.
  induction d as [|[k0 v0] d IH]; simpl; intros H; [discriminate|].
  destruct (eqb k0 k) eqn:E.
  - apply eqb_eq in E. inversion H; subst. now left.
  - right. auto.
Qed.

Lemma dict_set_In (d : list (K * V)) k v k' v' :
  In (k', v') (dict_set eqb d k v) -> (k' = k /\ v' = v) \/ In (k', v') d.
Proof.
  induction d as [|[k0 v0] d IH]; simpl; intros H.
  - destruct H as [H|[]]. inversion H; auto.
  - destruct (eqb k0 k) eqn:E; simpl in H.
    + apply eqb_eq in E; subst k0. destruct H as [H|H].
      * inversion H; auto.
      * auto.
    + destruct H as [H|H]; auto. apply IH in H. tauto.
Qed.

(** A dict comprehension [{key(x): x for x in l}], continued from [d]. *)
Variable key : V -> K.

Lemma comprehension_In (l : list V) : forall d k v,
  In (k, v) (fold_left (fun d x => dict_set eqb d (key x) x) l d) ->
  In (k, v) d \/ (In v l /\ key v = k).
Proof.
  induction l as [|x l IH]; simpl; intros d k v H; auto.
  apply IH in H. destruct H as [H|[H1 H2]]; auto.
  apply dict_set_In in H. destruct H as [[H1 H2]|H]; subst; auto.
Qed.

Lemma comprehension_get_kept (l : list V) : forall d k y0,
  dict_get eqb d k = Some y0 ->
  exists y, dict_get eqb (fold_left (fun d x => dict_set eqb d (key x) x) l d) k = Some y
            /\ (y = y0 \/ (In y l /\ key y = k)).
Proof.
  induction l as [|x l IH]; simpl; intros d k y0 H.
  - exists y0; auto.
  - destruct (eqb (key x) k) eqn:E.
    + apply eqb_eq in E.
      destruct (IH (dict_set eqb d (key x) x) k x) as [y [Hy Hc]].
      { subst k. apply dict_get_set_same. }
      exists y. split; auto. right. destruct Hc as [->|[? ?]]; auto.
    + assert (Hne : key x <> k).
      { intros Heq. apply eqb_eq in Heq. congruence. }
      destruct (IH (dict_set eqb d (key x) x) k y0) as [y [Hy Hc]].
      { rewrite dict_get_set_other; auto. }
      exists y. split; auto. destruct Hc as [->|[? ?]]; auto.
Qed.

Lemma comprehension_get (l : list V) : forall d x,
  In x l ->
  exists y, dict_get eqb (fold_left (fun d x => dict_set eqb d (key x) x) l d) (key x)
            = Some y
            /\ In y l /\ key y = key x.
Proof.
  induction l as [|x0 l IH]; simpl; intros d x H; [contradiction|].
  destruct H as [->|H].
  - destruct (comprehension_get_kept l (dict_set eqb d (key x) x) (key x) x)
      as [y [Hy Hc]].
    { apply dict_get_set_same. }
    exists y. split; auto. destruct Hc as [->|[? ?]]; auto.
  - destruct (IH (dict_set eqb d (key x0) x0) x H) as [y [Hy [Hin Hk]]].
    exists y; auto.
Qed.

End DictFacts.

Lemma key_eqb_eq (k1 k2 : string * string) :
  DataManager.key_eqb k1 k2 = true <-> k1 = k2.
Proof.
  destruct k1 as [a1 f1], k2 as [a2 f2]. unfold DataManager.key_eqb. simpl.
  rewrite andb_true_iff, !String.eqb_eq. split.
  - intros [-> ->]; reflexivity.
  - intros H; inversion H; auto.
Qed.

(** ** The order of time stamps *)

Lemma str_gt_irrefl (a : string) : str_gt a a = false.
Proof.
  unfold str_gt.
  assert (H : String_as_OT.cmp a a = Eq) by now apply String_as_OT.cmp_eq.
  unfold String_as_OT.cmp in H. now rewrite H.
Qed.

Lemma str_gt_lt (a b : string) : str_gt a b = true <-> String_as_OT.lt b a.
Proof.
  unfold str_gt. rewrite <- String_as_OT.cmp_lt. unfold String_as_OT.cmp.
  rewrite (String.compare_antisym a b).
  destruct (String.compare b a); simpl; split; congruence.
Qed.

(** Replacing the kept override by a later one keeps it above all seen. *)
Lemma str_gt_raise (x kept o : string) :
  str_gt x kept = false -> str_gt o kept = true -> str_gt x o = false.
Proof.
  intros Hx Ho. destruct (str_gt x o) eqn:E; auto.
  apply str_gt_lt in E. apply str_gt_lt in Ho.
  assert (H : str_gt x kept = true).
  { apply str_gt_lt. eapply String_as_OT.lt_trans; eauto. }
  congruence.
Qed.

(** Two strings neither of which exceeds the other are equal. *)
Lemma str_gt_antisym (a b : string) :
  str_gt a b = false -> str_gt b a = false -> a = b.
Proof.
  unfold str_gt. intros H1 H2.
  rewrite (String.compare_antisym b a) in H2.
  destruct (String.compare a b) eqn:E; simpl in *; try discriminate.
  now apply String.compare_eq_iff.
Qed.

(** ** data_manager.py: override resolution *)

Section OverrideResolution.
Import DataManager.
Variables aid field : string.

Lemma matches_key (o : OverrideRow) :
  matches aid field o = true <-> (o_analysis_id o, o_field_name o) = (aid, field).
Proof.
  unfold matches. rewrite andb_true_iff, !String.eqb_eq. split.
  - intros [-> ->]; reflexivity.
  - intros H; inversion H; auto.
Qed.

(** A turn of the loop for an override of another key leaves the entry of
    [(aid, field)] alone. *)
Lemma overrides_step_other d (o : OverrideRow) :
  matches aid field o = false ->
  dict_get key_eqb (overrides_step d o) (aid, field) = dict_get key_eqb d (aid, field).
Proof.
  intros Hm.
  assert (Hne : (o_analysis_id o, o_field_name o) <> (aid, field)).
  { intros E. apply matches_key in E. congruence. }
  unfold overrides_step.
  destruct (dict_get key_eqb d (o_analysis_id o, o_field_name o)) as [kept|].
  - destruct (str_gt (o_created_at o) (o_created_at kept)); auto.
    now apply (dict_get_set_other key_eqb key_eqb_eq).
  - now apply (dict_get_set_other key_eqb key_eqb_eq).
Qed.

Lemma is_latest_snoc_other seen (o x : OverrideRow) :
  matches aid field x = false ->
  is_latest seen aid field o -> is_latest (seen ++ [x]) aid field o.
Proof.
  intros Hx (Hin & Hm & Hmax). repeat split; auto.
  - apply in_or_app; auto.
  - intros o' Hin' Hm'. apply in_app_or in Hin'.
    destruct Hin' as [Hin'|[<-|[]]]; auto. congruence.
Qed.

Lemma kept_ok_step d seen (o : OverrideRow) :
  kept_ok aid field d seen -> kept_ok aid field (overrides_step d o) (seen ++ [o]).
Proof.
  unfold kept_ok. intros H.
  destruct (matches aid field o) eqn:Hm.
  - pose proof (proj1 (matches_key o) Hm) as Hk.
    unfold overrides_step. rewrite Hk.
    destruct (dict_get key_eqb d (aid, field)) as [kept|] eqn:Hg.
    + destruct H as (Hin & Hmk & Hmax).
      destruct (str_gt (o_created_at o) (o_created_at kept)) eqn:Hgt.
      * rewrite (dict_get_set_same key_eqb key_eqb_eq).
        repeat split; auto.
        -- apply in_or_app; right; now left.
        -- intros o' Hin' Hm'. apply in_app_or in Hin'.
           destruct Hin' as [Hin'|[<-|[]]].
           ++ eapply str_gt_raise; eauto.
           ++ apply str_gt_irrefl.
      * rewrite Hg. repeat split; auto.
        -- apply in_or_app; auto.
        -- intros o' Hin' Hm'. apply in_app_or in Hin'.
           destruct Hin' as [Hin'|[<-|[]]]; auto.
    + rewrite (dict_get_set_same key_eqb key_eqb_eq).
      repeat split; auto.
      * apply in_or_app; right; now left.
      * intros o' Hin' Hm'. apply in_app_or in Hin'.
        destruct Hin' as [Hin'|[<-|[]]].
        -- rewrite (H o' Hin') in Hm'. discriminate.
        -- apply str_gt_irrefl.
  - rewrite (overrides_step_other d o Hm).
    destruct (dict_get key_eqb d (aid, field)) as [kept|].
    + now apply is_latest_snoc_other.
    + intros o' Hin'. apply in_app_or in Hin'.
      destruct Hin' as [Hin'|[<-|[]]]; auto.
Qed.

Lemma kept_ok_loop (overrides : list OverrideRow) : forall d seen,
  kept_ok aid field d seen ->
  kept_ok aid field (fold_left overrides_step overrides d) (seen ++ overrides).
Proof.
  induction overrides as [|o rest IH]; simpl; intros d seen H.
  - now rewrite app_nil_r.
  - replace (seen ++ o :: rest) with ((seen ++ [o]) ++ rest)
      by (rewrite <- app_assoc; reflexivity).
    apply IH. now apply kept_ok_step.
Qed.

Lemma kept_ok_overrides_dict (overrides : list OverrideRow) :
  kept_ok aid field (overrides_dict overrides) overrides.
Proof.
  unfold overrides_dict.
  apply (kept_ok_loop overrides [] []). unfold kept_ok. simpl. tauto.
Qed.

(** The value [combined] selects for a field obeys the resolution rule. *)
Lemma resolved_overrides_dict (overrides : list OverrideRow) (original : option string) :
  resolved overrides aid field original
           (match dict_get key_eqb (overrides_dict overrides) (aid, field) with
            | Some o => o_override_value o
            | None => original
            end).
Proof.
  pose proof (kept_ok_overrides_dict overrides) as H. unfold kept_ok in H.
  destruct (dict_get key_eqb (overrides_dict overrides) (aid, field)) as [o|].
  - right. exists o; auto.
  - left; auto.
Qed.

End OverrideResolution.

Section FallbackRows.
Import DataManager.

(** Every row of the fallback reconstruction combines a clip of the input
    with an analysis of the input for that clip. *)
Lemma fallback_row_inv clips analyses overrides row :
  In row (_process_fallback_data clips analyses overrides) ->
  exists c a, In c clips /\ In a analyses /\ c_id c = a_clip_id a
              /\ dict_get String.eqb (analysis_dict analyses) (c_id c) = Some a
              /\ In (c_id c, c) (clips_dict clips)
              /\ row = combined (overrides_dict overrides) (c_id c) c a.
Proof.
  unfold _process_fallback_data. intros H.
  apply in_flat_map in H. destruct H as [[cid clip] [Hc Hrow]].
  pose proof Hc as Hc0.
  apply (comprehension_In String.eqb String.eqb_eq c_id) in Hc.
  destruct Hc as [[]|[Hcin Hck]].
  destruct (dict_get String.eqb (analysis_dict analyses) cid) as [a|] eqn:Ha;
    [|contradiction].
  destruct Hrow as [<-|[]].
  pose proof Ha as Ha0.
  apply (dict_get_In String.eqb String.eqb_eq) in Ha.
  apply (comprehension_In String.eqb String.eqb_eq a_clip_id) in Ha.
  destruct Ha as [[]|[Hain Hak]]. subst cid.
  exists clip, a. repeat split; auto.
Qed.

(** C1. On the fallback path, each row's ground-truth shot type and result
    follow the override-resolution rule: the value of an override of the
    row's analysis and field whose [created_at] is the greatest, and the
    analysis's own value when the field has no override. *)
Theorem override_resolution_fallback clips analyses overrides row :
  In row (_process_fallback_data clips analyses overrides) ->
  exists a, In a analyses
            /\ a_clip_id a = clip_id row
            /\ a_id a = analysis_id row
            /\ a_shot_type a = original_shot_type row
            /\ a_result a = original_result row
            /\ resolved overrides (a_id a) "shot_type" (a_shot_type a)
                        (ground_truth_shot_type row)
            /\ resolved overrides (a_id a) "result" (a_result a)
                        (ground_truth_result row).
Proof.
  intros H. apply fallback_row_inv in H.
  destruct H as (c & a & Hc & Ha & Hk & _ & _ & ->).
  exists a. simpl. repeat split; auto.
  - apply resolved_overrides_dict.
  - apply resolved_overrides_dict.
Qed.

Lemma override_resolution_fallback_witness :
  In Examples.row1
     (_process_fallback_data [Examples.clip1; Examples.clip2]
                             [Examples.analysis1; Examples.analysis2]
                             Examples.overrides)
  /\ exists a, In a [Examples.analysis1; Examples.analysis2]
               /\ a_clip_id a = clip_id Examples.row1
               /\ a_id a = analysis_id Examples.row1
               /\ a_shot_type a = original_shot_type Examples.row1
               /\ a_result a = original_result Examples.row1
               /\ resolved Examples.overrides (a_id a) "shot_type" (a_shot_type a)
                           (ground_truth_shot_type Examples.row1)
               /\ resolved Examples.overrides (a_id a) "result" (a_result a)
                           (ground_truth_result Examples.row1).
Proof.
  split.
  - vm_compute. left. reflexivity.
  - apply (override_resolution_fallback [Examples.clip1; Examples.clip2]).
    vm_compute. left. reflexivity.
Defined.

(** *** The fallback against the joined query *)

Section AgainstJoinedQuery.
Variable instant : string -> Z.
Variable overrides : list OverrideRow.

(** Timestamps whose text order is their time order. *)
Hypothesis timestamps_ordered : text_order_is_time_order instant overrides.

Lemma is_latest_newest aid field o :
  is_latest overrides aid field o -> is_newest instant overrides aid field o.
Proof.
  intros (Hin & Hm & Hmax). repeat split; auto.
  intros o' Hin' Hm'. specialize (Hmax o' Hin' Hm').
  destruct (Z.le_gt_cases (instant (o_created_at o')) (instant (o_created_at o)))
    as [Hle|Hgt]; auto.
  apply (timestamps_ordered o' o Hin' Hin) in Hgt. congruence.
Qed.

Lemma resolved_as_coalesce aid field original gt :
  (forall o, In o overrides -> o_override_value o <> None) ->
  resolved overrides aid field original gt ->
  exists v, latest_override_value instant overrides aid field v
            /\ gt = coalesce v original.
Proof.
  intros Hnn [[Hno ->]|[o [Hl ->]]].
  - exists None. split; [left; auto | reflexivity].
  - exists (o_override_value o).
    split; [right; exists o; auto using is_latest_newest|].
    destruct Hl as (Hin & _). specialize (Hnn o Hin).
    destruct (o_override_value o); [reflexivity | congruence].
Qed.

Lemma coalesce_resolved aid field original gt v :
  (forall o, In o overrides -> o_override_value o <> None) ->
  (forall o1 o2, In o1 overrides -> In o2 overrides ->
                 o_analysis_id o1 = o_analysis_id o2 ->
                 o_field_name o1 = o_field_name o2 ->
                 o_created_at o1 = o_created_at o2 ->
                 o_override_value o1 = o_override_value o2) ->
  resolved overrides aid field original gt ->
  latest_override_value instant overrides aid field v ->
  coalesce v original = gt.
Proof.
  intros Hnn Hties Hr Hv.
  destruct Hr as [[Hno ->]|[o1 [(Hin1 & Hm1 & Hmax1) ->]]];
    destruct Hv as [[Hno' ->]|[o2 [(Hin2 & Hm2 & Hmax2) ->]]].
  - reflexivity.
  - rewrite (Hno o2 Hin2) in Hm2. discriminate.
  - rewrite (Hno' o1 Hin1) in Hm1. discriminate.
  - assert (Heq : o_override_value o1 = o_override_value o2).
    { pose proof (proj1 (matches_key aid field o1) Hm1) as K1.
      pose proof (proj1 (matches_key aid field o2) Hm2) as K2.
      inversion K1; inversion K2; subst.
      apply Hties; auto.
      apply str_gt_antisym; auto.
      destruct (str_gt (o_created_at o1) (o_created_at o2)) eqn:E; auto.
      apply (timestamps_ordered o1 o2 Hin1 Hin2) in E.
      specialize (Hmax2 o1 Hin1 Hm1). lia. }
    rewrite Heq. specialize (Hnn o2 Hin2).
    destruct (o_override_value o2); [reflexivity | congruence].
Qed.

(** Every row of the fallback is a row of the joined query as soon as no
    override carries a null value. *)
Lemma fallback_row_is_joined clips analyses r :
  (forall o, In o overrides -> o_override_value o <> None) ->
  In r (fetch_fallback clips analyses overrides) ->
  joined_query_row instant clips analyses overrides r.
Proof.
  intros Hnn H. unfold fetch_fallback in H. apply fallback_row_inv in H.
  destruct H as (c & a & Hc & Ha & Hk & _ & _ & ->).
  apply filter_In in Ha. destruct Ha as [Ha Hs]. apply String.eqb_eq in Hs.
  destruct (resolved_as_coalesce (a_id a) "shot_type" (a_shot_type a) _ Hnn
              (resolved_overrides_dict (a_id a) "shot_type" overrides (a_shot_type a)))
    as [v1 [Hv1 E1]].
  destruct (resolved_as_coalesce (a_id a) "result" (a_result a) _ Hnn
              (resolved_overrides_dict (a_id a) "result" overrides (a_result a)))
    as [v2 [Hv2 E2]].
  exists c, a, v1, v2. repeat split; auto.
  unfold combined. rewrite E1, E2. reflexivity.
Qed.

End AgainstJoinedQuery.

End FallbackRows.

Section FallbackEquivalence.
Import DataManager.
Variable instant : string -> Z.
Variable clips : list ClipRow.
Variable analyses : list AnalysisRow.
Variable overrides : list OverrideRow.

(** Clip ids are a key of the clip table. *)
Hypothesis clip_ids_unique :
  forall c1 c2, In c1 clips -> In c2 clips -> c_id c1 = c_id c2 -> c1 = c2.

(** No clip has two successful analyses. *)
Hypothesis one_success_per_clip :
  forall a1 a2, In a1 analyses -> In a2 analyses ->
                a_status a1 = "success" -> a_status a2 = "success" ->
                a_clip_id a1 = a_clip_id a2 -> a1 = a2.

Hypothesis override_values_not_null :
  forall o, In o overrides -> o_override_value o <> None.

(** Overrides of one field of one analysis made at the same instant agree. *)
Hypothesis ties_agree :
  forall o1 o2, In o1 overrides -> In o2 overrides ->
                o_analysis_id o1 = o_analysis_id o2 ->
                o_field_name o1 = o_field_name o2 ->
                o_created_at o1 = o_created_at o2 ->
                o_override_value o1 = o_override_value o2.

(** Timestamps whose text order is their time order. *)
Hypothesis timestamps_ordered : text_order_is_time_order instant overrides.

Lemma joined_row_in_fallback r :
  joined_query_row instant clips analyses overrides r ->
  In r (fetch_fallback clips analyses overrides).
Proof.
  intros (c & a & v1 & v2 & Hc & Ha & Hk & Hs & Hv1 & Hv2 & ->).
  set (ok := filter (fun a => a_status a =? "success") analyses).
  assert (Hok : In a ok).
  { apply filter_In. split; auto. now apply String.eqb_eq. }
  unfold fetch_fallback, _process_fallback_data. fold ok.
  apply in_flat_map. exists (c_id c, c). split.
  - destruct (comprehension_get String.eqb String.eqb_eq c_id clips [] c Hc)
      as [y [Hy [Hyin Hyk]]].
    assert (y = c) by (apply clip_ids_unique; auto). subst y.
    now apply (dict_get_In String.eqb String.eqb_eq).
  - destruct (comprehension_get String.eqb String.eqb_eq a_clip_id ok [] a Hok)
      as [y [Hy [Hyin Hyk]]].
    assert (y = a).
    { apply filter_In in Hyin. destruct Hyin as [Hyin Hys].
      apply String.eqb_eq in Hys. apply one_success_per_clip; auto. }
    subst y. fold (analysis_dict ok) in Hy. rewrite Hk, Hy. left.
    unfold combined. rewrite <- Hk.
    rewrite (coalesce_resolved instant overrides timestamps_ordered
               (a_id a) "shot_type" (a_shot_type a) _ v1
               override_values_not_null ties_agree
               (resolved_overrides_dict (a_id a) "shot_type" overrides (a_shot_type a))
               Hv1).
    rewrite (coalesce_resolved instant overrides timestamps_ordered
               (a_id a) "result" (a_result a) _ v2
               override_values_not_null ties_agree
               (resolved_overrides_dict (a_id a) "result" overrides (a_result a))
               Hv2).
    reflexivity.
Qed.

(** Where the two paths agree.  When clip ids are unique, no clip has two
    successful analyses, no override value is null, overrides of one field
    of one analysis with equal [created_at] carry equal values and the text
    order of the timestamps is their time order, the fallback
    reconstruction and the joined query have the same rows. *)
Lemma fallback_equals_joined_query r :
  In r (fetch_fallback clips analyses overrides)
  <-> joined_query_row instant clips analyses overrides r.
Proof.
  split.
  - now apply fallback_row_is_joined.
  - apply joined_row_in_fallback.
Qed.

End FallbackEquivalence.

Section FallbackExamples.
Import DataManager.

Ltac in_cases H := simpl in H; repeat (destruct H as [H|H]; [subst|]); try contradiction.

Lemma fallback_equals_joined_query_witness :
  In Examples.row1
     (fetch_fallback [Examples.clip1; Examples.clip2]
                     [Examples.analysis1; Examples.analysis2] Examples.overrides)
  <-> joined_query_row Examples.instant [Examples.clip1; Examples.clip2]
                       [Examples.analysis1; Examples.analysis2] Examples.overrides
                       Examples.row1.
Proof.
  apply (fallback_equals_joined_query Examples.instant
           [Examples.clip1; Examples.clip2]
           [Examples.analysis1; Examples.analysis2] Examples.overrides).
  - intros c1 c2 H1 H2 E. in_cases H1; in_cases H2; try reflexivity; discriminate E.
  - intros a1 a2 H1 H2 _ _ E.
    in_cases H1; in_cases H2; try reflexivity; discriminate E.
  - intros o H. in_cases H; discriminate.
  - intros o1 o2 H1 H2 E1 E2 E3.
    in_cases H1; in_cases H2; try reflexivity; discriminate.
  - intros o1 o2 H1 H2.
    in_cases H1; in_cases H2; vm_compute; split; intros H; try discriminate H;
      reflexivity.
Defined.

(** C2. With two successful analyses of one clip the two paths differ: the
    fallback keeps the clip's last analysis only, and the joined query has a
    row for each analysis, whatever the timestamps denote. *)
Theorem fallback_differs_from_joined_query (instant : string -> Z) :
  let clips := [Examples.clip1] in
  let analyses := [Examples.analysis1; Examples.analysis1b] in
  let first := combined [] "clip-1" Examples.clip1 Examples.analysis1 in
  let last := combined [] "clip-1" Examples.clip1 Examples.analysis1b in
  fetch_evaluation_dataset None clips analyses [] = [last]
  /\ joined_query_row instant clips analyses [] first
  /\ joined_query_row instant clips analyses [] last
  /\ ~ In first (fetch_evaluation_dataset None clips analyses [])
  /\ ~ (forall r, In r (fetch_fallback clips analyses [])
                  <-> joined_query_row instant clips analyses [] r).
Proof.
  cbv zeta.
  assert (Hq : forall a, In a [Examples.analysis1; Examples.analysis1b] ->
                         a_clip_id a = "clip-1" -> a_status a = "success" ->
                         joined_query_row instant [Examples.clip1]
                           [Examples.analysis1; Examples.analysis1b] []
                           (combined [] "clip-1" Examples.clip1 a)).
  { intros a Ha Hc Hs. exists Examples.clip1, a, None, None.
    repeat split; simpl; auto; left; split; auto; intros o []. }
  assert (Hnot : ~ In (combined [] "clip-1" Examples.clip1 Examples.analysis1)
                      (fetch_fallback [Examples.clip1]
                                      [Examples.analysis1; Examples.analysis1b] [])).
  { vm_compute. intros [E|[]]. discriminate E. }
  split; [vm_compute; reflexivity|].
  split; [apply Hq; simpl; auto|].
  split; [apply Hq; simpl; auto|].
  split; [exact Hnot|].
  intros H. apply Hnot. apply H. apply Hq; simpl; auto.
Qed.

End FallbackExamples.

(** ** data_manager.py: dataset statistics *)

Section DatasetStats.
Import DataManager.

Lemma truediv_len {A : Type} (x : Q) (a : A) (l : list A) :
  truediv x (Q_of_nat (List.length (a :: l)))
  = Return (Qdiv x (Q_of_nat (List.length (a :: l)))).
Proof.
  unfold truediv.
  replace (Qeq_bool (Q_of_nat (List.length (a :: l))) (0 # 1)) with false;
    reflexivity.
Qed.

Lemma truediv_zero (x : Q) : truediv x (Q_of_nat 0) = Raise ZeroDivisionError.
Proof. reflexivity. Qed.

Lemma stats_loop_counts path_exists (entries : list Entry) : forall st,
  let st' := fold_left (stats_step path_exists) entries st in
  total_clips st' = total_clips st
  /\ has_user_corrections st'
     = (has_user_corrections st + List.length (filter corrected entries))%nat
  /\ average_duration st'
     = fold_left Qplus (map e_duration_s entries) (average_duration st)
  /\ videos_downloaded st'
     = (videos_downloaded st
        + List.length (filter (fun e => path_exists (e_video_path e)) entries))%nat.
Proof.
  induction entries as [|e rest IH]; intros st; simpl.
  - repeat split; lia.
  - destruct (IH (stats_step path_exists st e)) as (H1 & H2 & H3 & H4).
    simpl in *. rewrite H1, H2, H3, H4. unfold corrected.
    repeat split.
    + destruct (negb _ || negb _); simpl; lia.
    + destruct (path_exists (e_video_path e)); simpl; lia.
Qed.

(** C10. [get_dataset_stats] returns the error dict exactly when the
    snapshot file is missing, raises [ZeroDivisionError] on a snapshot with
    no entry, and on a snapshot with entries returns the stats, with
    [correction_rate] the number of corrected entries over the number of
    entries and [average_duration] the sum of the durations over it. *)
Theorem get_dataset_stats_cases (file : option (list Entry))
        (path_exists : string -> bool) :
  match file with
  | None =>
      get_dataset_stats file path_exists
      = Return (StatsError "No ground truth dataset found. Run data sync first.")
  | Some [] => get_dataset_stats file path_exists = Raise ZeroDivisionError
  | Some entries =>
      exists stats,
        get_dataset_stats file path_exists = Return (StatsOk stats)
        /\ total_clips stats = List.length entries
        /\ has_user_corrections stats = List.length (filter corrected entries)
        /\ correction_rate stats
           = Some (Qdiv (Q_of_nat (has_user_corrections stats))
                        (Q_of_nat (total_clips stats)))
        /\ average_duration stats
           = Qdiv (sum_Q (map e_duration_s entries)) (Q_of_nat (total_clips stats))
  end.
Proof.
  destruct file as [[|e rest]|]; try reflexivity.
  unfold get_dataset_stats, load_ground_truth.
  rewrite !truediv_len. cbn [Py.bind].
  eexists. split; [reflexivity|].
  cbn [total_clips has_user_corrections correction_rate average_duration].
  match goal with
  | |- context [fold_left _ _ ?st0] =>
      destruct (stats_loop_counts path_exists (e :: rest) st0) as (H1 & H2 & H3 & _)
  end.
  rewrite H1, H2, H3. repeat split; reflexivity.
Qed.

End DatasetStats.

(** ** Label normalizers *)

(** ** Python strings: characters, case and white space *)

Section Characters.

Lemma append_empty_r (s : string) : (s ++ EmptyString)%string = s.
Proof. induction s as [|c s IH]; simpl; auto. now rewrite IH. Qed.

Lemma append_assoc (a b d : string) : ((a ++ b) ++ d = a ++ (b ++ d))%string.
Proof. induction a as [|c a IH]; simpl; [reflexivity|]. now rewrite IH. Qed.

Lemma substring_drop (n : nat) : forall s,
  (String.substring 0 n s ++ drop n s)%string = s.
Proof.
  induction n as [|n IH]; intros [|c s]; simpl; auto. now rewrite IH.
Qed.

Lemma length_drop (n : nat) : forall s,
  (String.length (drop n s) <= String.length s)%nat.
Proof.
  induction n as [|n IH]; intros [|c s]; simpl; auto; specialize (IH s); lia.
Qed.

Lemma substring_app_exact (r : string) : forall s,
  String.substring 0 (String.length r) (r ++ s) = r.
Proof. induction r as [|c r IH]; intros s; simpl; [now destruct s|]. now rewrite IH. Qed.

Lemma drop_app_exact (r : string) : forall s, drop (String.length r) (r ++ s) = s.
Proof. induction r as [|c r IH]; intros s; simpl; auto. Qed.

Lemma substring_short (n : nat) : forall r,
  (String.length r <= n)%nat -> String.substring 0 n r = r.
Proof.
  induction n as [|n IH]; intros [|c r] H; simpl in *; auto; try lia.
  rewrite IH by lia. reflexivity.
Qed.

Lemma drop_short (n : nat) : forall r,
  (String.length r <= n)%nat -> drop n r = EmptyString.
Proof.
  induction n as [|n IH]; intros [|c r] H; simpl in *; auto; try lia.
  apply IH. lia.
Qed.

Lemma chars_of_fuel (f1 : nat) : forall f2 s,
  (String.length s <= f1)%nat -> (String.length s <= f2)%nat ->
  chars_of f1 s = chars_of f2 s.
Proof.
  induction f1 as [|f1 IH]; intros f2 s H1 H2.
  - destruct s; simpl in H1; [|lia]. destruct f2; reflexivity.
  - destruct s as [|b s]; [destruct f2; reflexivity|].
    destruct f2 as [|f2]; [simpl in H2; lia|].
    simpl. f_equal. simpl in H1, H2.
    pose proof (length_drop (width b - 1) s).
    apply IH; lia.
Qed.

Lemma chars_cons (b : ascii) (s : string) :
  chars (String b s)
  = String b (String.substring 0 (width b - 1) s) :: chars (drop (width b - 1) s).
Proof.
  unfold chars. simpl. f_equal.
  pose proof (length_drop (width b - 1) s).
  apply chars_of_fuel; lia.
Qed.

Lemma chars_empty : chars EmptyString = [].
Proof. reflexivity. Qed.

(** A string is its first character followed by the rest. *)
Lemma chars_app_char (c s : string) :
  short c = true -> complete c = true \/ s = EmptyString ->
  chars (c ++ s) = c :: chars s.
Proof.
  destruct c as [|b r]; [discriminate|]. simpl. intros Hs H.
  change (String b (r ++ s)) with (String b (r ++ s)%string).
  rewrite chars_cons. apply Nat.leb_le in Hs. destruct H as [H| ->].
  - apply Nat.eqb_eq in H. rewrite <- H.
    now rewrite substring_app_exact, drop_app_exact.
  - rewrite append_empty_r. rewrite substring_short, drop_short by auto.
    reflexivity.
Qed.

Lemma chars_char (c : string) : short c = true -> chars c = [c].
Proof.
  intros H. rewrite <- (append_empty_r c) at 1.
  rewrite chars_app_char; auto.
Qed.

Lemma complete_short (c : string) : complete c = true -> short c = true.
Proof.
  destruct c as [|b r]; simpl; auto. intros H. apply Nat.eqb_eq in H.
  apply Nat.leb_le. lia.
Qed.

(** Induction on a string, character by character. *)
Lemma chars_ind (P : string -> Prop) :
  P EmptyString ->
  (forall c s, short c = true -> complete c = true \/ s = EmptyString ->
               P s -> P (c ++ s)%string) ->
  forall s, P s.
Proof.
  intros H0 Hstep s.
  remember (String.length s) as n eqn:Hn.
  revert s Hn. induction n as [n IH] using lt_wf_ind. intros s Hn.
  destruct s as [|b s]; auto.
  rewrite <- (substring_drop (width b - 1) s).
  change (String b (String.substring 0 (width b - 1) s ++ drop (width b - 1) s))
    with (String b (String.substring 0 (width b - 1) s) ++ drop (width b - 1) s)%string.
  assert (Hlen : (String.length (String.substring 0 (width b - 1) s)
                  <= width b - 1)%nat).
  { clear. generalize (width b - 1)%nat. intros k. revert s.
    induction k as [|k IHk]; intros [|c s]; simpl; auto; try lia.
    specialize (IHk s). lia. }
  apply Hstep.
  - simpl. now apply Nat.leb_le.
  - destruct (Nat.le_gt_cases (width b - 1) (String.length s)) as [Hge|Hlt].
    + left. simpl. apply Nat.eqb_eq.
      clear -Hge. revert s Hge. generalize (width b - 1)%nat. intros k.
      induction k as [|k IHk]; intros [|c s] H; simpl in *; auto; try lia.
      rewrite IHk by lia. reflexivity.
    + right. apply drop_short. lia.
  - apply (IH (String.length (drop (width b - 1) s))); auto.
    subst n. simpl. pose proof (length_drop (width b - 1) s). lia.
Qed.

Lemma of_chars_app (l1 l2 : list string) :
  of_chars (l1 ++ l2) = (of_chars l1 ++ of_chars l2)%string.
Proof.
  induction l1 as [|c l1 IH]; simpl; auto. now rewrite IH, append_assoc.
Qed.

Lemma of_chars_chars (s : string) : of_chars (chars s) = s.
Proof.
  induction s as [|c s Hs Hc IH] using chars_ind; auto.
  rewrite chars_app_char by auto. simpl. now rewrite IH.
Qed.

Lemma chars_app_whole (cs : list string) (s : string) :
  forallb complete cs = true -> chars (of_chars cs ++ s) = cs ++ chars s.
Proof.
  induction cs as [|c cs IH]; simpl; auto. intros H.
  apply andb_prop in H. destruct H as [Hc Hcs].
  rewrite append_assoc, chars_app_char; auto using complete_short.
  now rewrite IH.
Qed.

Lemma chars_app (image s : string) :
  whole image = true -> chars (image ++ s) = chars image ++ chars s.
Proof.
  intros H. rewrite <- (of_chars_chars image) at 1. now apply chars_app_whole.
Qed.

End Characters.

Section CaseMapping.

Lemma all_bytes_app (p : ascii -> bool) (a b : string) :
  all_bytes p (a ++ b) = all_bytes p a && all_bytes p b.
Proof. induction a as [|c a IH]; simpl; auto. now rewrite IH, andb_assoc. Qed.

Lemma upper_app_char (c s : string) :
  short c = true -> complete c = true \/ s = EmptyString ->
  upper (c ++ s) = (upper_one c ++ upper s)%string.
Proof. intros Hs H. unfold upper. now rewrite chars_app_char. Qed.

Lemma upper_app (image s : string) :
  whole image = true -> upper (image ++ s) = (upper image ++ upper s)%string.
Proof.
  intros H. unfold upper. now rewrite chars_app, map_app, of_chars_app.
Qed.

Lemma upper_of_char (c : string) : short c = true -> upper c = upper_one c.
Proof.
  intros H. unfold upper. rewrite chars_char by auto. simpl. apply append_empty_r.
Qed.

Lemma lower_app_char (before : list string) (c s : string) :
  short c = true -> complete c = true \/ s = EmptyString ->
  of_chars (lower_from before (chars (c ++ s)))
  = (lower_image before c (chars s)
     ++ of_chars (lower_from (c :: before) (chars s)))%string.
Proof. intros Hs H. now rewrite chars_app_char. Qed.

Lemma lower_table_ok : forallb (lower_entry_ok Evaluator.key_letter) lower_table = true.
Proof. vm_compute. reflexivity. Qed.

Lemma sigma_ok :
  complete capital_sigma = true
  /\ image_ok Evaluator.key_letter capital_sigma final_sigma = true
  /\ dict_get String.eqb lower_table capital_sigma = Some small_sigma.
Proof. vm_compute. repeat split; reflexivity. Qed.

Lemma bytes_ok (b : ascii) : byte_ok b = true.
Proof. destruct b as [[] [] [] [] [] [] [] []]; vm_compute; reflexivity. Qed.

(** An image that copies a character which [lower] leaves alone. *)
Lemma image_ok_copy (c : string) :
  complete c = true -> lower_fixed c = true -> upper_one c = upper c ->
  image_ok Evaluator.key_letter c c = true.
Proof.
  intros Hc Hf Hu. unfold image_ok, whole.
  rewrite (chars_char c) by now apply complete_short.
  simpl. rewrite Hc, Hf, <- Hu, String.eqb_refl.
  destruct c; [discriminate|]. simpl.
  destruct (all_bytes Evaluator.key_letter _); reflexivity.
Qed.

(** The image of a character under [lower], wherever it stands. *)
Lemma lower_image_ok (before : list string) (c : string) (after : list string) :
  short c = true ->
  if complete c
  then image_ok Evaluator.key_letter c (lower_image before c after) = true
  else lower_image before c after = c /\ lower_fixed c = true.
Proof.
  destruct sigma_ok as (Hsc & Hsi & Hsl).
  intros Hs. unfold lower_image.
  destruct (String.eqb_spec c capital_sigma) as [->|Hne]; cbn [andb].
  - rewrite Hsc. destruct (is_final_sigma before after);
      [exact Hsi | vm_compute; reflexivity].
  - destruct c as [|b [|b2 r]]; [discriminate| |].
    + pose proof (bytes_ok b) as B. unfold byte_ok in B. cbv zeta in B.
      set (c := String b EmptyString) in *.
      set (image := lower_one c) in *.
      apply andb_prop in B. destruct B as [B U]. apply String.eqb_eq in U.
      destruct (complete c) eqn:Hc.
      * apply andb_prop in B. destruct B as [Bc Bf].
        unfold image_ok, whole.
        rewrite (chars_char _ (complete_short _ Bc)). cbn [forallb].
        rewrite Bc, Bf, (upper_of_char _ (complete_short _ Bc)), U.
        rewrite String.eqb_refl.
        assert (Hi : image <> EmptyString) by (destruct image; discriminate).
        apply String.eqb_neq in Hi. rewrite Hi. cbn [negb andb].
        destruct (all_bytes Evaluator.key_letter _); reflexivity.
      * apply String.eqb_eq in B. rewrite B. split; auto.
        unfold lower_fixed. fold image. rewrite B, String.eqb_refl.
        apply String.eqb_neq in Hne. now rewrite Hne.
    + set (c := String b (String b2 r)) in *.
      change (lower_one c)
        with (match dict_get String.eqb lower_table c with
              | Some image => image
              | None => c
              end).
      destruct (dict_get String.eqb lower_table c) as [image|] eqn:Hd.
      * pose proof lower_table_ok as T. rewrite forallb_forall in T.
        specialize (T (c, image) (dict_get_In String.eqb String.eqb_eq _ _ _ Hd)).
        unfold lower_entry_ok in T. cbn [fst snd] in T.
        apply andb_prop in T. destruct T as [T Ti].
        apply andb_prop in T. destruct T as [Tc _].
        now rewrite Tc.
      * assert (Hf : lower_fixed c = true).
        { unfold lower_fixed.
          change (lower_one c)
            with (match dict_get String.eqb lower_table c with
                  | Some image => image
                  | None => c
                  end).
          rewrite Hd, String.eqb_refl.
          apply String.eqb_neq in Hne. now rewrite Hne. }
        destruct (complete c) eqn:Hc; auto.
        apply image_ok_copy; auto.
        symmetry. now apply upper_of_char.
Qed.

Lemma lower_fixed_copy (cs : list string) : forall before,
  forallb lower_fixed cs = true -> lower_from before cs = cs.
Proof.
  induction cs as [|c cs IH]; intros before H; simpl; auto.
  simpl in H. apply andb_prop in H. destruct H as [Hc Hcs].
  rewrite IH by auto. f_equal.
  unfold lower_fixed in Hc. apply andb_prop in Hc. destruct Hc as [Hl Hn].
  unfold lower_image. apply negb_true_iff in Hn. rewrite Hn. cbn [andb].
  now apply String.eqb_eq.
Qed.

Lemma lower_chars_fixed (s : string) : forall before,
  forallb lower_fixed (chars (of_chars (lower_from before (chars s)))) = true.
Proof.
  induction s as [|c s Hs Hc IH] using chars_ind; intros before; [reflexivity|].
  rewrite lower_app_char by auto.
  pose proof (lower_image_ok before c (chars s) Hs) as I.
  destruct (complete c) eqn:Ec.
  - unfold image_ok in I.
    apply andb_prop in I. destruct I as [I _].
    apply andb_prop in I. destruct I as [I If].
    apply andb_prop in I. destruct I as [_ Iw].
    rewrite chars_app, forallb_app, If by auto. apply IH.
  - destruct Hc as [Hc| ->]; [discriminate|].
    destruct I as [-> If]. cbn [chars_of chars of_chars lower_from].
    rewrite append_empty_r, chars_char by auto. simpl. now rewrite If.
Qed.

(** [lower] is idempotent. *)
Lemma lower_lower (s : string) : lower (lower s) = lower s.
Proof.
  unfold lower at 1.
  rewrite lower_fixed_copy by apply lower_chars_fixed.
  apply of_chars_chars.
Qed.

Lemma append_not_empty (a b : string) : a <> EmptyString -> (a ++ b)%string <> EmptyString.
Proof. destruct a; simpl; congruence. Qed.

(** [lower] of a string that is not empty is not empty. *)
Lemma lower_not_empty (s : string) : s <> EmptyString -> lower s <> EmptyString.
Proof.
  unfold lower. generalize (@nil string).
  induction s as [|c s Hs Hc _] using chars_ind; intros before Hne; [congruence|].
  rewrite lower_app_char by auto. apply append_not_empty.
  pose proof (lower_image_ok before c (chars s) Hs) as I.
  destruct (complete c).
  - unfold image_ok in I.
    apply andb_prop in I. destruct I as [I _].
    apply andb_prop in I. destruct I as [I _].
    apply andb_prop in I. destruct I as [I _].
    apply negb_true_iff in I. now apply String.eqb_neq.
  - destruct I as [-> _]. destruct c; [discriminate|congruence].
Qed.

(** When the upper case of [lower s] is written with letters of the keys,
    it is the upper case of [s]. *)
Lemma upper_lower_letters (s : string) : forall before,
  all_bytes Evaluator.key_letter (upper (of_chars (lower_from before (chars s)))) = true ->
  upper s = upper (of_chars (lower_from before (chars s))).
Proof.
  induction s as [|c s Hs Hc IH] using chars_ind; intros before; [reflexivity|].
  rewrite lower_app_char, (upper_app_char c s) by auto.
  pose proof (lower_image_ok before c (chars s) Hs) as I.
  destruct (complete c) eqn:Ec.
  - unfold image_ok in I.
    apply andb_prop in I. destruct I as [I Iu].
    apply andb_prop in I. destruct I as [I _].
    apply andb_prop in I. destruct I as [_ Iw].
    rewrite upper_app, all_bytes_app by auto. intros H.
    apply andb_prop in H. destruct H as [H1 H2].
    rewrite H1 in Iu. cbn [implb] in Iu. apply String.eqb_eq in Iu.
    now rewrite Iu, (IH _ H2).
  - destruct Hc as [Hc| ->]; [discriminate|].
    destruct I as [-> _]. intros _.
    cbn [chars_of chars of_chars lower_from map upper].
    rewrite append_empty_r. symmetry. rewrite append_empty_r.
    now apply upper_of_char.
Qed.

End CaseMapping.

Section Stripping.

Lemma lstrip_keep (c s : string) :
  complete c = true -> is_space c = false -> lstrip (c ++ s) = (c ++ s)%string.
Proof.
  intros Hc Hs. unfold lstrip.
  rewrite chars_app_char by auto using complete_short.
  cbn [lstrip_chars]. rewrite Hs.
  rewrite <- (chars_app_char c s) by auto using complete_short.
  apply of_chars_chars.
Qed.

Lemma last_byte_app (a b : string) :
  b <> EmptyString -> last_byte (a ++ b) = last_byte b.
Proof.
  intros Hb. induction a as [|c a IH]; auto.
  simpl. rewrite IH. destruct (a ++ b)%string eqn:E; auto.
  destruct a; simpl in E; congruence.
Qed.

Lemma chars_not_empty (s : string) : Forall (fun c => c <> EmptyString) (chars s).
Proof.
  induction s as [|c s Hs Hc IH] using chars_ind; [constructor|].
  rewrite chars_app_char by auto. constructor; auto.
  destruct c; [discriminate|congruence].
Qed.

Lemma of_chars_last (cs : list string) :
  Forall (fun c => c <> EmptyString) cs -> cs <> [] ->
  exists ts t, cs = ts ++ [t] /\ t <> EmptyString
               /\ last_byte (of_chars cs) = last_byte t.
Proof.
  induction cs as [|c cs IH]; intros H Hne; [congruence|].
  inversion H as [|? ? Hc Hcs]; subst.
  destruct cs as [|c' cs].
  - exists [], c. simpl. now rewrite append_empty_r.
  - destruct (IH Hcs) as (ts & t & E & Ht & L); [discriminate|].
    exists (c :: ts), t. rewrite E. repeat split; auto.
    cbn [of_chars app]. rewrite <- E, last_byte_app; auto.
    rewrite E, of_chars_app. intros F.
    destruct (of_chars ts); simpl in F; [|discriminate].
    rewrite append_empty_r in F. auto.
Qed.

Lemma space_last_bytes :
  forallb (fun w => match last_byte w with
                    | Some b => negb (Ascii.eqb b "`"%char)
                    | None => false
                    end) spaces = true.
Proof. vm_compute. reflexivity. Qed.

Lemma rstrip_backquote (s : string) :
  rstrip (s ++ "`") = (s ++ "`")%string.
Proof.
  destruct (of_chars_last (chars (s ++ "`")) (chars_not_empty _))
    as (ts & t & E & Ht & L).
  { intros F. pose proof (of_chars_chars (s ++ "`")) as C. rewrite F in C.
    destruct s; discriminate C. }
  rewrite of_chars_chars, last_byte_app in L by discriminate. simpl in L.
  assert (Hsp : is_space t = false).
  { destruct (is_space t) eqn:Hsp; auto. unfold is_space in Hsp.
    apply existsb_exists in Hsp. destruct Hsp as [w [Hw Heq]].
    apply String.eqb_eq in Heq. subst w.
    pose proof space_last_bytes as S. rewrite forallb_forall in S.
    specialize (S t Hw). rewrite <- L in S. discriminate S. }
  unfold rstrip. rewrite E, rev_app_distr. cbn [rev app lstrip_chars].
  rewrite Hsp. cbn [rev]. rewrite rev_involutive, <- E.
  apply of_chars_chars.
Qed.

Lemma rstrip_fence (s : string) : rstrip (s ++ "```") = (s ++ "```")%string.
Proof.
  replace (s ++ "```")%string with ((s ++ "``") ++ "`")%string
    by (rewrite append_assoc; reflexivity).
  apply rstrip_backquote.
Qed.

Lemma strip_fenced (s : string) :
  strip ("```" ++ s ++ "```") = ("```" ++ s ++ "```")%string.
Proof.
  unfold strip.
  change ("```" ++ s ++ "```")%string with ("`" ++ ("``" ++ s ++ "```"))%string.
  rewrite lstrip_keep by reflexivity.
  change ("`" ++ ("``" ++ s ++ "```"))%string with ("```" ++ s ++ "```")%string.
  replace ("```" ++ s ++ "```")%string with (("```" ++ s) ++ "```")%string
    by (rewrite append_assoc; reflexivity).
  apply rstrip_fence.
Qed.

End Stripping.

(** The case mapping and the stripping on characters beyond the ASCII
    range: sharp s, the Kelvin sign, the dotted capital I, a ligature, a
    final and a medial sigma, and a no-break space. *)
Lemma case_mapping_examples :
  upper (utf8s [115; 116; 114; 97; 223; 101]%N) = "STRASSE"
  /\ lower (utf8s [8490; 7838; 304]%N) = utf8s [107; 223; 105; 775]%N
  /\ upper (utf8s [64257; 110]%N) = "FIN"
  /\ lower (utf8s [927; 916; 927; 931; 32; 931; 927; 931]%N)
     = utf8s [959; 948; 959; 962; 32; 963; 959; 962]%N
  /\ strip (utf8s [160; 8195; 97; 160; 98; 12288; 10]%N) = utf8s [97; 160; 98]%N
  /\ len (utf8s [223; 8490; 66560]%N) = 3%nat.
Proof. vm_compute. repeat split; reflexivity. Qed.

(** ** The label normalizers *)

Section Normalizers.

Lemma mapping_keys_letters :
  forallb (fun item => all_bytes Evaluator.key_letter (fst item))
          Evaluator.shot_type_mapping = true.
Proof. vm_compute. reflexivity. Qed.

(** A passthrough of the shot-type normalizer is not a key of the mapping
    in upper case either. *)
Lemma passthrough_misses_mapping (s : string) :
  dict_get String.eqb Evaluator.shot_type_mapping (upper s) = None ->
  dict_get String.eqb Evaluator.shot_type_mapping (upper (lower s)) = None.
Proof.
  intros Hd.
  destruct (dict_get String.eqb Evaluator.shot_type_mapping (upper (lower s)))
    as [v|] eqn:Hd2; auto.
  pose proof (dict_get_In String.eqb String.eqb_eq _ _ _ Hd2) as Hin.
  pose proof mapping_keys_letters as K. rewrite forallb_forall in K.
  specialize (K _ Hin). cbn [fst] in K.
  unfold lower in K, Hd2. rewrite <- (upper_lower_letters s [] K) in Hd2.
  congruence.
Qed.

Lemma normalize_shot_type_idempotent :
  idempotent_on_labels Evaluator._normalize_shot_type.
Proof.
  intros [s|]; [|exists None; split; reflexivity].
  unfold Evaluator._normalize_shot_type. cbn [of_opt_str truthy].
  destruct (s =? EmptyString) eqn:Hs; cbn [negb];
    [exists None; split; reflexivity|].
  eexists. split; [reflexivity|].
  destruct (dict_get String.eqb Evaluator.shot_type_mapping (upper s))
    as [v|] eqn:Hd.
  - unfold Evaluator.shot_type_mapping in Hd. cbn [dict_get] in Hd.
    repeat match type of Hd with
           | (if ?c then _ else _) = _ =>
               destruct c; [inversion Hd; subst v; reflexivity|]
           end.
    discriminate Hd.
  - cbn [of_opt_str truthy].
    assert (Hl : (lower s =? EmptyString) = false).
    { apply String.eqb_neq. apply lower_not_empty. now apply String.eqb_neq. }
    rewrite Hl. cbn [negb].
    now rewrite (passthrough_misses_mapping s Hd), lower_lower.
Qed.

(** The shot-type normalizer beyond the ASCII range: a dotless i has the
    upper case I, so the label is mapped; a Kelvin sign is its own upper
    case and has the lower case k, so the label passes through in lower
    case, where it stays. *)
Lemma normalize_shot_type_examples :
  Evaluator._normalize_shot_type
    (JStr (utf8s [109; 305; 100; 95; 114; 97; 110; 103; 101]%N))
  = Return (Some "mid_range")
  /\ Evaluator._normalize_shot_type (JStr (utf8s [68; 85; 78; 8490]%N))
     = Return (Some "dunk")
  /\ Evaluator._normalize_shot_type (JStr "dunk") = Return (Some "dunk").
Proof. vm_compute. repeat split; reflexivity. Qed.

Lemma normalize_result_idempotent :
  idempotent_on_labels Evaluator._normalize_result.
Proof.
  intros [s|]; [|exists None; split; reflexivity].
  unfold Evaluator._normalize_result at 1. cbn [of_opt_str truthy].
  destruct (s =? EmptyString); cbn [negb]; [exists None; split; reflexivity|].
  destruct (upper s =? "MAKE"); [exists (Some "make"); split; reflexivity|].
  destruct (upper s =? "MISS"); [exists (Some "miss"); split; reflexivity|].
  exists None; split; reflexivity.
Qed.

(** C9. The shot-type and result normalizers, of the evaluator and of the
    metrics class, are idempotent on strings and null. *)
Theorem normalizers_idempotent :
  idempotent_on_labels Evaluator._normalize_shot_type
  /\ idempotent_on_labels Evaluator._normalize_result
  /\ idempotent_on_labels Metrics._normalize_shot_type
  /\ idempotent_on_labels Metrics._normalize_result.
Proof.
  repeat split.
  - exact normalize_shot_type_idempotent.
  - exact normalize_result_idempotent.
  - exact normalize_shot_type_idempotent.
  - exact normalize_result_idempotent.
Qed.

End Normalizers.

(** ** evaluator.py: parsing the model output *)

Section Parsing.
Variable json_loads : string -> exc json.

(** C6, amended. When both parse attempts fail with [JSONDecodeError],
    [_parse_model_output] returns the sentinel: [error] is the string
    "Failed to parse JSON", [confidence] is 0, [tips] is empty, [make_miss]
    and [range] are null and [raw_output] is the input. *)
Theorem parse_failure_sentinel (raw_text : string) :
  Evaluator.parse_attempts_fail json_loads raw_text = true ->
  Evaluator._parse_model_output json_loads raw_text
  = Return (Evaluator.parse_failure raw_text)
  /\ let out := Evaluator.parse_failure raw_text in
     Json.get out "error" = Return (JStr "Failed to parse JSON")
     /\ Json.get out "confidence" = Return (JNum (0 # 1))
     /\ Json.get out "tips" = Return (JArr [])
     /\ Json.get out "make_miss" = Return JNull
     /\ Json.get out "range" = Return JNull
     /\ Json.get out "raw_output" = Return (JStr raw_text).
Proof.
  unfold Evaluator.parse_attempts_fail, Evaluator._parse_model_output.
  intros H. split; [|repeat split; reflexivity].
  destruct (json_loads (Evaluator.cleaned_text raw_text)) as [v|[]];
    try discriminate.
  destruct ((0 <=? find raw_text "{")%Z
            && (find raw_text "{" <? rfind raw_text "}" + 1)%Z); [|reflexivity].
  destruct (json_loads (slice raw_text (find raw_text "{")
                              (rfind raw_text "}" + 1)%Z)) as [v|[]];
    try discriminate.
  reflexivity.
Qed.

(** When an attempt succeeds, its value is returned as it is. *)
Lemma parse_success_value (raw_text : string) (out : json) :
  Evaluator._parse_model_output json_loads raw_text = Return out ->
  Evaluator.parse_attempts_fail json_loads raw_text = false ->
  json_loads (Evaluator.cleaned_text raw_text) = Return out
  \/ json_loads (slice raw_text (find raw_text "{") (rfind raw_text "}" + 1)%Z)
     = Return out.
Proof.
  unfold Evaluator.parse_attempts_fail, Evaluator._parse_model_output.
  destruct (json_loads (Evaluator.cleaned_text raw_text)) as [v|[]];
    try discriminate; [now left|].
  destruct ((0 <=? find raw_text "{")%Z
            && (find raw_text "{" <? rfind raw_text "}" + 1)%Z); [|discriminate].
  destruct (json_loads (slice raw_text (find raw_text "{")
                              (rfind raw_text "}" + 1)%Z)) as [v|[]];
    try discriminate.
  now right.
Qed.

(** An exception of the decoder other than [JSONDecodeError] is not caught:
    [_parse_model_output] raises it, from the first attempt or from the
    second. *)
Lemma parse_model_output_raises (raw_text : string) (e : exn) :
  e <> JSONDecodeError ->
  json_loads (Evaluator.cleaned_text raw_text) = Raise e
  \/ (json_loads (Evaluator.cleaned_text raw_text) = Raise JSONDecodeError
      /\ ((0 <=? find raw_text "{")%Z
          && (find raw_text "{" <? rfind raw_text "}" + 1)%Z = true)
      /\ json_loads (slice raw_text (find raw_text "{") (rfind raw_text "}" + 1)%Z)
         = Raise e) ->
  Evaluator._parse_model_output json_loads raw_text = Raise e.
Proof.
  unfold Evaluator._parse_model_output.
  intros Hne [H|(H1 & H2 & H3)].
  - rewrite H. destruct e; congruence.
  - rewrite H1, H2, H3. destruct e; congruence.
Qed.

Lemma cleaned_fenced_answer :
  Evaluator.cleaned_text Examples.fenced_answer = Examples.answer_text.
Proof. vm_compute. reflexivity. Qed.

(** C7. On the fenced answer, a decoder that reads the answer text as the
    answer object makes [_parse_model_output] return that object, which has
    no [error] key. *)
Theorem parse_fenced_answer :
  json_loads Examples.answer_text = Return Examples.answer_object ->
  Evaluator._parse_model_output json_loads Examples.fenced_answer
  = Return Examples.answer_object
  /\ Json.has_key Examples.answer_object "error" = false.
Proof.
  intros H. unfold Evaluator._parse_model_output.
  rewrite cleaned_fenced_answer, H. split; reflexivity.
Qed.

End Parsing.

Lemma parse_failure_sentinel_witness :
  Evaluator.parse_attempts_fail MiniJson.json_loads "not json at all" = true
  /\ Evaluator._parse_model_output MiniJson.json_loads "not json at all"
     = Return (Evaluator.parse_failure "not json at all").
Proof.
  split.
  - vm_compute. reflexivity.
  - apply (parse_failure_sentinel MiniJson.json_loads "not json at all").
    vm_compute. reflexivity.
Defined.

(** C6 as stated fails: the sentinel's [error] is not "Failed to parse". *)
Lemma parse_failure_message_differs :
  ~ (forall (json_loads : string -> exc json) (raw_text : string),
        Evaluator.parse_attempts_fail json_loads raw_text = true ->
        exists out,
          Evaluator._parse_model_output json_loads raw_text = Return out
          /\ Json.get out "error" = Return (JStr "Failed to parse")).
Proof.
  intros H.
  destruct (H MiniJson.json_loads "not json at all" eq_refl) as (out & E & G).
  vm_compute in E. inversion E; subst out.
  vm_compute in G. discriminate G.
Qed.

(** An answer whose braced part holds an integer of 4301 digits: the second
    attempt raises [ValueError], which no handler catches. *)
Lemma parse_model_output_raises_on_long_integer :
  let digits := String.concat EmptyString (repeat "7" 4301) in
  let raw_text := ("confidence " ++ String lbrace
                     (MiniJson.quoted "'confidence': " ++ digits
                      ++ String rbrace EmptyString))%string in
  MiniJson.json_loads (Evaluator.cleaned_text raw_text) = Raise JSONDecodeError
  /\ Evaluator._parse_model_output MiniJson.json_loads raw_text = Raise ValueError.
Proof. vm_compute. split; reflexivity. Qed.

Lemma parse_fenced_answer_witness :
  MiniJson.json_loads Examples.answer_text = Return Examples.answer_object
  /\ Evaluator._parse_model_output MiniJson.json_loads Examples.fenced_answer
     = Return Examples.answer_object.
Proof.
  split.
  - vm_compute. reflexivity.
  - apply (parse_fenced_answer MiniJson.json_loads). vm_compute. reflexivity.
Defined.

(** ** evaluator.py: run metrics *)

Section RunMetrics.
Import DataManager Evaluator.

Lemma count_cons {A : Type} (f : A -> bool) (x : A) (l : list A) :
  count f (x :: l) = (b2n (f x) + count f l)%nat.
Proof. unfold count. simpl. destruct (f x); reflexivity. Qed.

Lemma normalize_shot_type_label (v : json) :
  label_like v = true ->
  _normalize_shot_type v = Return (value_of (_normalize_shot_type v)).
Proof.
  unfold _normalize_shot_type, label_like.
  destruct v; cbn [truthy negb]; intros H; try (rewrite H; reflexivity).
  - reflexivity.
  - destruct (negb (negb (s =? EmptyString))); reflexivity.
Qed.

Lemma normalize_result_label (v : json) :
  label_like v = true ->
  _normalize_result v = Return (value_of (_normalize_result v)).
Proof.
  unfold _normalize_result, label_like.
  destruct v; cbn [truthy negb]; intros H; try (rewrite H; reflexivity).
  - reflexivity.
  - destruct (negb (negb (s =? EmptyString))); [reflexivity|].
    destruct (upper s =? "MAKE"); [reflexivity|].
    destruct (upper s =? "MISS"); reflexivity.
Qed.

Lemma forallb_snoc {A : Type} (f : A -> bool) (l : list A) (x : A) :
  forallb f (l ++ [x]) = forallb f l && f x.
Proof. rewrite forallb_app. simpl. now rewrite andb_true_r. Qed.

(** One turn of the loop on a sample of the expected shape. *)
Lemma metrics_step_ok (st : Counters) (res : SampleResult) :
  sample_ok res = true ->
  exists st',
    metrics_step st res = Return st'
    /\ valid_predictions st' = (valid_predictions st + b2n (valid_sample res))%nat
    /\ shot_type_correct st' = (shot_type_correct st + b2n (shot_type_hit res))%nat
    /\ result_correct st' = (result_correct st + b2n (result_hit res))%nat
    /\ both_correct st' = (both_correct st + b2n (both_hit res))%nat
    /\ (forallb summable (confidence_scores st) = true ->
        forallb summable (confidence_scores st') = true).
Proof.
  unfold sample_ok, metrics_step, shot_type_hit, result_hit, both_hit,
    valid_sample, error_truthy, pred_shot_type, pred_result.
  destruct (prediction res) as [| | | | |d]; try discriminate.
  cbn [Json.get Py.bind].
  destruct (truthy (lookup d "error")).
  - intros _. exists st. cbn [negb andb b2n]. repeat split; auto; lia.
  - intros H. apply andb_prop in H. destruct H as [H Hc].
    apply andb_prop in H. destruct H as [Hr Hm].
    rewrite (normalize_shot_type_label _ Hr), (normalize_result_label _ Hm).
    cbn [Py.bind]. eexists. split; [reflexivity|].
    cbn [valid_predictions shot_type_correct result_correct both_correct
         confidence_scores negb andb value_of].
    repeat split.
    + match goal with |- (if ?c then _ else _) = _ => destruct c end;
        cbn [b2n]; lia.
    + match goal with |- (if ?c then _ else _) = _ => destruct c end;
        cbn [b2n]; lia.
    + match goal with |- (if ?c then _ else _) = _ => destruct c end;
        cbn [b2n]; lia.
    + intros Hs. destruct (lookup d "confidence"); cbn [is_null]; auto;
        try discriminate; rewrite forallb_snoc, Hs; reflexivity.
Qed.

Lemma metrics_loop_ok (samples : list SampleResult) : forall st,
  forallb sample_ok samples = true ->
  exists st',
    metrics_loop st samples = Return st'
    /\ valid_predictions st' = (valid_predictions st + count valid_sample samples)%nat
    /\ shot_type_correct st' = (shot_type_correct st + count shot_type_hit samples)%nat
    /\ result_correct st' = (result_correct st + count result_hit samples)%nat
    /\ both_correct st' = (both_correct st + count both_hit samples)%nat
    /\ (forallb summable (confidence_scores st) = true ->
        forallb summable (confidence_scores st') = true).
Proof.
  induction samples as [|res rest IH]; intros st Hok.
  - exists st. unfold count. simpl. repeat split; auto; lia.
  - simpl in Hok. apply andb_prop in Hok. destruct Hok as [Hres Hrest].
    destruct (metrics_step_ok st res Hres) as (st1 & E1 & V1 & S1 & R1 & B1 & C1).
    destruct (IH st1 Hrest) as (st2 & E2 & V2 & S2 & R2 & B2 & C2).
    exists st2. simpl. rewrite E1. cbn [Py.bind]. rewrite !count_cons.
    repeat split; auto; lia.
Qed.

(** Whatever the sample, a turn that does not raise counts it as read. *)
Lemma metrics_step_counts (st st' : Counters) (res : SampleResult) :
  metrics_step st res = Return st' ->
  valid_predictions st' = (valid_predictions st + b2n (valid_sample res))%nat
  /\ shot_type_correct st' = (shot_type_correct st + b2n (shot_type_hit res))%nat
  /\ result_correct st' = (result_correct st + b2n (result_hit res))%nat
  /\ both_correct st' = (both_correct st + b2n (both_hit res))%nat.
Proof.
  unfold metrics_step, shot_type_hit, result_hit, both_hit,
    valid_sample, error_truthy, pred_shot_type, pred_result.
  destruct (prediction res) as [| | | | |d]; try discriminate.
  cbn [Json.get Py.bind].
  destruct (truthy (lookup d "error")).
  - intros H. inversion H; subst st'. cbn [negb andb b2n]. repeat split; lia.
  - destruct (_normalize_shot_type (lookup d "range")) as [ps|]; [|discriminate].
    destruct (_normalize_result (lookup d "make_miss")) as [pr|]; [|discriminate].
    cbn [Py.bind]. intros H. inversion H; subst st'.
    cbn [valid_predictions shot_type_correct result_correct both_correct
         negb andb value_of].
    repeat split;
      match goal with |- (if ?c then _ else _) = _ => destruct c end;
      cbn [b2n]; lia.
Qed.

Lemma metrics_loop_counts (samples : list SampleResult) : forall st st',
  metrics_loop st samples = Return st' ->
  valid_predictions st' = (valid_predictions st + count valid_sample samples)%nat
  /\ shot_type_correct st' = (shot_type_correct st + count shot_type_hit samples)%nat
  /\ result_correct st' = (result_correct st + count result_hit samples)%nat
  /\ both_correct st' = (both_correct st + count both_hit samples)%nat.
Proof.
  induction samples as [|res rest IH]; intros st st' H; simpl in H.
  - inversion H; subst st'. unfold count. simpl. repeat split; lia.
  - destruct (metrics_step st res) as [st1|] eqn:E1; [|discriminate].
    cbn [Py.bind] in H.
    destruct (metrics_step_counts st st1 res E1) as (V1 & S1 & R1 & B1).
    destruct (IH st1 st' H) as (V2 & S2 & R2 & B2).
    rewrite !count_cons. repeat split; lia.
Qed.

Lemma sum_scores_ok (scores : list json) : forall acc,
  forallb summable scores = true -> exists total, sum_scores acc scores = Return total.
Proof.
  induction scores as [|v rest IH]; intros acc H; simpl.
  - eauto.
  - simpl in H. apply andb_prop in H. destruct H as [Hv Hrest].
    destruct v; try discriminate; apply IH; auto.
Qed.

(** The loop returns on samples of the expected shape. *)
Lemma calculate_metrics_returns (samples : list SampleResult) :
  samples <> [] ->
  forallb sample_ok samples = true ->
  exists m, _calculate_metrics samples = Return (Some m).
Proof.
  intros Hne Hok.
  destruct samples as [|res rest]; [congruence|].
  destruct (metrics_loop_ok (res :: rest) counters0 Hok)
    as (st & E & _ & _ & _ & _ & C).
  unfold _calculate_metrics. rewrite E. cbn [Py.bind].
  specialize (C eq_refl).
  destruct (confidence_scores st) as [|v scores].
  - cbn [Py.bind]. eauto.
  - destruct (sum_scores_ok (v :: scores) (0 # 1)%Q C) as [total Ht].
    rewrite Ht. cbn [Py.bind]. rewrite truediv_len. cbn [Py.bind]. eauto.
Qed.

(** C5, amended. On a non-empty list of samples, [_calculate_metrics]
    returns when every prediction has the expected shape and every
    confidence that is a number lies between 0 and 1, and whenever it
    returns, [valid_predictions] is the number of samples whose prediction
    has no true [error] entry (the key is absent, or its value is null,
    empty, zero or false), and the three accuracies are the three counts of
    correct samples over [valid_predictions], 0 when it is 0. *)
Theorem valid_predictions_denominator (samples : list SampleResult) :
  samples <> [] ->
  (forallb sample_ok samples = true ->
   forallb confidence_in_unit samples = true ->
   exists m, _calculate_metrics samples = Return (Some m))
  /\ (forall m,
         _calculate_metrics samples = Return (Some m) ->
         total_samples m = List.length samples
         /\ m_valid_predictions m = count valid_sample samples
         /\ parse_success_rate m = ratio (m_valid_predictions m) (List.length samples)
         /\ shot_type_accuracy m
            = ratio (count shot_type_hit samples) (m_valid_predictions m)
         /\ result_accuracy m
            = ratio (count result_hit samples) (m_valid_predictions m)
         /\ both_correct_accuracy m
            = ratio (count both_hit samples) (m_valid_predictions m)).
Proof.
  intros Hne. split; [intros Hok _; now apply calculate_metrics_returns|].
  intros m H.
  destruct samples as [|res rest]; [congruence|].
  unfold _calculate_metrics in H.
  destruct (metrics_loop counters0 (res :: rest)) as [st|] eqn:E; [|discriminate].
  cbn [Py.bind] in H.
  destruct (metrics_loop_counts (res :: rest) counters0 st E) as (V & S & R & B).
  simpl in V, S, R, B.
  assert (Hm : forall avg,
             Return (Some {| total_samples := List.length (res :: rest);
                             m_valid_predictions := valid_predictions st;
                             parse_success_rate :=
                               ratio (valid_predictions st) (List.length (res :: rest));
                             shot_type_accuracy :=
                               ratio (shot_type_correct st) (valid_predictions st);
                             result_accuracy :=
                               ratio (result_correct st) (valid_predictions st);
                             both_correct_accuracy :=
                               ratio (both_correct st) (valid_predictions st);
                             average_confidence := avg;
                             shot_type_confusion_matrix := shot_type_confusion st;
                             result_confusion_matrix := result_confusion st |})
             = Return (Some m) ->
             total_samples m = List.length (res :: rest)
             /\ m_valid_predictions m = count valid_sample (res :: rest)
             /\ parse_success_rate m
                = ratio (m_valid_predictions m) (List.length (res :: rest))
             /\ shot_type_accuracy m
                = ratio (count shot_type_hit (res :: rest)) (m_valid_predictions m)
             /\ result_accuracy m
                = ratio (count result_hit (res :: rest)) (m_valid_predictions m)
             /\ both_correct_accuracy m
                = ratio (count both_hit (res :: rest)) (m_valid_predictions m)).
  { intros avg Hr. inversion Hr; subst m.
    cbn [total_samples m_valid_predictions parse_success_rate shot_type_accuracy
         result_accuracy both_correct_accuracy].
    rewrite S, R, B, V. repeat split; reflexivity. }
  destruct (confidence_scores st) as [|v scores].
  - cbn [Py.bind] in H. now apply (Hm (0 # 1)%Q).
  - destruct (sum_scores (0 # 1)%Q (v :: scores)) as [total|]; [|discriminate].
    cbn [Py.bind] in H.
    destruct (truediv total (Q_of_nat (List.length (v :: scores)))) as [avg|];
      [|discriminate].
    cbn [Py.bind] in H. now apply (Hm avg).
Qed.

End RunMetrics.

Section RunMetricsExamples.
Import DataManager Evaluator.

Lemma valid_predictions_denominator_witness :
  Examples.ten_samples <> []
  /\ forallb sample_ok Examples.ten_samples = true
  /\ forallb confidence_in_unit Examples.ten_samples = true
  /\ exists m,
       _calculate_metrics Examples.ten_samples = Return (Some m)
       /\ total_samples m = 10%nat
       /\ m_valid_predictions m = 8%nat
       /\ shot_type_accuracy m = ratio 6 8
       /\ result_accuracy m = ratio 6 8
       /\ both_correct_accuracy m = ratio 5 8.
Proof.
  split; [discriminate|]. split; [vm_compute; reflexivity|].
  split; [vm_compute; reflexivity|].
  destruct (valid_predictions_denominator Examples.ten_samples) as [Hret Hval].
  - discriminate.
  - destruct Hret as [m E]; [vm_compute; reflexivity | vm_compute; reflexivity |].
    destruct (Hval m E) as (T & V & _ & S & R & B).
    exists m. rewrite S, R, B, V, T. repeat split; auto.
Defined.

(** C5 as stated fails: an answer with the key [error] and the value null
    is counted in [valid_predictions]. *)
Lemma error_key_with_null_is_counted_valid :
  ~ (forall samples : list SampleResult,
        samples <> [] ->
        forall m, _calculate_metrics samples = Return (Some m) ->
                  m_valid_predictions m
                  = count (fun res => negb (has_key (prediction res) "error")) samples).
Proof.
  intros H.
  assert (Hne : [Examples.null_error_sample] <> []) by discriminate.
  specialize (H [Examples.null_error_sample] Hne).
  destruct (_calculate_metrics [Examples.null_error_sample]) as [[m|]|e] eqn:E;
    vm_compute in E; try discriminate E.
  specialize (H m eq_refl). inversion E; subst m.
  vm_compute in H. discriminate H.
Qed.

(** C4 at a clip without ground-truth shot type whose answer has no range:
    the sample is counted in [both_correct] and not in [shot_type_correct]. *)
Theorem both_correct_counts_null_shot_types :
  shot_type (sr_ground_truth Examples.null_pair_sample) = None
  /\ pred_shot_type Examples.null_pair_sample = None
  /\ exists m,
       _calculate_metrics [Examples.null_pair_sample] = Return (Some m)
       /\ m_valid_predictions m = 1%nat
       /\ shot_type_accuracy m = ratio 0 1
       /\ both_correct_accuracy m = ratio 1 1.
Proof.
  split; [reflexivity|]. split; [reflexivity|].
  eexists. split; [vm_compute; reflexivity|].
  repeat split; reflexivity.
Qed.

(** What the two guarded counters require of a sample. *)
Lemma shot_type_hit_not_null (res : SampleResult) :
  shot_type_hit res = true ->
  truthy_str (shot_type (sr_ground_truth res)) = true
  /\ truthy_str (pred_shot_type res) = true.
Proof.
  unfold shot_type_hit. intros H.
  apply andb_prop in H. destruct H as [H _].
  apply andb_prop in H. destruct H as [_ H].
  now apply andb_prop in H.
Qed.

Lemma result_hit_not_null (res : SampleResult) :
  result_hit res = true ->
  truthy_str (result (sr_ground_truth res)) = true
  /\ truthy_str (pred_result res) = true.
Proof.
  unfold result_hit. intros H.
  apply andb_prop in H. destruct H as [H _].
  apply andb_prop in H. destruct H as [_ H].
  now apply andb_prop in H.
Qed.

End RunMetricsExamples.

(** ** evaluator.py: a run *)

Section Runs.
Import DataManager Evaluator.
Variable json_loads : string -> exc json.
Variable w : World.

Lemma evaluate_loop_all_missing model_name prompt fps media_resolution data :
  (forall e, In e data -> path_exists w (e_video_path e) = false) ->
  evaluate_loop json_loads w model_name prompt fps media_resolution data = [].
Proof.
  induction data as [|e rest IH]; intros H; simpl; auto.
  unfold evaluate_entry. rewrite (H e (or_introl eq_refl)). simpl.
  apply IH. intros e' He'. apply H. now right.
Qed.

(** The loop of a run never raises: each of its results comes from an
    entry whose video exists and whose inference returned. *)
Lemma evaluate_loop_sound model_name prompt fps media_resolution data res :
  In res (evaluate_loop json_loads w model_name prompt fps media_resolution data) ->
  exists e cost,
    In e data
    /\ path_exists w (e_video_path e) = true
    /\ _run_inference json_loads w model_name prompt (e_video_path e) fps
                      media_resolution = Return (prediction res, cost)
    /\ sr_clip_id res = e_clip_id e
    /\ sr_ground_truth res = ground_truth e.
Proof.
  induction data as [|e rest IH]; simpl; [contradiction|].
  unfold evaluate_entry at 1.
  destruct (path_exists w (e_video_path e)) eqn:Hp; simpl.
  - destruct (_run_inference json_loads w model_name prompt (e_video_path e) fps
                             media_resolution) as [[p c]|] eqn:Hr.
    + intros [<-|H].
      * exists e, c. simpl. auto.
      * destruct (IH H) as (e' & c' & Hin & H'). exists e', c'. auto.
    + intros H. destruct (IH H) as (e' & c' & Hin & H'). exists e', c'. auto.
  - intros H. destruct (IH H) as (e' & c' & Hin & H'). exists e', c'. auto.
Qed.

(** A run whose every entry is skipped writes its artifact and then divides
    by the number of results, which is 0. *)
Lemma evaluate_model_no_results model_name prompt data fps media_resolution :
  evaluate_loop json_loads w model_name prompt fps media_resolution data = [] ->
  save_results w = Return tt ->
  evaluate_model json_loads w model_name prompt data fps media_resolution None
  = Raise ZeroDivisionError.
Proof.
  intros Hl Hs. unfold evaluate_model. rewrite Hl. simpl. rewrite Hs. reflexivity.
Qed.

End Runs.

Section RunExamples.
Import DataManager Evaluator.

(** C3 at a dataset whose only entry has no video on disk: the entry is
    skipped, and the run raises. *)
Theorem evaluate_model_raises_when_all_skipped :
  path_exists (Examples.world Examples.fenced_answer)
              (e_video_path Examples.entry_missing) = false
  /\ evaluate_model MiniJson.json_loads (Examples.world Examples.fenced_answer)
                    "models/gemini-2.5-flash" "Classify the shot."
                    [Examples.entry_missing] 24 "MEDIUM" None
     = Raise ZeroDivisionError.
Proof. split; vm_compute; reflexivity. Qed.

(** With one video on disk the run returns, and its results leave the
    missing entry out. *)
Lemma evaluate_model_skips_missing_video :
  exists report,
    evaluate_model MiniJson.json_loads (Examples.world Examples.fenced_answer)
                   "models/gemini-2.5-flash" "Classify the shot."
                   [Examples.entry_missing; Examples.entry_present] 24 "MEDIUM" None
    = Return report
    /\ map sr_clip_id (results report) = ["clip-1"]
    /\ map prediction (results report) = [Examples.answer_object].
Proof.
  eexists. split; [vm_compute; reflexivity|]. split; reflexivity.
Qed.

(** An answer that is JSON and not an object passes the loop of the run and
    makes [_calculate_metrics] raise. *)
Lemma evaluate_model_raises_on_array_answer :
  evaluate_model MiniJson.json_loads (Examples.world "[1, 2]")
                 "models/gemini-2.5-flash" "Classify the shot."
                 [Examples.entry_present] 24 "MEDIUM" None
  = Raise AttributeError.
Proof. vm_compute. reflexivity. Qed.

End RunExamples.

(** ** metrics.py: the confusion matrix *)

Section ConfusionMatrix.
Import Metrics.

(** C8 at a key with two separators: unpacking the split raises. *)
Theorem build_confusion_matrix_raises_on_two_separators :
  _build_confusion_matrix [("make -> miss -> make", 1%Z)] results = Raise ValueError.
Proof. vm_compute. reflexivity. Qed.

Lemma build_confusion_matrix_example :
  _build_confusion_matrix [("make -> make", 3%Z); ("make -> miss", 1%Z)] results
  = Return ([[3; 1]; [0; 0]]%Z, results).
Proof. vm_compute. reflexivity. Qed.

Lemma build_confusion_matrix_drops_unknown :
  _build_confusion_matrix [("make -> dunk", 4%Z); ("no separator", 2%Z);
                           ("miss -> make", 5%Z)] results
  = Return ([[0; 0]; [5; 0]]%Z, results).
Proof. vm_compute. reflexivity. Qed.

End ConfusionMatrix.

(** *** [split] and [join] *)

Section SplitJoin.
Variable sep : string.
Hypothesis sep_not_empty : sep <> EmptyString.

Lemma split_from_not_nil (s : string) : forall k, split_from sep k s <> [].
Proof.
  induction s as [|c s IH]; intros k; cbn [split_from]; [discriminate|].
  destruct k; [|apply IH].
  destruct (String.prefix sep (String c s)); [discriminate|].
  destruct (split_from sep 0 s); discriminate.
Qed.

Lemma concat_cons (x : string) (l : list string) :
  l <> [] -> String.concat sep (x :: l) = (x ++ sep ++ String.concat sep l)%string.
Proof. destruct l; [congruence | reflexivity]. Qed.

Lemma concat_push (c : ascii) (h : string) (t : list string) :
  String.concat sep (String c h :: t) = String c (String.concat sep (h :: t)).
Proof. destruct t; reflexivity. Qed.

Lemma prefix_drop (p : string) : forall s,
  String.prefix p s = true -> s = (p ++ drop (String.length p) s)%string.
Proof.
  induction p as [|a p IH]; intros s H; simpl.
  - destruct s; reflexivity.
  - destruct s as [|b s]; simpl in H; [discriminate|].
    destruct (ascii_dec a b) as [->|]; [|discriminate].
    simpl. f_equal. now apply IH.
Qed.

Lemma prefix_length (p : string) : forall s,
  String.prefix p s = true -> String.length p <= String.length s.
Proof.
  induction p as [|a p IH]; intros s H; simpl; [lia|].
  destruct s as [|b s]; simpl in H; [discriminate|].
  destruct (ascii_dec a b); [|discriminate].
  simpl. apply IH in H. lia.
Qed.

(** Joining the parts gives back what was split. *)
Lemma split_from_join (s : string) : forall k,
  k <= String.length s -> String.concat sep (split_from sep k s) = drop k s.
Proof.
  induction s as [|c s IH]; intros k Hk; cbn [split_from String.length] in *.
  - assert (k = 0) by lia. subst k. reflexivity.
  - destruct k as [|k].
    + destruct (String.prefix sep (String c s)) eqn:Hp.
      * rewrite concat_cons by apply split_from_not_nil.
        pose proof (prefix_length _ _ Hp) as Hlen.
        pose proof (prefix_drop _ _ Hp) as Hd.
        destruct sep as [|a sep'] eqn:Hsep; [congruence|].
        simpl String.length in *. simpl in Hlen.
        rewrite IH by lia. simpl.
        replace (String.length sep' - 0) with (String.length sep') by lia.
        simpl in Hd. exact (eq_sym Hd).
      * destruct (split_from sep 0 s) as [|h t] eqn:Hs.
        { exfalso. eapply split_from_not_nil; eauto. }
        rewrite concat_push. cbn [drop]. f_equal.
        rewrite <- Hs. apply (IH 0). lia.
    + apply IH. lia.
Qed.

Lemma split_two_parts (s a b : string) :
  split s sep = [a; b] -> s = (a ++ sep ++ b)%string.
Proof.
  unfold split. intros H.
  pose proof (split_from_join s 0 (Nat.le_0_l _)) as J.
  rewrite H in J. simpl in J. now symmetry.
Qed.

End SplitJoin.

(** *** Matrices and label lists *)

Section MatrixFacts.
Import Metrics.

Lemma set_nth_length {A : Type} (l : list A) : forall i v,
  List.length (set_nth l i v) = List.length l.
Proof.
  induction l as [|h t IH]; intros [|i] v; simpl; auto.
Qed.

Lemma nth_error_set_nth_same {A : Type} (l : list A) : forall i v,
  i < List.length l -> nth_error (set_nth l i v) i = Some v.
Proof.
  induction l as [|h t IH]; intros [|i] v H; simpl in *; try lia; auto.
  apply IH. lia.
Qed.

Lemma nth_error_set_nth_other {A : Type} (l : list A) : forall i i' v,
  i <> i' -> nth_error (set_nth l i v) i' = nth_error l i'.
Proof.
  induction l as [|h t IH]; intros [|i] [|i'] v H; simpl; auto; try congruence.
Qed.

Lemma Forall_set_nth {A : Type} (P : A -> Prop) (l : list A) : forall i v,
  Forall P l -> P v -> Forall P (set_nth l i v).
Proof.
  induction l as [|h t IH]; intros [|i] v Hl Hv; simpl; auto;
    inversion Hl; subst; constructor; auto.
Qed.

Lemma square_row n (m : list (list Z)) i row :
  square n m -> nth_error m i = Some row -> List.length row = n.
Proof.
  intros [_ Hrows] Hi. apply nth_error_In in Hi.
  rewrite Forall_forall in Hrows. auto.
Qed.

Lemma square_set_cell n (m : list (list Z)) i j v :
  square n m -> square n (set_cell m i j v).
Proof.
  intros Hsq. unfold set_cell.
  destruct (nth_error m i) as [row|] eqn:Hi; auto.
  pose proof (square_row n m i row Hsq Hi) as Hrow.
  destruct Hsq as [Hlen Hrows]. split.
  - now rewrite set_nth_length.
  - apply Forall_set_nth; auto. now rewrite set_nth_length.
Qed.

Lemma cell_set_cell_same n (m : list (list Z)) i j v :
  square n m -> i < n -> j < n -> cell (set_cell m i j v) i j = Some v.
Proof.
  intros Hsq Hi Hj. unfold cell, set_cell.
  destruct (nth_error m i) as [row|] eqn:Hrow.
  - pose proof (square_row n m i row Hsq Hrow) as Hlen.
    destruct Hsq as [Hm _].
    rewrite nth_error_set_nth_same by lia.
    apply nth_error_set_nth_same. lia.
  - destruct Hsq as [Hm _]. apply nth_error_None in Hrow. lia.
Qed.

Lemma cell_set_cell_other (m : list (list Z)) i j v i' j' :
  (i, j) <> (i', j') -> cell (set_cell m i j v) i' j' = cell m i' j'.
Proof.
  intros Hne. unfold cell, set_cell.
  destruct (nth_error m i) as [row|] eqn:Hrow; auto.
  destruct (Nat.eq_dec i i') as [<-|Hi].
  - assert (Hlt : i < List.length m).
    { apply nth_error_Some. congruence. }
    rewrite nth_error_set_nth_same by exact Hlt.
    rewrite Hrow. apply nth_error_set_nth_other. congruence.
  - now rewrite nth_error_set_nth_other.
Qed.

Lemma square_zeros n : square n (zeros n).
Proof.
  unfold zeros. split.
  - apply repeat_length.
  - apply Forall_forall. intros row H. apply repeat_spec in H. subst row.
    apply repeat_length.
Qed.

Lemma cell_zeros n i j : i < n -> j < n -> cell (zeros n) i j = Some 0%Z.
Proof.
  intros Hi Hj. unfold cell, zeros.
  rewrite nth_error_repeat by exact Hi. now apply nth_error_repeat.
Qed.

Lemma mem_nth (labels : list string) i a :
  nth_error labels i = Some a -> mem a labels = true.
Proof.
  intros H. apply nth_error_In in H. unfold mem.
  apply existsb_exists. exists a. split; auto. apply String.eqb_refl.
Qed.

Lemma mem_index (labels : list string) (a : string) :
  mem a labels = true -> nth_error labels (index labels a) = Some a.
Proof.
  unfold mem. induction labels as [|l rest IH]; simpl; [discriminate|].
  rewrite (String.eqb_sym a l).
  destruct (l =? a) eqn:E.
  - apply String.eqb_eq in E. subst l. reflexivity.
  - simpl. exact IH.
Qed.

Lemma index_nth (labels : list string) :
  NoDup labels -> forall i a, nth_error labels i = Some a -> index labels a = i.
Proof.
  induction labels as [|l rest IH]; intros Hnd i a H.
  - destruct i; discriminate.
  - inversion Hnd as [|? ? Hnotin Hnd']; subst.
    destruct i as [|i]; simpl in *.
    + inversion H; subst. now rewrite String.eqb_refl.
    + destruct (l =? a) eqn:E.
      * apply String.eqb_eq in E. subst l. apply nth_error_In in H. contradiction.
      * f_equal. now apply IH.
Qed.

Lemma dict_get_keys {V : Type} (d : list (string * V)) (k : string) (v : V) :
  dict_get String.eqb d k = Some v -> In k (map fst d).
Proof.
  intros H. apply (dict_get_In String.eqb String.eqb_eq) in H.
  apply in_map_iff. exists (k, v). auto.
Qed.

End MatrixFacts.

(** *** The cells of the confusion matrix *)

Section ConfusionCells.
Import Metrics.
Variable labels : list string.
Hypothesis labels_nodup : NoDup labels.
Hypothesis labels_plain : plain_labels labels = true.

Lemma arrow_not_empty : " -> " <> EmptyString.
Proof. discriminate. Qed.

Lemma plain_key (a b : string) :
  In a labels -> In b labels ->
  contains (transition_key a b) " -> " = true
  /\ split (transition_key a b) " -> " = [a; b].
Proof.
  intros Ha Hb. unfold plain_labels in labels_plain.
  rewrite forallb_forall in labels_plain.
  specialize (labels_plain a Ha). rewrite forallb_forall in labels_plain.
  specialize (labels_plain b Hb).
  apply andb_prop in labels_plain. destruct labels_plain as [Hc Hs].
  split; auto. unfold splits_as in Hs.
  destruct (split (transition_key a b) " -> ") as [|x [|y [|? ?]]];
    try discriminate.
  apply andb_prop in Hs. destruct Hs as [Hx Hy].
  apply String.eqb_eq in Hx, Hy. now subst.
Qed.

Lemma confusion_step_cells (m : list (list Z)) (k : string) (c : Z) :
  square (List.length labels) m -> key_ok k = true ->
  exists m',
    confusion_step labels m (k, c) = Return m'
    /\ square (List.length labels) m'
    /\ forall i j li lj,
         nth_error labels i = Some li -> nth_error labels j = Some lj ->
         cell m' i j = if k =? transition_key li lj then Some c else cell m i j.
Proof.
  intros Hsq Hok. unfold confusion_step, key_ok in *.
  destruct (contains k " -> ") eqn:Hc.
  - cbn [negb orb] in Hok.
    destruct (split k " -> ") as [|a [|b [|? ?]]] eqn:Hsp; try discriminate.
    pose proof (split_two_parts " -> " arrow_not_empty k a b Hsp) as Hk.
    destruct (mem a labels && mem b labels) eqn:Hmem.
    + apply andb_prop in Hmem. destruct Hmem as [Ha Hb].
      eexists. split; [reflexivity|]. split; [now apply square_set_cell|].
      intros i j li lj Hi Hj.
      destruct (k =? transition_key li lj) eqn:E.
      * apply String.eqb_eq in E.
        destruct (plain_key li lj) as [_ Hs'];
          [eapply nth_error_In; eauto | eapply nth_error_In; eauto |].
        rewrite <- E, Hsp in Hs'. inversion Hs'; subst a b.
        rewrite (index_nth labels labels_nodup i li Hi).
        rewrite (index_nth labels labels_nodup j lj Hj).
        apply cell_set_cell_same with (n := List.length labels); auto;
          apply nth_error_Some; congruence.
      * apply cell_set_cell_other. intros Heq. inversion Heq as [[Hia Hjb]].
        pose proof (mem_index labels a Ha) as Na.
        pose proof (mem_index labels b Hb) as Nb.
        rewrite Hia, Hi in Na. rewrite Hjb, Hj in Nb.
        inversion Na; inversion Nb; subst li lj.
        apply String.eqb_neq in E. apply E. exact Hk.
    + exists m. split; [reflexivity|]. split; auto.
      intros i j li lj Hi Hj.
      destruct (k =? transition_key li lj) eqn:E; auto.
      apply String.eqb_eq in E.
      destruct (plain_key li lj) as [_ Hs'];
        [eapply nth_error_In; eauto | eapply nth_error_In; eauto |].
      rewrite <- E, Hsp in Hs'. inversion Hs'; subst a b.
      rewrite (mem_nth labels i li Hi), (mem_nth labels j lj Hj) in Hmem.
      discriminate.
  - exists m. split; [reflexivity|]. split; auto.
    intros i j li lj Hi Hj.
    destruct (k =? transition_key li lj) eqn:E; auto.
    apply String.eqb_eq in E.
    destruct (plain_key li lj) as [Hc' _];
      [eapply nth_error_In; eauto | eapply nth_error_In; eauto |].
    rewrite <- E in Hc'. congruence.
Qed.

Lemma confusion_loop_cells (items : list (string * Z)) : forall m,
  square (List.length labels) m ->
  NoDup (map fst items) ->
  forallb key_ok (map fst items) = true ->
  exists m',
    confusion_loop labels m items = Return m'
    /\ square (List.length labels) m'
    /\ forall i j li lj,
         nth_error labels i = Some li -> nth_error labels j = Some lj ->
         cell m' i j = match dict_get String.eqb items (transition_key li lj) with
                       | Some c => Some c
                       | None => cell m i j
                       end.
Proof.
  induction items as [|[k c] rest IH]; intros m Hsq Hnd Hok.
  - exists m. simpl. auto.
  - simpl in Hnd, Hok. inversion Hnd as [|? ? Hnotin Hnd']; subst.
    apply andb_prop in Hok. destruct Hok as [Hk Hrest].
    destruct (confusion_step_cells m k c Hsq Hk) as (m1 & E1 & Sq1 & C1).
    destruct (IH m1 Sq1 Hnd' Hrest) as (m2 & E2 & Sq2 & C2).
    exists m2. cbn [confusion_loop]. rewrite E1. cbn [Py.bind].
    split; auto. split; auto.
    intros i j li lj Hi Hj.
    rewrite (C2 i j li lj Hi Hj), (C1 i j li lj Hi Hj).
    cbn [dict_get].
    destruct (k =? transition_key li lj) eqn:E; auto.
    apply String.eqb_eq in E. subst k.
    destruct (dict_get String.eqb rest (transition_key li lj)) as [c'|] eqn:G; auto.
    apply dict_get_keys in G. contradiction.
Qed.

(** On a dict whose keys have at most one separator, the matrix is square
    and its cell for a pair of labels is the count under their key, 0 when
    the key is absent. *)
Lemma build_confusion_matrix_cells (confusion_dict : list (string * Z)) :
  NoDup (map fst confusion_dict) ->
  forallb key_ok (map fst confusion_dict) = true ->
  exists m,
    _build_confusion_matrix confusion_dict labels = Return (m, labels)
    /\ square (List.length labels) m
    /\ forall i j li lj,
         nth_error labels i = Some li -> nth_error labels j = Some lj ->
         cell m i j = Some (count_of confusion_dict (transition_key li lj)).
Proof.
  intros Hnd Hok. unfold _build_confusion_matrix.
  destruct (confusion_loop_cells confusion_dict (zeros (List.length labels))
              (square_zeros _) Hnd Hok) as (m & E & Sq & C).
  exists m. rewrite E. cbn [Py.bind]. split; auto. split; auto.
  intros i j li lj Hi Hj. rewrite (C i j li lj Hi Hj). unfold count_of.
  destruct (dict_get String.eqb confusion_dict (transition_key li lj)); auto.
  apply cell_zeros; apply nth_error_Some; congruence.
Qed.

End ConfusionCells.

Section FixedLabels.
Import Metrics.

Lemma shot_types_nodup : NoDup shot_types.
Proof.
  unfold shot_types.
  repeat (constructor; [simpl; intuition discriminate|]). constructor.
Qed.

Lemma results_nodup : NoDup results.
Proof.
  unfold results.
  repeat (constructor; [simpl; intuition discriminate|]). constructor.
Qed.

Lemma shot_types_plain : plain_labels shot_types = true.
Proof. vm_compute. reflexivity. Qed.

Lemma results_plain : plain_labels results = true.
Proof. vm_compute. reflexivity. Qed.

(** The first part of C8, for the two label lists of the class and dicts
    whose keys have at most one separator. *)
Lemma build_confusion_matrix_fixed_labels (labels : list string)
      (confusion_dict : list (string * Z)) :
  labels = shot_types \/ labels = results ->
  NoDup (map fst confusion_dict) ->
  forallb key_ok (map fst confusion_dict) = true ->
  exists m,
    _build_confusion_matrix confusion_dict labels = Return (m, labels)
    /\ square (List.length labels) m
    /\ forall i j li lj,
         nth_error labels i = Some li -> nth_error labels j = Some lj ->
         cell m i j = Some (count_of confusion_dict (transition_key li lj)).
Proof.
  intros [->| ->] Hnd Hok.
  - apply build_confusion_matrix_cells; auto using shot_types_nodup, shot_types_plain.
  - apply build_confusion_matrix_cells; auto using results_nodup, results_plain.
Qed.

End FixedLabels.

(** ** The hypotheses of the fallback equivalence are needed *)

Section FallbackHypotheses.
Import DataManager.
Variable instant : string -> Z.

(** An override with a null value: the query falls back to the analysis
    value through COALESCE, the fallback path keeps the null. *)
Lemma fallback_differs_on_null_override :
  let overrides := [{| o_analysis_id := "an-1"; o_field_name := "shot_type";
                       o_override_value := None;
                       o_created_at := "2024-05-02T09:00:00" |}] in
  ~ (forall r,
        In r (fetch_fallback [Examples.clip1] [Examples.analysis1] overrides)
        <-> joined_query_row instant [Examples.clip1] [Examples.analysis1] overrides r).
Proof.
  intros overrides H.
  set (r := combined [] "clip-1" Examples.clip1 Examples.analysis1).
  assert (Hq : joined_query_row instant [Examples.clip1] [Examples.analysis1] overrides r).
  { exists Examples.clip1, Examples.analysis1, None, None.
    repeat split; simpl; auto.
    - right.
      exists {| o_analysis_id := "an-1"; o_field_name := "shot_type";
                o_override_value := None;
                o_created_at := "2024-05-02T09:00:00" |}.
      split; [|reflexivity].
      split; [left; reflexivity|]. split; [reflexivity|].
      intros o' [<-|[]] _. apply Z.le_refl.
    - left. split; auto. intros o [<-|[]]. reflexivity. }
  apply H in Hq. vm_compute in Hq.
  destruct Hq as [E|[]]. discriminate E.
Qed.

(** Two overrides of one field made at the same instant: the query may
    return either, the fallback path keeps the first. *)
Lemma fallback_differs_on_tie :
  let overrides := [Examples.override "an-1" "shot_type" "mid_range"
                                      "2024-05-02T09:00:00";
                    Examples.override "an-1" "shot_type" "in_paint"
                                      "2024-05-02T09:00:00"] in
  ~ (forall r,
        In r (fetch_fallback [Examples.clip1] [Examples.analysis1] overrides)
        <-> joined_query_row instant [Examples.clip1] [Examples.analysis1] overrides r).
Proof.
  intros overrides H.
  set (o2 := Examples.override "an-1" "shot_type" "in_paint" "2024-05-02T09:00:00").
  set (r := combined [("an-1", "shot_type", o2)] "clip-1"
                     Examples.clip1 Examples.analysis1).
  assert (Hq : joined_query_row instant [Examples.clip1] [Examples.analysis1] overrides r).
  { exists Examples.clip1, Examples.analysis1, (Some "in_paint"), None.
    repeat split; simpl; auto.
    - right. exists o2. split; [|reflexivity].
      split; [right; left; reflexivity|]. split; [reflexivity|].
      intros o' [<-|[<-|[]]] _; apply Z.le_refl.
    - left. split; auto. intros o [<-|[<-|[]]]; reflexivity. }
  apply H in Hq. vm_compute in Hq.
  destruct Hq as [E|[]]. discriminate E.
Qed.

End FallbackHypotheses.

(** * Further properties *)

(** ** data_manager.py: downloading the videos *)

Section Downloads.
Import DataManager.
Variable st : Storage.
Variable videos_dir : string.

Lemma dict_contains_set (d : list (string * string)) k v p :
  dict_contains String.eqb d p = true ->
  dict_contains String.eqb (dict_set String.eqb d k v) p = true.
Proof.
  unfold dict_contains. intros H.
  destruct (String.eqb_spec k p) as [->|Hne].
  - now rewrite (dict_get_set_same String.eqb String.eqb_eq).
  - now rewrite (dict_get_set_other String.eqb String.eqb_eq).
Qed.

Lemma download_loop_ids (missing : list (string * string)) : forall files,
  fst (download_loop st videos_dir missing files)
  = map fst (filter (saved st videos_dir) missing).
Proof.
  induction missing as [|item rest IH]; intros files; simpl; auto.
  unfold saved at 1.
  destruct (fetch_video st videos_dir item) as [content|e]; [|apply IH].
  destruct (f_write st (video_path videos_dir (fst item)) content) as [partial|].
  - apply IH.
  - specialize (IH (dict_set String.eqb files
                             (video_path videos_dir (fst item)) content)).
    destruct (download_loop st videos_dir rest _) as [downloaded files'].
    simpl in *. now rewrite IH.
Qed.

(** Files on disk before the loop keep their content, and a path the loop
    does not write is as before. *)
Lemma download_loop_keeps (missing : list (string * string)) : forall files p,
  (forall item, In item missing -> video_path videos_dir (fst item) <> p) ->
  dict_get String.eqb (snd (download_loop st videos_dir missing files)) p
  = dict_get String.eqb files p.
Proof.
  induction missing as [|item rest IH]; intros files p Hp; simpl; auto.
  assert (Hrest : forall item0, In item0 rest ->
                                video_path videos_dir (fst item0) <> p).
  { intros item0 Hin. apply Hp. now right. }
  assert (Hitem : video_path videos_dir (fst item) <> p).
  { apply Hp. now left. }
  destruct (fetch_video st videos_dir item) as [content|e]; [|now apply IH].
  destruct (f_write st (video_path videos_dir (fst item)) content) as [partial|].
  - rewrite IH by auto.
    now apply (dict_get_set_other String.eqb String.eqb_eq).
  - specialize (IH (dict_set String.eqb files
                             (video_path videos_dir (fst item)) content) p Hrest).
    destruct (download_loop st videos_dir rest _) as [downloaded files'].
    simpl in *. rewrite IH.
    now apply (dict_get_set_other String.eqb String.eqb_eq).
Qed.

Lemma download_loop_grows (missing : list (string * string)) : forall files p,
  dict_contains String.eqb files p = true ->
  dict_contains String.eqb (snd (download_loop st videos_dir missing files)) p = true.
Proof.
  induction missing as [|item rest IH]; intros files p Hp; simpl; auto.
  destruct (fetch_video st videos_dir item) as [content|e]; [|now apply IH].
  destruct (f_write st (video_path videos_dir (fst item)) content) as [partial|].
  - apply IH. now apply dict_contains_set.
  - specialize (IH (dict_set String.eqb files
                             (video_path videos_dir (fst item)) content) p).
    destruct (download_loop st videos_dir rest _) as [downloaded files'].
    simpl in *. apply IH. now apply dict_contains_set.
Qed.

(** A file that was opened is on disk after the loop, whether or not its
    write went through. *)
Lemma download_loop_writes (missing : list (string * string)) : forall files item,
  In item missing -> fetched st videos_dir item = true ->
  dict_contains String.eqb (snd (download_loop st videos_dir missing files))
                (video_path videos_dir (fst item)) = true.
Proof.
  induction missing as [|item0 rest IH]; intros files item Hin Hf; [contradiction|].
  simpl. destruct Hin as [->|Hin].
  - unfold fetched in Hf.
    destruct (fetch_video st videos_dir item) as [content|e]; [|discriminate].
    destruct (f_write st (video_path videos_dir (fst item)) content) as [partial|].
    + apply download_loop_grows. unfold dict_contains.
      now rewrite (dict_get_set_same String.eqb String.eqb_eq).
    + pose proof (download_loop_grows rest
                    (dict_set String.eqb files (video_path videos_dir (fst item))
                              content)
                    (video_path videos_dir (fst item))) as G.
      destruct (download_loop st videos_dir rest _) as [downloaded files'].
      simpl in *. apply G. unfold dict_contains.
      now rewrite (dict_get_set_same String.eqb String.eqb_eq).
  - destruct (fetch_video st videos_dir item0) as [content|e]; [|now apply IH].
    destruct (f_write st (video_path videos_dir (fst item0)) content) as [partial|].
    + now apply IH.
    + specialize (IH (dict_set String.eqb files
                               (video_path videos_dir (fst item0)) content)
                     item Hin Hf).
      destruct (download_loop st videos_dir rest _) as [downloaded files'].
      exact IH.
Qed.

Lemma saved_fetched (item : string * string) :
  saved st videos_dir item = true -> fetched st videos_dir item = true.
Proof.
  unfold saved, fetched.
  destruct (fetch_video st videos_dir item); auto.
Qed.

Lemma download_missing_as_loop (files : list (string * string)) (df : list Row) :
  download_missing_videos st videos_dir files df
  = download_loop st videos_dir (missing_videos videos_dir files df) files.
Proof.
  unfold download_missing_videos.
  destruct (missing_videos videos_dir files df); reflexivity.
Qed.

Lemma missing_videos_In (files : list (string * string)) (df : list Row) item :
  In item (missing_videos videos_dir files df)
  <-> exists row, In row df /\ item = (clip_id row, storage_key row)
                  /\ dict_contains String.eqb files
                                   (video_path videos_dir (clip_id row)) = false.
Proof.
  unfold missing_videos. rewrite in_flat_map. split.
  - intros [row [Hrow Hin]].
    destruct (dict_contains String.eqb files (video_path videos_dir (clip_id row)))
      eqn:E; simpl in Hin; [contradiction|].
    destruct Hin as [<-|[]]. exists row. auto.
  - intros [row [Hrow [-> E]]]. exists row. split; auto.
    rewrite E. simpl. now left.
Qed.

(** X1. A clip is in the list [download_missing_videos] returns exactly when
    a row of the data frame has that clip id, its video file did not exist
    when the call began, and its signed URL, its GET, the opening of its
    file and the write of the content all succeeded: a failing download
    leaves its clip out and stops nothing. *)
Theorem download_missing_videos_returns files df cid :
  In cid (fst (download_missing_videos st videos_dir files df))
  <-> exists row, In row df /\ clip_id row = cid
                  /\ dict_contains String.eqb files (video_path videos_dir cid) = false
                  /\ saved st videos_dir (clip_id row, storage_key row) = true.
Proof.
  rewrite download_missing_as_loop, download_loop_ids, in_map_iff. split.
  - intros [item [<- Hin]]. apply filter_In in Hin. destruct Hin as [Hin Hf].
    apply missing_videos_In in Hin. destruct Hin as [row [Hrow [-> E]]].
    exists row. simpl. auto.
  - intros [row [Hrow [<- [E Hf]]]].
    exists (clip_id row, storage_key row). split; auto.
    apply filter_In. split; auto.
    apply missing_videos_In. exists row. auto.
Qed.

(** X2. [download_missing_videos] leaves every file that was on disk as it
    was, and the video file of every clip it returns is on disk
    afterwards. *)
Theorem download_missing_videos_files files df :
  let out := download_missing_videos st videos_dir files df in
  (forall p content, dict_get String.eqb files p = Some content ->
                     dict_get String.eqb (snd out) p = Some content)
  /\ (forall cid, In cid (fst out) ->
                  dict_contains String.eqb (snd out) (video_path videos_dir cid) = true).
Proof.
  cbv zeta. rewrite download_missing_as_loop. split.
  - intros p content Hp. rewrite download_loop_keeps; auto.
    intros item Hin Heq. apply missing_videos_In in Hin.
    destruct Hin as [row [_ [-> E]]]. simpl in Heq. rewrite Heq in E.
    unfold dict_contains in E. rewrite Hp in E. discriminate.
  - intros cid Hin. rewrite download_loop_ids in Hin.
    apply in_map_iff in Hin. destruct Hin as [item [<- Hin]].
    apply filter_In in Hin. destruct Hin as [Hin Hf].
    apply download_loop_writes; auto. now apply saved_fetched.
Qed.

(** X3. When every download of a call succeeds, no video of the data frame
    is missing afterwards, and a second call downloads nothing and leaves
    the files alone. *)
Theorem download_missing_videos_completes files df :
  (forall item, In item (missing_videos videos_dir files df) ->
                fetched st videos_dir item = true) ->
  let files' := snd (download_missing_videos st videos_dir files df) in
  missing_videos videos_dir files' df = []
  /\ download_missing_videos st videos_dir files' df = ([], files').
Proof.
  intros Hall. cbv zeta.
  assert (Hnone : missing_videos videos_dir
                    (snd (download_missing_videos st videos_dir files df)) df = []).
  { rewrite download_missing_as_loop.
    destruct (missing_videos videos_dir
                (snd (download_loop st videos_dir
                        (missing_videos videos_dir files df) files)) df)
      as [|item rest] eqn:E; auto.
    assert (Hin : In item (item :: rest)) by now left.
    rewrite <- E in Hin. apply missing_videos_In in Hin.
    destruct Hin as [row [Hrow [-> Hmiss]]].
    destruct (dict_contains String.eqb files (video_path videos_dir (clip_id row)))
      eqn:Hbefore.
    - rewrite download_loop_grows in Hmiss by exact Hbefore. discriminate.
    - assert (Hm : In (clip_id row, storage_key row)
                      (missing_videos videos_dir files df)).
      { apply missing_videos_In. exists row. auto. }
      pose proof (download_loop_writes _ files _ Hm (Hall _ Hm)) as W.
      simpl in W. rewrite W in Hmiss. discriminate. }
  split; auto.
  unfold download_missing_videos at 1. now rewrite Hnone.
Qed.

End Downloads.

(** ** Quotients of counts *)

Section Quotients.

Lemma Q_of_nat_pos (d : nat) : (0 < d)%nat -> (0 < Q_of_nat d)%Q.
Proof.
  intros H. unfold Q_of_nat. change (0%Q) with (inject_Z 0).
  rewrite <- Zlt_Qlt. lia.
Qed.

Lemma Q_of_nat_le (n d : nat) : (n <= d)%nat -> (Q_of_nat n <= Q_of_nat d)%Q.
Proof.
  intros H. unfold Q_of_nat. rewrite <- Zle_Qle. lia.
Qed.

(** A count over a larger positive count lies between 0 and 1. *)
Lemma quotient_bounds (n d : nat) :
  (n <= d)%nat -> (0 < d)%nat ->
  (0 <= Qdiv (Q_of_nat n) (Q_of_nat d))%Q /\ (Qdiv (Q_of_nat n) (Q_of_nat d) <= 1)%Q.
Proof.
  intros Hle Hpos. pose proof (Q_of_nat_pos d Hpos) as Hd. split.
  - apply Qle_shift_div_l; auto. rewrite Qmult_0_l.
    apply (Q_of_nat_le 0 n). lia.
  - apply Qle_shift_div_r; auto. rewrite Qmult_1_l. now apply Q_of_nat_le.
Qed.

Lemma ratio_bounds (n d : nat) :
  (n <= d)%nat -> (0 <= Evaluator.ratio n d)%Q /\ (Evaluator.ratio n d <= 1)%Q.
Proof.
  intros Hle. unfold Evaluator.ratio.
  destruct (Nat.eqb_spec d 0) as [->|Hd].
  - split; discriminate.
  - apply quotient_bounds; lia.
Qed.

End Quotients.

(** ** data_manager.py: more on the dataset statistics *)

Section MoreDatasetStats.
Import DataManager.

Lemma opt_str_eqb_eq (x y : option string) : opt_str_eqb x y = true <-> x = y.
Proof.
  destruct x as [a|], y as [b|]; simpl; split; intros H; try discriminate; auto.
  - apply String.eqb_eq in H. now subst.
  - inversion H. apply String.eqb_refl.
Qed.

Lemma occurrences_count_up (d : list (option string * nat)) (k k' : option string) :
  occurrences (count_up d k) k'
  = (occurrences d k' + if opt_str_eqb k k' then 1 else 0)%nat.
Proof.
  unfold occurrences, count_up.
  destruct (opt_str_eqb k k') eqn:E.
  - apply opt_str_eqb_eq in E. subst k'.
    rewrite (dict_get_set_same opt_str_eqb opt_str_eqb_eq). reflexivity.
  - rewrite (dict_get_set_other opt_str_eqb opt_str_eqb_eq).
    + lia.
    + intros Heq. apply opt_str_eqb_eq in Heq. congruence.
Qed.

Lemma stats_loop_distributions path_exists (entries : list Entry) : forall st label,
  let st' := fold_left (stats_step path_exists) entries st in
  occurrences (shot_type_distribution st') label
  = (occurrences (shot_type_distribution st) label
     + List.length (filter (fun e => opt_str_eqb (shot_type (ground_truth e)) label)
                           entries))%nat
  /\ occurrences (result_distribution st') label
     = (occurrences (result_distribution st) label
        + List.length (filter (fun e => opt_str_eqb (result (ground_truth e)) label)
                              entries))%nat.
Proof.
  induction entries as [|e rest IH]; intros st label; simpl.
  - split; lia.
  - destruct (IH (stats_step path_exists st e) label) as [H1 H2].
    rewrite H1, H2. simpl. rewrite !occurrences_count_up.
    split.
    + destruct (opt_str_eqb (shot_type (ground_truth e)) label); simpl; lia.
    + destruct (opt_str_eqb (result (ground_truth e)) label); simpl; lia.
Qed.

(** What [get_dataset_stats] returns on a snapshot that has entries. *)
Lemma get_dataset_stats_entries (entries : list Entry) (path_exists : string -> bool) :
  entries <> [] ->
  exists stats,
    get_dataset_stats (Some entries) path_exists = Return (StatsOk stats)
    /\ total_clips stats = List.length entries
    /\ has_user_corrections stats = List.length (filter corrected entries)
    /\ videos_downloaded stats
       = List.length (filter (fun e => path_exists (e_video_path e)) entries)
    /\ correction_rate stats
       = Some (Qdiv (Q_of_nat (has_user_corrections stats))
                    (Q_of_nat (List.length entries)))
    /\ (forall label,
           occurrences (shot_type_distribution stats) label
           = List.length (filter (fun e => opt_str_eqb (shot_type (ground_truth e)) label)
                                 entries)
           /\ occurrences (result_distribution stats) label
              = List.length (filter (fun e => opt_str_eqb (result (ground_truth e)) label)
                                    entries)).
Proof.
  intros Hne. destruct entries as [|e rest]; [congruence|].
  unfold get_dataset_stats, load_ground_truth.
  rewrite !truediv_len. cbn [Py.bind].
  eexists. split; [reflexivity|].
  cbn [total_clips has_user_corrections correction_rate videos_downloaded
       shot_type_distribution result_distribution].
  match goal with
  | |- context [fold_left _ _ ?st0] =>
      destruct (stats_loop_counts path_exists (e :: rest) st0) as (H1 & H2 & _ & H4);
      pose proof (stats_loop_distributions path_exists (e :: rest) st0) as Hd
  end.
  rewrite H1, H2, H4. repeat split; try reflexivity.
  - destruct (Hd label) as [D _]. exact D.
  - destruct (Hd label) as [_ D]. exact D.
Qed.

(** X4. The counts and the rate of [get_dataset_stats] are bounded: the
    corrected entries and the entries with a video on disk are at most the
    entries, and [correction_rate] lies between 0 and 1. *)
Theorem dataset_stats_bounds (entries : list Entry) (path_exists : string -> bool)
        (stats : Stats) :
  get_dataset_stats (Some entries) path_exists = Return (StatsOk stats) ->
  (has_user_corrections stats <= total_clips stats)%nat
  /\ (videos_downloaded stats <= total_clips stats)%nat
  /\ exists rate, correction_rate stats = Some rate /\ (0 <= rate)%Q /\ (rate <= 1)%Q.
Proof.
  intros H.
  destruct entries as [|e rest]; [discriminate H|].
  destruct (get_dataset_stats_entries (e :: rest) path_exists)
    as (s & E & T & C & V & R & _); [discriminate|].
  rewrite E in H. inversion H; subst s.
  rewrite T, C, V. split; [apply filter_length_le|]. split; [apply filter_length_le|].
  eexists. split; [exact R|].
  rewrite C. apply quotient_bounds.
  - apply filter_length_le.
  - simpl. lia.
Qed.

(** X5. In the stats, the count recorded for a label of either distribution
    is the number of entries whose ground truth has that label (null is a
    label of its own); read with a default of 0, a label no entry has
    counts 0. *)
Theorem dataset_stats_distributions (entries : list Entry)
        (path_exists : string -> bool) (stats : Stats) (label : option string) :
  get_dataset_stats (Some entries) path_exists = Return (StatsOk stats) ->
  occurrences (shot_type_distribution stats) label
  = List.length (filter (fun e => opt_str_eqb (shot_type (ground_truth e)) label) entries)
  /\ occurrences (result_distribution stats) label
     = List.length (filter (fun e => opt_str_eqb (result (ground_truth e)) label) entries).
Proof.
  intros H.
  destruct entries as [|e rest]; [discriminate H|].
  destruct (get_dataset_stats_entries (e :: rest) path_exists)
    as (s & E & _ & _ & _ & _ & D); [discriminate|].
  rewrite E in H. inversion H; subst s. apply D.
Qed.

End MoreDatasetStats.

(** ** data_manager.py: a synchronization pass, end to end *)

Section Synchronization.
Import DataManager.

Lemma filter_none {A : Type} (f : A -> bool) (l : list A) :
  (forall x, In x l -> f x = false) -> filter f l = [].
Proof.
  induction l as [|x l IH]; intros H; simpl; auto.
  rewrite (H x (or_introl eq_refl)). apply IH. intros y Hy. apply H. now right.
Qed.

Lemma filter_all {A : Type} (f : A -> bool) (l : list A) :
  (forall x, In x l -> f x = true) -> filter f l = l.
Proof.
  induction l as [|x l IH]; intros H; simpl; auto.
  rewrite (H x (or_introl eq_refl)). f_equal. apply IH. intros y Hy. apply H. now right.
Qed.

(** A field that no override is about resolves to the analysis value. *)
Lemma resolved_without_match overrides aid field original gt :
  (forall o, In o overrides -> o_analysis_id o <> aid) ->
  resolved overrides aid field original gt -> gt = original.
Proof.
  intros Hno [[_ ->]|[o [(Hin & Hm & _) _]]]; auto.
  apply matches_key in Hm. inversion Hm. exfalso. eapply Hno; eauto.
Qed.

(** X6. A synchronization through the fallback in which no override is
    about an analysis of the dataset, and every successful analysis has a
    shot type and a result, saves a snapshot whose statistics count no user
    correction: every ground truth is the analysis value.  (The labels are
    required not to be null because the rows pass through a data frame,
    which may hold a null label as NaN, and NaN differs from itself.) *)
Theorem sync_without_overrides_counts_no_correction
        clips analyses overrides videos_dir path_exists stats :
  (forall a o, In a analyses -> In o overrides -> o_analysis_id o <> a_id a) ->
  (forall a, In a analyses -> a_status a = "success" ->
             a_shot_type a <> None /\ a_result a <> None) ->
  get_dataset_stats
    (Some (save_ground_truth videos_dir (fetch_fallback clips analyses overrides)))
    path_exists = Return (StatsOk stats) ->
  has_user_corrections stats = 0%nat
  /\ exists rate, correction_rate stats = Some rate /\ (rate == 0)%Q.
Proof.
  intros Hno _ H.
  set (entries := save_ground_truth videos_dir
                    (fetch_fallback clips analyses overrides)) in *.
  destruct entries as [|e rest] eqn:He; [discriminate H|].
  destruct (get_dataset_stats_entries (e :: rest) path_exists)
    as (s & E & _ & C & _ & R & _); [discriminate|].
  rewrite E in H. inversion H; subst s.
  assert (Hnone : filter corrected (e :: rest) = []).
  { rewrite <- He. unfold entries, save_ground_truth.
    apply filter_none. intros x Hx. apply in_map_iff in Hx.
    destruct Hx as [row [<- Hrow]].
    unfold fetch_fallback in Hrow. apply fallback_row_inv in Hrow.
    destruct Hrow as (c & a & _ & Ha & _ & _ & _ & ->).
    apply filter_In in Ha. destruct Ha as [Ha _].
    unfold corrected. cbn [ground_truth original_analysis shot_type result
                           oa_shot_type oa_result].
    unfold combined.
    cbn [ground_truth_shot_type ground_truth_result original_shot_type
         original_result].
    rewrite (resolved_without_match overrides (a_id a) "shot_type" (a_shot_type a) _
               (fun o Ho => Hno a o Ha Ho)
               (resolved_overrides_dict (a_id a) "shot_type" overrides (a_shot_type a))).
    rewrite (resolved_without_match overrides (a_id a) "result" (a_result a) _
               (fun o Ho => Hno a o Ha Ho)
               (resolved_overrides_dict (a_id a) "result" overrides (a_result a))).
    rewrite !(proj2 (opt_str_eqb_eq _ _) eq_refl). reflexivity. }
  rewrite C, Hnone. split; [reflexivity|].
  eexists. split; [exact R|].
  rewrite C, Hnone. reflexivity.
Qed.

Variable st : Storage.
Variable videos_dir : string.

(** After a call whose downloads all succeed, the video of every row is on
    disk. *)
Lemma download_leaves_none_missing files df :
  (forall item, In item (missing_videos videos_dir files df) ->
                fetched st videos_dir item = true) ->
  forall row, In row df ->
    dict_contains String.eqb (snd (download_missing_videos st videos_dir files df))
                  (video_path videos_dir (clip_id row)) = true.
Proof.
  intros Hall row Hrow. rewrite download_missing_as_loop.
  destruct (dict_contains String.eqb files (video_path videos_dir (clip_id row)))
    eqn:Hbefore.
  - now apply download_loop_grows.
  - assert (Hm : In (clip_id row, storage_key row)
                    (missing_videos videos_dir files df)).
    { apply missing_videos_In. exists row. auto. }
    exact (download_loop_writes st videos_dir _ files _ Hm (Hall _ Hm)).
Qed.

(** X7. After [download_missing_videos] with every download succeeding, the
    statistics of the snapshot [save_ground_truth] writes for the same data
    frame report a video on disk for every clip. *)
Theorem full_download_gives_every_video files df stats :
  (forall item, In item (missing_videos videos_dir files df) ->
                fetched st videos_dir item = true) ->
  get_dataset_stats
    (Some (save_ground_truth videos_dir df))
    (dict_contains String.eqb (snd (download_missing_videos st videos_dir files df)))
  = Return (StatsOk stats) ->
  videos_downloaded stats = total_clips stats.
Proof.
  intros Hall H.
  destruct (save_ground_truth videos_dir df) as [|e rest] eqn:He; [discriminate H|].
  destruct (get_dataset_stats_entries (e :: rest)
              (dict_contains String.eqb
                 (snd (download_missing_videos st videos_dir files df))))
    as (s & E & T & _ & V & _); [discriminate|].
  rewrite E in H. inversion H; subst s.
  rewrite V, T. f_equal. apply filter_all.
  intros x Hx. rewrite <- He in Hx. unfold save_ground_truth in Hx.
  apply in_map_iff in Hx. destruct Hx as [row [<- Hrow]].
  cbn [e_video_path]. now apply download_leaves_none_missing.
Qed.

End Synchronization.

(** ** evaluator.py: the cost estimate *)

Section CostEstimate.
Import Evaluator.

Lemma model_pricing_nonneg (model_name : string) (pricing : Q * Q) :
  dict_get String.eqb model_pricing model_name = Some pricing ->
  (0 <= fst pricing)%Q /\ (0 <= snd pricing)%Q.
Proof.
  unfold model_pricing. cbn [dict_get]. intros H.
  repeat match type of H with
         | (if ?c then _ else _) = _ =>
             destruct c; [inversion H; subst pricing; split; discriminate|]
         end.
  discriminate H.
Qed.

Lemma per_million_le (a b : Z) :
  (a <= b)%Z ->
  (Qdiv (inject_Z a) (1000000 # 1) <= Qdiv (inject_Z b) (1000000 # 1))%Q.
Proof.
  intros H. unfold Qdiv. apply Qmult_le_compat_r.
  - now rewrite <- Zle_Qle.
  - discriminate.
Qed.

(** X8. The cost estimate never decreases when the video or the output
    grows, whatever the model. *)
Theorem estimate_cost_monotone (model_name : string) (v v' o o' : Z) :
  (v <= v')%Z -> (o <= o')%Z ->
  (_estimate_cost model_name v o <= _estimate_cost model_name v' o')%Q.
Proof.
  intros Hv Ho. unfold _estimate_cost.
  destruct (dict_get String.eqb model_pricing model_name) as [pricing|] eqn:E;
    [|apply Qle_refl].
  destruct (model_pricing_nonneg model_name pricing E) as [Hi Hout].
  apply Qplus_le_compat.
  - apply Qmult_le_compat_r; auto. apply per_million_le.
    apply Z.max_le_compat_l. apply Z.div_le_mono; lia.
  - apply Qmult_le_compat_r; auto. apply per_million_le.
    apply Z.max_le_compat_l. apply Z.div_le_mono; lia.
Qed.

(** X9. Below the two floors of the heuristic the estimate does not depend
    on the sizes: every video under 1 001 000 bytes with an output under
    404 characters costs what an empty video with an empty output costs,
    which for a priced model is 1000 input tokens and 100 output tokens at
    the model's prices per million tokens. *)
Theorem estimate_cost_floor (model_name : string) (v o : Z) :
  (v < 1001000)%Z -> (o < 404)%Z ->
  _estimate_cost model_name v o = _estimate_cost model_name 0 0
  /\ forall pricing,
       dict_get String.eqb model_pricing model_name = Some pricing ->
       (_estimate_cost model_name v o
        == (1000 # 1000000) * fst pricing + (100 # 1000000) * snd pricing)%Q.
Proof.
  intros Hv Ho. unfold _estimate_cost.
  assert (Hin : Z.max 1000 (v / 1000) = 1000%Z).
  { apply Z.max_l. apply Z.lt_succ_r. apply Z.div_lt_upper_bound; lia. }
  assert (Hout : Z.max 100 (o / 4) = 100%Z).
  { apply Z.max_l. apply Z.lt_succ_r. apply Z.div_lt_upper_bound; lia. }
  split.
  - destruct (dict_get String.eqb model_pricing model_name) as [pricing|]; auto.
    rewrite Hin, Hout. reflexivity.
  - intros pricing E. rewrite E, Hin, Hout. reflexivity.
Qed.

End CostEstimate.

(** ** [find], [rfind] and slices *)

Section Finding.
Variable c : ascii.

Let sub : string := String c EmptyString.

Lemma prefix_char (a : ascii) (s : string) :
  String.prefix sub (String a s) = if ascii_dec c a then true else false.
Proof.
  unfold sub. simpl. destruct (ascii_dec c a); auto. destruct s; reflexivity.
Qed.

Local Abbreviation absent := (char_absent c).

Lemma find_from_absent (s : string) : forall i,
  (0 <= i)%Z -> (find_from sub s i = -1)%Z -> absent s.
Proof.
  induction s as [|a s IH]; intros i Hi H; simpl; auto.
  cbn [find_from] in H. rewrite prefix_char in H.
  destruct (ascii_dec c a) as [->|Hne]; [lia|].
  split; auto. apply (IH (i + 1)%Z); auto. lia.
Qed.

Lemma find_from_range (s : string) : forall i,
  (0 <= i)%Z -> (find_from sub s i = -1 \/ i <= find_from sub s i)%Z.
Proof.
  induction s as [|a s IH]; intros i Hi; cbn [find_from].
  - simpl. auto.
  - rewrite prefix_char. destruct (ascii_dec c a); [right; lia|].
    destruct (IH (i + 1)%Z); [lia| auto | right; lia].
Qed.

Lemma contains_absent (s : string) : contains s sub = false -> absent s.
Proof.
  unfold contains, find. intros H. apply Z.leb_gt in H.
  apply (find_from_absent s 0); [lia|].
  destruct (find_from_range s 0) as [E|E]; lia.
Qed.

(** The first occurrence after a part without the character. *)
Lemma find_from_app (pre rest : string) : forall i,
  absent pre ->
  find_from sub (pre ++ String c rest) i = (i + Z.of_nat (String.length pre))%Z.
Proof.
  induction pre as [|a pre IH]; intros i Habs; simpl String.append.
  - cbn [find_from]. rewrite prefix_char.
    destruct (ascii_dec c c); [simpl; lia | congruence].
  - destruct Habs as [Hne Habs]. cbn [find_from]. rewrite prefix_char.
    destruct (ascii_dec c a); [congruence|].
    rewrite IH by auto. simpl String.length. lia.
Qed.

Lemma rfind_from_absent (s : string) : forall i,
  absent s -> rfind_from sub s i = (-1)%Z.
Proof.
  induction s as [|a s IH]; intros i Habs; cbn [rfind_from].
  - reflexivity.
  - destruct Habs as [Hne Habs]. rewrite IH by auto. simpl Z.leb.
    rewrite prefix_char. destruct (ascii_dec c a); [congruence | reflexivity].
Qed.

(** The last occurrence before a part without the character. *)
Lemma rfind_from_app (pre post : string) : forall i,
  (0 <= i)%Z -> absent post ->
  rfind_from sub (pre ++ String c post) i = (i + Z.of_nat (String.length pre))%Z.
Proof.
  induction pre as [|a pre IH]; intros i Hi Habs; simpl String.append.
  - cbn [rfind_from]. rewrite rfind_from_absent by auto. simpl Z.leb.
    rewrite prefix_char. destruct (ascii_dec c c); [simpl; lia | congruence].
  - cbn [rfind_from]. rewrite IH by (auto; lia).
    replace (0 <=? i + 1 + Z.of_nat (String.length pre))%Z with true
      by (symmetry; apply Z.leb_le; lia).
    simpl String.length. lia.
Qed.

End Finding.

Section Slices.

Lemma substring_prefix (b rest : string) :
  String.substring 0 (String.length b) (b ++ rest) = b.
Proof.
  induction b as [|a b IH]; simpl.
  - destruct rest; reflexivity.
  - now rewrite IH.
Qed.

Lemma substring_skip (a s : string) (n : nat) :
  String.substring (String.length a) n (a ++ s) = String.substring 0 n s.
Proof.
  induction a as [|x a IH]; simpl; auto.
Qed.

(** [s[a:b]] with [a] and [b] the bounds of a middle part is that part. *)
Lemma slice_middle (pre body post : string) :
  slice (pre ++ body ++ post)
        (Z.of_nat (String.length pre))
        (Z.of_nat (String.length pre) + Z.of_nat (String.length body))
  = body.
Proof.
  unfold slice.
  replace (Z.of_nat (String.length pre) + Z.of_nat (String.length body)
           - Z.of_nat (String.length pre))%Z
    with (Z.of_nat (String.length body)) by lia.
  rewrite !Nat2Z.id, substring_skip. apply substring_prefix.
Qed.

Lemma length_append (a b : string) :
  String.length (a ++ b) = (String.length a + String.length b)%nat.
Proof. induction a as [|x a IH]; simpl; auto. Qed.

End Slices.

(** ** evaluator.py: more on parsing the model output *)

Section MoreParsing.
Import Evaluator.
Variable json_loads : string -> exc json.

(** X10. When the cleaned text is not JSON and the answer holds a braced
    part between a beginning without opening brace and an end without
    closing brace, [_parse_model_output] returns what [json.loads] reads in
    the braced part, from the first opening to the last closing brace. *)
Theorem parse_extracts_braced_part (pre mid post : string) (v : json) :
  let raw_text := (pre ++ String lbrace (mid ++ String rbrace post))%string in
  contains pre "{" = false ->
  contains post "}" = false ->
  json_loads (cleaned_text raw_text) = Raise JSONDecodeError ->
  json_loads (String lbrace (mid ++ String rbrace EmptyString)) = Return v ->
  _parse_model_output json_loads raw_text = Return v.
Proof.
  intros raw_text Hpre Hpost Hfirst Hsecond.
  apply (contains_absent lbrace) in Hpre. apply (contains_absent rbrace) in Hpost.
  assert (Hfind : find raw_text "{" = Z.of_nat (String.length pre)).
  { unfold find, raw_text. rewrite (find_from_app lbrace) by auto. lia. }
  assert (Hrfind : rfind raw_text "}"
                   = Z.of_nat (String.length (pre ++ String lbrace mid))).
  { unfold rfind, raw_text.
    replace (pre ++ String lbrace (mid ++ String rbrace post))%string
      with ((pre ++ String lbrace mid) ++ String rbrace post)%string
      by (rewrite append_assoc; reflexivity).
    rewrite (rfind_from_app rbrace) by (auto; lia). lia. }
  unfold _parse_model_output. rewrite Hfirst, Hfind, Hrfind.
  rewrite length_append. simpl String.length.
  replace ((0 <=? Z.of_nat (String.length pre))%Z
           && (Z.of_nat (String.length pre)
               <? Z.of_nat (String.length pre + S (String.length mid)) + 1)%Z)
    with true
    by (symmetry; apply andb_true_intro; split;
        [apply Z.leb_le | apply Z.ltb_lt]; lia).
  assert (Hslice : slice raw_text (Z.of_nat (String.length pre))
                         (Z.of_nat (String.length pre + S (String.length mid)) + 1)
                   = String lbrace (mid ++ String rbrace EmptyString)).
  { unfold raw_text.
    replace (String lbrace (mid ++ String rbrace post))
      with (String lbrace (mid ++ String rbrace EmptyString) ++ post)%string
      by (simpl; rewrite append_assoc; reflexivity).
    replace (Z.of_nat (String.length pre + S (String.length mid)) + 1)%Z
      with (Z.of_nat (String.length pre)
            + Z.of_nat (String.length
                          (String lbrace (mid ++ String rbrace EmptyString))))%Z
      by (simpl String.length; rewrite length_append; simpl String.length; lia).
    apply slice_middle. }
  rewrite Hslice, Hsecond. reflexivity.
Qed.

End MoreParsing.

(** ** Lines *)

Section Lines.

Lemma prefix_nl (a : ascii) (s : string) :
  String.prefix nl (String a s) = if ascii_dec newline a then true else false.
Proof. apply (prefix_char newline). Qed.

Lemma split_one_line (s : string) :
  char_absent newline s -> split_from nl 0 s = [s].
Proof.
  induction s as [|a s IH]; intros Habs; cbn [split_from]; auto.
  destruct Habs as [Hne Habs]. rewrite prefix_nl.
  destruct (ascii_dec newline a); [congruence|]. now rewrite IH.
Qed.

(** The first line of a text is split off at its newline. *)
Lemma split_first_line (first rest : string) :
  char_absent newline first ->
  split_from nl 0 (first ++ nl ++ rest) = first :: split_from nl 0 rest.
Proof.
  induction first as [|a first IH]; intros Habs.
  - simpl String.append. cbn [split_from]. rewrite prefix_nl.
    destruct (ascii_dec newline newline); [reflexivity | congruence].
  - destruct Habs as [Hne Habs]. simpl String.append. cbn [split_from].
    rewrite prefix_nl. destruct (ascii_dec newline a); [congruence|].
    simpl String.append in IH. now rewrite IH.
Qed.

(** The last line of a text is the last part of the split. *)
Lemma split_last_line (body last : string) :
  char_absent newline last ->
  split_from nl 0 (body ++ nl ++ last) = split_from nl 0 body ++ [last].
Proof.
  intros Hlast. induction body as [|a body IH].
  - simpl String.append. cbn [split_from]. rewrite prefix_nl.
    destruct (ascii_dec newline newline); [|congruence].
    simpl. now rewrite split_one_line.
  - simpl String.append. simpl String.append in IH. cbn [split_from].
    rewrite !prefix_nl. destruct (ascii_dec newline a).
    + simpl. now rewrite IH.
    + rewrite IH. destruct (split_from nl 0 body) as [|h t] eqn:E.
      * exfalso. eapply split_from_not_nil; eauto.
      * reflexivity.
Qed.

Lemma prefix_app (p s : string) : String.prefix p (p ++ s) = true.
Proof.
  induction p as [|a p IH]; simpl.
  - destruct s; reflexivity.
  - destruct (ascii_dec a a); [exact IH | congruence].
Qed.

End Lines.

Section Fences.
Import Evaluator.

(** X11. On a text made of a fence line with any tag, a body and a closing
    fence line, the text [_parse_model_output] first decodes is the body;
    a body that begins with the letters json loses them and is stripped. *)
Theorem cleaned_text_of_fenced_block (tag body : string) :
  contains tag nl = false ->
  cleaned_text ("```" ++ tag ++ nl ++ body ++ nl ++ "```")
  = if startswith body "json" then strip (drop 4 body) else body.
Proof.
  intros Htag. apply (contains_absent newline) in Htag.
  set (raw := ("```" ++ tag ++ nl ++ body ++ nl ++ "```")%string).
  assert (Hstrip : strip raw = raw).
  { assert (Hraw : raw = ("```" ++ (tag ++ nl ++ body ++ nl) ++ "```")%string).
    { unfold raw. rewrite !append_assoc. reflexivity. }
    rewrite Hraw. apply strip_fenced. }
  assert (Hlines : split raw nl
                   = ("```" ++ tag)%string :: split_from nl 0 body ++ ["```"]).
  { unfold split, raw.
    replace ("```" ++ tag ++ nl ++ body ++ nl ++ "```")%string
      with (("```" ++ tag) ++ nl ++ body ++ nl ++ "```")%string
      by (rewrite !append_assoc; reflexivity).
    rewrite split_first_line.
    - rewrite split_last_line; [reflexivity|]. simpl. repeat split; discriminate.
    - simpl. repeat split; try discriminate. exact Htag. }
  unfold cleaned_text. rewrite Hstrip.
  replace (startswith raw "```") with true
    by (symmetry; unfold startswith, raw; apply prefix_app).
  rewrite Hlines. unfold slice_1_m1. cbn [tl]. rewrite removelast_last.
  replace (2 <? List.length (("```" ++ tag)%string :: split_from nl 0 body ++ ["```"]))%nat
    with true.
  - unfold join. rewrite (split_from_join nl) by (discriminate || lia).
    reflexivity.
  - symmetry. apply Nat.ltb_lt. simpl. rewrite length_app. simpl.
    destruct (split_from nl 0 body) eqn:E; [|simpl; lia].
    exfalso. eapply split_from_not_nil; eauto.
Qed.

End Fences.

(** ** evaluator.py: more on the run metrics *)

Section MoreRunMetrics.
Import DataManager Evaluator.

Lemma count_le {A : Type} (f g : A -> bool) (l : list A) :
  (forall x, f x = true -> g x = true) -> (count f l <= count g l)%nat.
Proof.
  intros H. unfold count. induction l as [|x l IH]; simpl; auto.
  destruct (f x) eqn:E.
  - rewrite (H x E). simpl. lia.
  - destruct (g x); simpl; lia.
Qed.

(** The fields of the metrics, when [_calculate_metrics] returns some. *)
Lemma calculate_metrics_inv (samples : list SampleResult) (m : Metrics) :
  _calculate_metrics samples = Return (Some m) ->
  exists st,
    metrics_loop counters0 samples = Return st
    /\ samples <> []
    /\ total_samples m = List.length samples
    /\ m_valid_predictions m = valid_predictions st
    /\ parse_success_rate m = ratio (valid_predictions st) (List.length samples)
    /\ shot_type_accuracy m = ratio (shot_type_correct st) (valid_predictions st)
    /\ result_accuracy m = ratio (result_correct st) (valid_predictions st)
    /\ both_correct_accuracy m = ratio (both_correct st) (valid_predictions st)
    /\ shot_type_confusion_matrix m = shot_type_confusion st
    /\ result_confusion_matrix m = result_confusion st.
Proof.
  intros H. destruct samples as [|res rest]; [discriminate H|].
  unfold _calculate_metrics in H.
  destruct (metrics_loop counters0 (res :: rest)) as [st|] eqn:E; [|discriminate].
  cbn [Py.bind] in H. exists st. split; [reflexivity|]. split; [discriminate|].
  destruct (confidence_scores st) as [|v scores].
  - cbn [Py.bind] in H. inversion H; subst m. cbn. repeat split; reflexivity.
  - destruct (sum_scores (0 # 1)%Q (v :: scores)) as [total|]; [|discriminate].
    cbn [Py.bind] in H.
    destruct (truediv total (Q_of_nat (List.length (v :: scores)))) as [avg|];
      [|discriminate].
    cbn [Py.bind] in H. inversion H; subst m. cbn. repeat split; reflexivity.
Qed.

(** X12. Whenever [_calculate_metrics] returns metrics, the valid
    predictions are at most the samples, and the parse success rate and the
    three accuracies lie between 0 and 1. *)
Theorem metrics_rates_bounded (samples : list SampleResult) (m : Metrics) :
  _calculate_metrics samples = Return (Some m) ->
  (m_valid_predictions m <= total_samples m)%nat
  /\ (0 <= parse_success_rate m <= 1)%Q
  /\ (0 <= shot_type_accuracy m <= 1)%Q
  /\ (0 <= result_accuracy m <= 1)%Q
  /\ (0 <= both_correct_accuracy m <= 1)%Q.
Proof.
  intros H. apply calculate_metrics_inv in H.
  destruct H as (st & E & _ & T & V & P & S & R & B & _).
  destruct (metrics_loop_counts samples counters0 st E) as (Vc & Sc & Rc & Bc).
  simpl in Vc, Sc, Rc, Bc.
  assert (Hv : (valid_predictions st <= List.length samples)%nat).
  { rewrite Vc. apply filter_length_le. }
  rewrite T, V, P, S, R, B. split; auto.
  split; [apply ratio_bounds; auto|].
  split; [apply ratio_bounds; rewrite Sc, Vc; apply count_le|].
  2: split; [apply ratio_bounds; rewrite Rc, Vc; apply count_le|
             apply ratio_bounds; rewrite Bc, Vc; apply count_le].
  - intros x Hx. unfold shot_type_hit in Hx.
    apply andb_prop in Hx. destruct Hx as [Hx _].
    apply andb_prop in Hx. tauto.
  - intros x Hx. unfold result_hit in Hx.
    apply andb_prop in Hx. destruct Hx as [Hx _].
    apply andb_prop in Hx. tauto.
  - intros x Hx. unfold both_hit in Hx. apply andb_prop in Hx. tauto.
Qed.

End MoreRunMetrics.

(** ** evaluator.py: the confusion dicts *)

Section ConfusionDicts.
Import DataManager Evaluator.

Lemma tally_bump (d : list (string * nat)) (k k' : string) :
  tally (bump d k) k' = (tally d k' + b2n (k =? k')%string)%nat.
Proof.
  unfold tally, bump. destruct (String.eqb_spec k k') as [->|Hne]; simpl.
  - rewrite (dict_get_set_same String.eqb String.eqb_eq). reflexivity.
  - rewrite (dict_get_set_other String.eqb String.eqb_eq) by auto. lia.
Qed.

Lemma dict_set_keys {V : Type} (d : list (string * V)) (k : string) (v : V) :
  NoDup (map fst d) -> NoDup (map fst (dict_set String.eqb d k v)).
Proof.
  induction d as [|[k0 v0] d IH]; simpl; intros Hnd.
  - constructor; [intros []|constructor].
  - inversion Hnd as [|? ? Hnotin Hnd']; subst.
    destruct (String.eqb_spec k0 k) as [->|Hne]; simpl.
    + constructor; auto.
    + constructor; auto. intros Hin. apply in_map_iff in Hin.
      destruct Hin as [[k1 v1] [Hk Hin]]. simpl in Hk. subst k1.
      apply (dict_set_In String.eqb String.eqb_eq) in Hin.
      destruct Hin as [[Hk _]|Hin]; [congruence|].
      apply Hnotin. apply in_map_iff. exists (k0, v1). auto.
Qed.

Lemma bump_keys (d : list (string * nat)) (k : string) :
  NoDup (map fst d) -> NoDup (map fst (bump d k)).
Proof. apply dict_set_keys. Qed.

(** What a turn that does not raise adds to the two confusion dicts. *)
Lemma metrics_step_confusion (st st' : Counters) (res : SampleResult) :
  metrics_step st res = Return st' ->
  (forall key,
      tally (shot_type_confusion st') key
      = (tally (shot_type_confusion st) key
         + b2n (shot_type_pair res && (shot_type_key res =? key)%string))%nat
      /\ tally (result_confusion st') key
         = (tally (result_confusion st) key
            + b2n (result_pair res && (result_key res =? key)%string))%nat)
  /\ (NoDup (map fst (shot_type_confusion st)) ->
      NoDup (map fst (shot_type_confusion st')))
  /\ (NoDup (map fst (result_confusion st)) ->
      NoDup (map fst (result_confusion st'))).
Proof.
  unfold metrics_step, shot_type_pair, result_pair, shot_type_key, result_key,
    valid_sample, error_truthy, pred_shot_type, pred_result.
  destruct (prediction res) as [| | | | |d]; try discriminate.
  cbn [Json.get Py.bind].
  destruct (truthy (lookup d "error")).
  - intros H. inversion H; subst st'. cbn [negb andb b2n].
    split; [intros key; split; lia | auto].
  - destruct (_normalize_shot_type (lookup d "range")) as [ps|]; [|discriminate].
    destruct (_normalize_result (lookup d "make_miss")) as [pr|]; [|discriminate].
    cbn [Py.bind]. intros H. inversion H; subst st'.
    cbn [shot_type_confusion result_confusion negb andb value_of].
    split; [intros key; split|split].
    + destruct (truthy_str (shot_type (sr_ground_truth res)) && truthy_str ps);
        cbn [andb b2n]; [apply tally_bump | lia].
    + destruct (truthy_str (result (sr_ground_truth res)) && truthy_str pr);
        cbn [andb b2n]; [apply tally_bump | lia].
    + destruct (truthy_str (shot_type (sr_ground_truth res)) && truthy_str ps);
        auto using bump_keys.
    + destruct (truthy_str (result (sr_ground_truth res)) && truthy_str pr);
        auto using bump_keys.
Qed.

Lemma metrics_loop_confusion (samples : list SampleResult) : forall st st',
  metrics_loop st samples = Return st' ->
  (forall key,
      tally (shot_type_confusion st') key
      = (tally (shot_type_confusion st) key
         + count (fun res => shot_type_pair res && (shot_type_key res =? key)%string)
                 samples)%nat
      /\ tally (result_confusion st') key
         = (tally (result_confusion st) key
            + count (fun res => result_pair res && (result_key res =? key)%string)
                    samples)%nat)
  /\ (NoDup (map fst (shot_type_confusion st)) ->
      NoDup (map fst (shot_type_confusion st')))
  /\ (NoDup (map fst (result_confusion st)) ->
      NoDup (map fst (result_confusion st'))).
Proof.
  induction samples as [|res rest IH]; intros st st' H; simpl in H.
  - inversion H; subst st'. unfold count. simpl.
    split; [intros key; split; lia | auto].
  - destruct (metrics_step st res) as [st1|] eqn:E1; [|discriminate].
    cbn [Py.bind] in H.
    destruct (metrics_step_confusion st st1 res E1) as (T1 & N1 & M1).
    destruct (IH st1 st' H) as (T2 & N2 & M2).
    split; [|split; auto].
    intros key. destruct (T1 key) as [A1 B1]. destruct (T2 key) as [A2 B2].
    rewrite A2, B2, A1, B1.
    rewrite (count_cons (fun res => shot_type_pair res && (shot_type_key res =? key)%string)).
    rewrite (count_cons (fun res => result_pair res && (result_key res =? key)%string)).
    split; lia.
Qed.

(** X13. In the metrics of a run, the count a confusion dict holds under a
    key is the number of counted samples with both labels true whose key
    "ground truth -> prediction" is that key, and 0 for a key it does not
    hold. *)
Theorem confusion_dict_tallies (samples : list SampleResult) (m : Metrics)
        (key : string) :
  _calculate_metrics samples = Return (Some m) ->
  tally (shot_type_confusion_matrix m) key
  = count (fun res => shot_type_pair res && (shot_type_key res =? key)%string) samples
  /\ tally (result_confusion_matrix m) key
     = count (fun res => result_pair res && (result_key res =? key)%string) samples.
Proof.
  intros H. apply calculate_metrics_inv in H.
  destruct H as (st & E & _ & _ & _ & _ & _ & _ & _ & S & R).
  destruct (metrics_loop_confusion samples counters0 st E) as (T & _).
  rewrite S, R. destruct (T key) as [A B]. rewrite A, B. split; reflexivity.
Qed.

Lemma as_read_keys (d : list (string * nat)) :
  map fst (Metrics.as_read d) = map fst d.
Proof. unfold Metrics.as_read. rewrite map_map. reflexivity. Qed.

Lemma count_of_as_read (d : list (string * nat)) (key : string) :
  Metrics.count_of (Metrics.as_read d) key = Z.of_nat (tally d key).
Proof.
  unfold Metrics.count_of, tally, Metrics.as_read.
  induction d as [|[k n] d IH]; simpl; auto.
  destruct (k =? key); auto.
Qed.

(** X14. The shot-type heat map of a run: when no key of the shot-type
    confusion dict has more than one separator, [_build_confusion_matrix]
    on the dict read back and the five shot types returns a 5 by 5 matrix
    whose cell (i, j) is the number of counted samples tallied under the key
    of the i-th and j-th shot types. *)
Theorem shot_type_heatmap_counts_samples (samples : list SampleResult) (m : Metrics) :
  _calculate_metrics samples = Return (Some m) ->
  forallb Metrics.key_ok (map fst (shot_type_confusion_matrix m)) = true ->
  exists matrix,
    Metrics._build_confusion_matrix (Metrics.as_read (shot_type_confusion_matrix m))
                                    Metrics.shot_types
    = Return (matrix, Metrics.shot_types)
    /\ Metrics.square 5 matrix
    /\ forall i j li lj,
         nth_error Metrics.shot_types i = Some li ->
         nth_error Metrics.shot_types j = Some lj ->
         Metrics.cell matrix i j
         = Some (Z.of_nat
                   (count (fun res =>
                             shot_type_pair res
                             && (shot_type_key res =? Metrics.transition_key li lj))
                          samples)).
Proof.
  intros H Hok. apply calculate_metrics_inv in H.
  destruct H as (st & E & _ & _ & _ & _ & _ & _ & _ & S & _).
  destruct (metrics_loop_confusion samples counters0 st E) as (T & N & _).
  rewrite S in *.
  destruct (build_confusion_matrix_cells Metrics.shot_types shot_types_nodup
              shot_types_plain (Metrics.as_read (shot_type_confusion st)))
    as (matrix & B & Q & C).
  - rewrite as_read_keys. apply N. constructor.
  - now rewrite as_read_keys.
  - exists matrix. split; auto. split; [exact Q|]. intros i j li lj Hi Hj.
    rewrite (C i j li lj Hi Hj), count_of_as_read.
    destruct (T (Metrics.transition_key li lj)) as [A _]. now rewrite A.
Qed.

(** X15. The make/miss heat map of a run, in the same way, over the two
    result labels and the result confusion dict. *)
Theorem result_heatmap_counts_samples (samples : list SampleResult) (m : Metrics) :
  _calculate_metrics samples = Return (Some m) ->
  forallb Metrics.key_ok (map fst (result_confusion_matrix m)) = true ->
  exists matrix,
    Metrics._build_confusion_matrix (Metrics.as_read (result_confusion_matrix m))
                                    Metrics.results
    = Return (matrix, Metrics.results)
    /\ forall i j li lj,
         nth_error Metrics.results i = Some li ->
         nth_error Metrics.results j = Some lj ->
         Metrics.cell matrix i j
         = Some (Z.of_nat
                   (count (fun res =>
                             result_pair res
                             && (result_key res =? Metrics.transition_key li lj))
                          samples)).
Proof.
  intros H Hok. apply calculate_metrics_inv in H.
  destruct H as (st & E & _ & _ & _ & _ & _ & _ & _ & _ & R).
  destruct (metrics_loop_confusion samples counters0 st E) as (T & _ & N).
  rewrite R in *.
  destruct (build_confusion_matrix_cells Metrics.results results_nodup
              results_plain (Metrics.as_read (result_confusion st)))
    as (matrix & B & _ & C).
  - rewrite as_read_keys. apply N. constructor.
  - now rewrite as_read_keys.
  - exists matrix. split; auto. intros i j li lj Hi Hj.
    rewrite (C i j li lj Hi Hj), count_of_as_read.
    destruct (T (Metrics.transition_key li lj)) as [_ A]. now rewrite A.
Qed.

End ConfusionDicts.

(** ** evaluator.py: more on a run *)

Section MoreRuns.
Import DataManager Evaluator.
Variable json_loads : string -> exc json.

Lemma parse_output_of_failure (raw_text : string) :
  parse_attempts_fail json_loads raw_text = true ->
  _parse_model_output json_loads raw_text = Return (parse_failure raw_text).
Proof.
  unfold parse_attempts_fail, _parse_model_output. intros H.
  destruct (json_loads (cleaned_text raw_text)) as [v|[]]; try discriminate.
  destruct ((0 <=? find raw_text "{")%Z
            && (find raw_text "{" <? rfind raw_text "}" + 1)%Z); auto.
  destruct (json_loads (slice raw_text (find raw_text "{")
                              (rfind raw_text "}" + 1)%Z)) as [v|[]];
    try discriminate.
  reflexivity.
Qed.

(** A sample whose prediction is the sentinel passes the loop untouched. *)
Lemma metrics_step_sentinel (st : Counters) (res : SampleResult) (raw_text : string) :
  prediction res = parse_failure raw_text -> metrics_step st res = Return st.
Proof.
  intros H. unfold metrics_step. rewrite H. reflexivity.
Qed.

(** X16. A run in which no answer could be parsed still has metrics: no
    valid prediction, the three accuracies and the average confidence 0,
    and empty confusion dicts; nothing is divided by 0. *)
Theorem metrics_of_unparsed_run (samples : list SampleResult) :
  samples <> [] ->
  (forall res, In res samples ->
               exists raw_text,
                 parse_attempts_fail json_loads raw_text = true
                 /\ _parse_model_output json_loads raw_text
                    = Return (prediction res)) ->
  exists m,
    _calculate_metrics samples = Return (Some m)
    /\ total_samples m = List.length samples
    /\ m_valid_predictions m = 0%nat
    /\ shot_type_accuracy m = (0 # 1)%Q
    /\ result_accuracy m = (0 # 1)%Q
    /\ both_correct_accuracy m = (0 # 1)%Q
    /\ average_confidence m = (0 # 1)%Q
    /\ shot_type_confusion_matrix m = []
    /\ result_confusion_matrix m = [].
Proof.
  intros Hne Hall.
  assert (Hloop : forall st, metrics_loop st samples = Return st).
  { clear Hne. induction samples as [|res rest IH]; intros st; simpl; auto.
    destruct (Hall res (or_introl eq_refl)) as [raw [Hf Hp]].
    rewrite (parse_output_of_failure raw Hf) in Hp. inversion Hp as [Hp'].
    rewrite (metrics_step_sentinel st res raw) by (symmetry; exact Hp').
    cbn [Py.bind]. apply IH. intros r Hr. apply Hall. now right. }
  destruct samples as [|res rest]; [congruence|].
  unfold _calculate_metrics. rewrite Hloop. cbn.
  eexists. split; [reflexivity|]. repeat split; reflexivity.
Qed.

Variable w : World.

Lemma calculate_metrics_some (res : SampleResult) (rest : list SampleResult)
      (ms : option Metrics) :
  _calculate_metrics (res :: rest) = Return ms -> exists m, ms = Some m.
Proof.
  unfold _calculate_metrics.
  destruct (metrics_loop counters0 (res :: rest)) as [st|]; [|discriminate].
  cbn [Py.bind].
  destruct (confidence_scores st) as [|v scores].
  - cbn [Py.bind]. intros H. inversion H. eauto.
  - destruct (sum_scores (0 # 1)%Q (v :: scores)) as [total|]; [|discriminate].
    cbn [Py.bind].
    destruct (truediv total (Q_of_nat (List.length (v :: scores)))) as [avg|];
      [|discriminate].
    cbn [Py.bind]. intros H. inversion H. eauto.
Qed.

(** The fields of the report, when [evaluate_model] returns one. *)
Lemma evaluate_model_inv model_name prompt data fps media_resolution max_samples
      report :
  evaluate_model json_loads w model_name prompt data fps media_resolution max_samples
  = Return report ->
  let data' := match max_samples with
               | Some n => if (n =? 0)%Z then data else take data n
               | None => data
               end in
  let kept := evaluate_loop json_loads w model_name prompt fps media_resolution data' in
  results report = kept
  /\ kept <> []
  /\ r_total_samples report = List.length kept
  /\ total_cost_usd report = sum_Q (map cost_usd kept)
  /\ average_inference_time_s report
     = Qdiv (sum_Q (map inference_time_s kept)) (Q_of_nat (List.length kept))
  /\ r_model_name report = model_name
  /\ exists m, metrics report = Some m /\ _calculate_metrics kept = Return (Some m).
Proof.
  cbv zeta. unfold evaluate_model.
  set (data' := match max_samples with
                | Some n => if (n =? 0)%Z then data else take data n
                | None => data
                end).
  set (kept := evaluate_loop json_loads w model_name prompt fps media_resolution data').
  intros H.
  destruct (_calculate_metrics kept) as [ms|] eqn:Em; [|discriminate].
  cbn [Py.bind] in H.
  destruct (save_results w); [|discriminate]. cbn [Py.bind] in H.
  destruct kept as [|res rest] eqn:Ek; [discriminate H|].
  rewrite truediv_len in H. cbn [Py.bind] in H.
  inversion H; subst report. cbn.
  repeat split; try reflexivity; try discriminate.
  destruct (calculate_metrics_some res rest ms Em) as [m ->]. exists m. auto.
Qed.

Lemma evaluate_loop_length model_name prompt fps media_resolution data :
  (List.length (evaluate_loop json_loads w model_name prompt fps media_resolution data)
   <= List.length data)%nat.
Proof.
  induction data as [|e rest IH]; simpl; auto.
  destruct (evaluate_entry json_loads w model_name prompt fps media_resolution e);
    simpl; lia.
Qed.

Lemma evaluate_entry_fields model_name prompt fps media_resolution e res :
  evaluate_entry json_loads w model_name prompt fps media_resolution e = Some res ->
  sr_clip_id res = e_clip_id e
  /\ sr_ground_truth res = ground_truth e
  /\ sr_model_name res = model_name
  /\ sr_fps res = fps
  /\ sr_media_resolution res = media_resolution
  /\ inference_time_s res = elapsed w (e_video_path e).
Proof.
  unfold evaluate_entry.
  destruct (negb (path_exists w (e_video_path e))); [discriminate|].
  destruct (_run_inference json_loads w model_name prompt (e_video_path e) fps
                           media_resolution) as [[p c]|]; [|discriminate].
  intros H. inversion H; subst res. cbn. repeat split; reflexivity.
Qed.

(** The results of the loop are the kept entries, in the order of the data. *)
Lemma evaluate_loop_kept model_name prompt fps media_resolution data :
  let kept := evaluate_loop json_loads w model_name prompt fps media_resolution data in
  map sr_clip_id kept
  = map e_clip_id
        (filter (evaluated json_loads w model_name prompt fps media_resolution) data)
  /\ Forall (fun res => sr_model_name res = model_name /\ sr_fps res = fps
                        /\ sr_media_resolution res = media_resolution) kept.
Proof.
  cbv zeta. induction data as [|e rest IH]; simpl; [split; constructor|].
  unfold evaluated at 1.
  destruct (evaluate_entry json_loads w model_name prompt fps media_resolution e)
    as [res|] eqn:E; [|exact IH].
  destruct IH as [IH1 IH2].
  destruct (evaluate_entry_fields _ _ _ _ _ _ E) as (C & _ & M & F & R & _).
  simpl. split; [now rewrite C, IH1 | constructor; auto].
Qed.

(** X17. A run that returns a report has at least one result and some
    metrics; its results are those of the entries the loop kept, in the
    order of the dataset, each with the model, frame rate and resolution of
    the run; and its totals are the number of results, the sum of their
    costs and the mean of their times. *)
Theorem evaluate_model_report model_name prompt data fps media_resolution report :
  evaluate_model json_loads w model_name prompt data fps media_resolution None
  = Return report ->
  results report <> []
  /\ map sr_clip_id (results report)
     = map e_clip_id
           (filter (evaluated json_loads w model_name prompt fps media_resolution) data)
  /\ Forall (fun res => sr_model_name res = model_name /\ sr_fps res = fps
                        /\ sr_media_resolution res = media_resolution)
            (results report)
  /\ r_total_samples report = List.length (results report)
  /\ total_cost_usd report = sum_Q (map cost_usd (results report))
  /\ average_inference_time_s report
     = Qdiv (sum_Q (map inference_time_s (results report)))
            (Q_of_nat (List.length (results report)))
  /\ exists m, metrics report = Some m
               /\ total_samples m = List.length (results report).
Proof.
  intros H. apply evaluate_model_inv in H. cbv zeta in H.
  destruct H as (R & Hne & T & C & A & _ & m & Hm & Em).
  destruct (evaluate_loop_kept model_name prompt fps media_resolution data)
    as [K1 K2].
  rewrite R. repeat split; auto.
  exists m. split; auto.
  apply calculate_metrics_inv in Em.
  destruct Em as (st & _ & _ & Tm & _). exact Tm.
Qed.

(** X18. The limit of a run: with a positive [max_samples] a report has at
    most that many results, all from the first [max_samples] entries; with
    [max_samples] 0 the run is the run without limit. *)
Theorem evaluate_model_max_samples model_name prompt data fps media_resolution :
  (forall n report,
      (0 < n)%Z ->
      evaluate_model json_loads w model_name prompt data fps media_resolution (Some n)
      = Return report ->
      (List.length (results report) <= Z.to_nat n)%nat
      /\ results report
         = evaluate_loop json_loads w model_name prompt fps media_resolution
                         (firstn (Z.to_nat n) data))
  /\ evaluate_model json_loads w model_name prompt data fps media_resolution (Some 0%Z)
     = evaluate_model json_loads w model_name prompt data fps media_resolution None.
Proof.
  split; [|reflexivity].
  intros n report Hn H. apply evaluate_model_inv in H. cbv zeta in H.
  destruct H as (R & _).
  replace (n =? 0)%Z with false in R by (symmetry; apply Z.eqb_neq; lia).
  unfold take in R.
  replace (0 <=? n)%Z with true in R by (symmetry; apply Z.leb_le; lia).
  split; auto. rewrite R.
  eapply Nat.le_trans; [apply evaluate_loop_length|].
  apply firstn_le_length.
Qed.

(** X19. A response without candidate is an empty answer: when the decoder
    rejects the empty text, the entry is recorded with the sentinel as
    prediction and an empty [raw_output], it is not a valid prediction, and
    its cost is that of an empty output. *)
Theorem empty_response_is_recorded model_name prompt fps media_resolution entry
        video_bytes :
  json_loads EmptyString = Raise JSONDecodeError ->
  path_exists w (e_video_path entry) = true ->
  read_file w (e_video_path entry) = Return video_bytes ->
  generate_content w model_name video_bytes prompt fps
                   (resolve_resolution media_resolution) = Return None ->
  exists res,
    evaluate_entry json_loads w model_name prompt fps media_resolution entry = Some res
    /\ prediction res = parse_failure EmptyString
    /\ valid_sample res = false
    /\ cost_usd res
       = _estimate_cost model_name (Z.of_nat (String.length video_bytes)) 0.
Proof.
  intros Hj Hp Hr Hg.
  unfold evaluate_entry, _run_inference. rewrite Hp, Hr. cbn [negb Py.bind].
  rewrite Hg. cbn [Py.bind].
  assert (Hparse : _parse_model_output json_loads EmptyString
                   = Return (parse_failure EmptyString)).
  { apply parse_output_of_failure. unfold parse_attempts_fail.
    change (cleaned_text EmptyString) with EmptyString. rewrite Hj. reflexivity. }
  rewrite Hparse. cbn [Py.bind]. eexists. split; [reflexivity|].
  repeat split; reflexivity.
Qed.

End MoreRuns.

(** ** metrics.py: the error table *)

Section ErrorTable.
Import DataManager Evaluator.

Lemma error_row_ok (res : SampleResult) :
  Metrics.analysable res = true ->
  exists row, Metrics.error_row res = Return row.
Proof.
  unfold Metrics.analysable, Metrics.error_row.
  destruct (prediction res) as [| | | | |d]; try discriminate.
  intros H. apply andb_prop in H. destruct H as [Hr Hm].
  cbn [Json.get Py.bind].
  change Metrics._normalize_shot_type with _normalize_shot_type.
  change Metrics._normalize_result with _normalize_result.
  rewrite (normalize_shot_type_label _ Hr), (normalize_result_label _ Hm).
  cbn [Py.bind].
  match goal with |- context [if ?c then _ else _] => destruct c end; eauto.
Qed.

(** A row is appended exactly for a sample that is not right on both
    counts, with the clip of the sample and at least one error flag. *)
Lemma error_row_inv (res : SampleResult) (row : option Metrics.ErrorRow) :
  Metrics.error_row res = Return row ->
  match row with
  | Some r =>
      Metrics.matching res = false
      /\ Metrics.er_clip_id r = sr_clip_id res
      /\ Metrics.shot_type_error r || Metrics.result_error r = true
      /\ Metrics.has_parse_error r = has_key (prediction res) "error"
  | None => Metrics.matching res = true
  end.
Proof.
  unfold Metrics.error_row, Metrics.matching, pred_shot_type, pred_result.
  destruct (prediction res) as [| | | | |d]; try discriminate.
  cbn [Json.get Py.bind].
  change Metrics._normalize_shot_type with _normalize_shot_type.
  change Metrics._normalize_result with _normalize_result.
  destruct (_normalize_shot_type (lookup d "range")) as [ps|]; [|discriminate].
  destruct (_normalize_result (lookup d "make_miss")) as [pr|]; [|discriminate].
  cbn [Py.bind value_of].
  destruct (opt_str_eqb (shot_type (sr_ground_truth res)) ps) eqn:E1;
    destruct (opt_str_eqb (result (sr_ground_truth res)) pr) eqn:E2;
    cbn [andb negb]; intros H; inversion H; subst row; cbn; auto.
Qed.

Lemma error_table_returns (samples : list SampleResult) :
  forallb Metrics.analysable samples = true ->
  exists rows, Metrics.generate_error_analysis samples = Return rows.
Proof.
  induction samples as [|res rest IH]; simpl; intros H; [eauto|].
  apply andb_prop in H. destruct H as [Hres Hrest].
  destruct (error_row_ok res Hres) as [row Hrow].
  destruct (IH Hrest) as [rows Hrows].
  rewrite Hrow, Hrows. cbn [Py.bind]. eauto.
Qed.

Lemma error_table_rows (samples : list SampleResult) : forall rows,
  Metrics.generate_error_analysis samples = Return rows ->
  map Metrics.er_clip_id rows
  = map sr_clip_id (filter (fun res => negb (Metrics.matching res)) samples)
  /\ Forall (fun r => Metrics.shot_type_error r || Metrics.result_error r = true) rows.
Proof.
  induction samples as [|res rest IH]; simpl; intros rows H.
  - inversion H. split; constructor.
  - destruct (Metrics.error_row res) as [row|] eqn:Hrow; [|discriminate].
    cbn [Py.bind] in H.
    destruct (Metrics.generate_error_analysis rest) as [rows'|]; [|discriminate].
    cbn [Py.bind] in H. inversion H; subst rows.
    destruct (IH rows' eq_refl) as [IH1 IH2].
    apply error_row_inv in Hrow. destruct row as [r|].
    + destruct Hrow as (Hm & Hc & Hf & _). rewrite Hm. simpl.
      split; [now rewrite Hc, IH1 | constructor; auto].
    + rewrite Hrow. simpl. auto.
Qed.

Lemma error_table_rows_length (samples : list SampleResult) rows :
  Metrics.generate_error_analysis samples = Return rows ->
  List.length rows
  = List.length (filter (fun res => negb (Metrics.matching res)) samples).
Proof.
  intros H. apply error_table_rows in H. destruct H as [H _].
  apply (f_equal (@List.length string)) in H. now rewrite !length_map in H.
Qed.

(** X20. [generate_error_analysis] returns on samples whose predictions
    are dicts with string or false labels; whenever it returns, its rows
    are, in order, those of the samples whose normalized shot type or
    result differs from the ground truth, each with an error flag set. *)
Theorem error_table_lists_mismatches (samples : list SampleResult) :
  (forallb Metrics.analysable samples = true ->
   exists rows, Metrics.generate_error_analysis samples = Return rows)
  /\ (forall rows,
         Metrics.generate_error_analysis samples = Return rows ->
         map Metrics.er_clip_id rows
         = map sr_clip_id (filter (fun res => negb (Metrics.matching res)) samples)
         /\ Forall (fun r => Metrics.shot_type_error r || Metrics.result_error r = true)
                   rows).
Proof.
  split; [apply error_table_returns | apply error_table_rows].
Qed.

(** X21. For a run all of whose predictions are counted, the accuracy on
    both labels is the share of the samples that the error table leaves
    out. *)
Theorem both_correct_is_outside_the_error_table (samples : list SampleResult)
        (m : Metrics) (rows : list Metrics.ErrorRow) :
  (forall res, In res samples -> error_truthy res = false) ->
  _calculate_metrics samples = Return (Some m) ->
  Metrics.generate_error_analysis samples = Return rows ->
  m_valid_predictions m = List.length samples
  /\ both_correct_accuracy m
     = ratio (List.length samples - List.length rows) (List.length samples).
Proof.
  intros Hvalid Hm Hrows.
  apply calculate_metrics_inv in Hm.
  destruct Hm as (st & E & _ & _ & V & _ & _ & _ & B & _).
  destruct (metrics_loop_counts samples counters0 st E) as (Vc & _ & _ & Bc).
  simpl in Vc, Bc.
  assert (Hall : count valid_sample samples = List.length samples).
  { unfold count. rewrite filter_all; auto.
    intros x Hx. unfold valid_sample. now rewrite (Hvalid x Hx). }
  assert (Hboth : count both_hit samples
                  = (List.length samples - List.length rows)%nat).
  { rewrite (error_table_rows_length samples rows Hrows). unfold count.
    pose proof (filter_length Metrics.matching samples) as F.
    assert (Heq : filter both_hit samples = filter Metrics.matching samples).
    { apply filter_ext_in. intros x Hx. unfold both_hit, valid_sample.
      rewrite (Hvalid x Hx). reflexivity. }
    rewrite Heq. lia. }
  rewrite V, B, Vc, Bc, Hall, Hboth. split; reflexivity.
Qed.

End ErrorTable.

(** ** metrics.py: the comparison table *)

Section ComparisonTable.
Import DataManager Evaluator.

(** X22. The comparison table has one row per evaluation, in the order of
    the models and of their evaluations, and the model of a row is the name
    of the directory the evaluation was loaded from. *)
Theorem comparison_rows_per_evaluation
        (all_results : list (string * list RunArtifact)) :
  map Metrics.cr_model_name (Metrics.create_comparison_dataframe all_results)
  = flat_map (fun item => repeat (fst item) (List.length (snd item))) all_results
  /\ map Metrics.cr_evaluation_timestamp
         (Metrics.create_comparison_dataframe all_results)
     = flat_map (fun item => map evaluation_timestamp (snd item)) all_results.
Proof.
  unfold Metrics.create_comparison_dataframe.
  induction all_results as [|[name evals] rest [IH1 IH2]]; simpl; [split; reflexivity|].
  rewrite !map_app, IH1, IH2. split; f_equal.
  - clear. induction evals as [|a evals IH]; simpl; auto. now rewrite IH.
  - clear. induction evals as [|a evals IH]; simpl; auto. now rewrite IH.
Qed.

Variable json_loads : string -> exc json.
Variable w : World.

(** X23. The row of the comparison table for the artifact of a run that
    returned a report shows the report's sample count, the configuration of
    the run and the counts and rates of its metrics; its cost per sample is
    its total cost over that sample count. *)
Theorem comparison_row_of_run model_name prompt data fps media_resolution report
        (timestamp : Z) (directory : string) :
  evaluate_model json_loads w model_name prompt data fps media_resolution None
  = Return report ->
  let row := Metrics.comparison_row directory
               (output_data timestamp model_name (results report) (metrics report)
                            prompt fps media_resolution) in
  Metrics.cr_total_samples row = JInt (r_total_samples report)
  /\ Metrics.cr_cost_per_sample row
     = Qdiv (Metrics.cr_total_cost row) (Q_of_nat (r_total_samples report))
  /\ Metrics.cr_fps row = JNum (inject_Z fps)
  /\ Metrics.cr_media_resolution row = JStr media_resolution
  /\ exists m,
       metrics report = Some m
       /\ Metrics.cr_valid_predictions row = JInt (m_valid_predictions m)
       /\ Metrics.cr_parse_success_rate row = JNum (parse_success_rate m)
       /\ Metrics.cr_shot_type_accuracy row = JNum (shot_type_accuracy m)
       /\ Metrics.cr_result_accuracy row = JNum (result_accuracy m)
       /\ Metrics.cr_both_correct_accuracy row = JNum (both_correct_accuracy m)
       /\ Metrics.cr_average_confidence row = JNum (average_confidence m).
Proof.
  intros H. apply evaluate_model_inv in H. cbv zeta in H.
  destruct H as (R & Hne & T & C & A & _ & m & Hm & Em).
  apply calculate_metrics_inv in Em. destruct Em as (st & _ & _ & Tm & _).
  cbv zeta. unfold Metrics.comparison_row, output_data.
  cbn [ra_metrics configuration ra_results evaluation_timestamp
       Metrics.cr_total_samples Metrics.cr_total_cost
       Metrics.cr_average_inference_time Metrics.cr_cost_per_sample
       Metrics.cr_fps Metrics.cr_media_resolution Metrics.cr_valid_predictions
       Metrics.cr_parse_success_rate Metrics.cr_shot_type_accuracy
       Metrics.cr_result_accuracy Metrics.cr_both_correct_accuracy
       Metrics.cr_average_confidence].
  rewrite Hm, R, T.
  destruct (evaluate_loop json_loads w model_name prompt fps media_resolution data)
    as [|res rest] eqn:Ek; [congruence|].
  split; [unfold JInt; rewrite <- Tm; reflexivity|].
  repeat split; try reflexivity.
  exists m. repeat split; reflexivity.
Qed.

End ComparisonTable.

(** ** evaluator.py: the directory of the artifacts *)

Section ResultsDir.
Import Evaluator.

Lemma char_absent_app (c : ascii) (a b : string) :
  char_absent c a -> char_absent c b -> char_absent c (a ++ b).
Proof.
  induction a as [|x a IH]; simpl; auto. intros [Hx Ha] Hb. split; auto.
Qed.

(** Replacing a character by a text without it leaves none of it. *)
Lemma replace_char_absent (c : ascii) (new : string) :
  char_absent c new ->
  forall s k, char_absent c (replace_from (String c EmptyString) new k s).
Proof.
  intros Hnew. induction s as [|a s IH]; intros k; cbn [replace_from]; [exact I|].
  destruct k as [|k]; [|apply IH].
  rewrite (prefix_char c). destruct (ascii_dec c a).
  - apply char_absent_app; auto.
  - simpl. split; auto.
Qed.

(** A replacement brings in no character that neither the text nor the new
    part has. *)
Lemma replace_keeps_absent (c : ascii) (old new : string) :
  char_absent c new ->
  forall s k, char_absent c s -> char_absent c (replace_from old new k s).
Proof.
  intros Hnew. induction s as [|a s IH]; intros k Hs; cbn [replace_from]; [exact I|].
  destruct Hs as [Ha Hs]. destruct k as [|k]; [|now apply IH].
  destruct (String.prefix old (String a s)).
  - apply char_absent_app; auto.
  - simpl. split; auto.
Qed.

(** X24. The directory name [_save_results] derives from a model name has
    no slash: the artifact of every model lands in a directory directly
    under the output directory. *)
Theorem results_dir_has_no_slash (model_name : string) :
  contains (results_dir model_name) "/" = false.
Proof.
  assert (H : char_absent "/"%char (results_dir model_name)).
  { unfold results_dir, replace. apply replace_keeps_absent; [exact I|].
    apply (replace_char_absent "/"%char "_"). simpl. split; [discriminate | exact I]. }
  revert H. generalize (results_dir model_name). intros s H.
  unfold contains, find. apply Z.leb_gt.
  assert (G : forall i, find_from "/" s i = (-1)%Z).
  { induction s as [|a s IH]; intros i; cbn [find_from].
    - reflexivity.
    - destruct H as [Ha Hs]. rewrite (prefix_char "/"%char).
      destruct (ascii_dec "/"%char a); [congruence | now apply IH]. }
  rewrite G. lia.
Qed.

Lemma replace_char_copy (c : ascii) (new s : string) :
  char_absent c s -> replace_from (String c EmptyString) new 0 s = s.
Proof.
  induction s as [|a s IH]; intros H; cbn [replace_from]; auto.
  destruct H as [Ha Hs]. rewrite (prefix_char c).
  destruct (ascii_dec c a); [congruence|]. now rewrite IH.
Qed.

Lemma replace_char_app (c : ascii) (new pre rest : string) :
  char_absent c pre ->
  replace_from (String c EmptyString) new 0 (pre ++ String c rest)
  = (pre ++ new ++ replace_from (String c EmptyString) new 0 rest)%string.
Proof.
  induction pre as [|a pre IH]; intros H; simpl String.append; cbn [replace_from].
  - rewrite (prefix_char c). destruct (ascii_dec c c); [reflexivity | congruence].
  - destruct H as [Ha Hp]. rewrite (prefix_char c).
    destruct (ascii_dec c a); [congruence|]. now rewrite IH.
Qed.

Lemma replace_skip (old new p s : string) :
  replace_from old new (String.length p) (p ++ s) = replace_from old new 0 s.
Proof. induction p as [|a p IH]; simpl; auto. Qed.

Lemma replace_not_found (old new s : string) : forall i,
  (0 <= i)%Z -> (find_from old s i < 0)%Z -> replace_from old new 0 s = s.
Proof.
  induction s as [|a s IH]; intros i Hi H; cbn [replace_from]; auto.
  cbn [find_from] in H.
  destruct (String.prefix old (String a s)); [lia|].
  f_equal. apply (IH (i + 1)%Z); auto. lia.
Qed.

(** X25. For a model name made of the prefix models/ and a name without
    slash in which the text models_ does not occur, the directory is that
    name. *)
Theorem results_dir_strips_prefix (name : string) :
  contains name "/" = false ->
  contains name "models_" = false ->
  results_dir ("models/" ++ name) = name.
Proof.
  intros Hslash Hmodels. apply (contains_absent "/"%char) in Hslash.
  unfold results_dir, replace.
  change ("models/" ++ name)%string with ("models" ++ String "/"%char name)%string.
  rewrite (replace_char_app "/"%char "_" "models" name)
    by (simpl; repeat split; discriminate).
  rewrite replace_char_copy by exact Hslash.
  change ("models" ++ "_" ++ name)%string
    with (String "m" ("odels_" ++ name))%string.
  cbn [replace_from].
  replace (String.prefix "models_" (String "m" ("odels_" ++ name))) with true
    by (symmetry; apply (prefix_app "models_" name)).
  change (String.length "models_" - 1) with (String.length "odels_").
  rewrite replace_skip. simpl String.append.
  apply (replace_not_found "models_" EmptyString name 0); [lia|].
  unfold contains, find in Hmodels. now apply Z.leb_gt in Hmodels.
Qed.

End ResultsDir.

(** ** python-worker/modal_app.py against the evaluation *)

Section WorkerLabels.

(** X26. Every shot type and result the worker stores for an analysis is a
    label of the heat maps, and the normalizers of the evaluation leave it
    as it is. *)
Theorem worker_labels_are_canonical (x : json) (l : string) :
  (Worker._normalize_range x = Return (Some l) ->
   In l Metrics.shot_types
   /\ Evaluator._normalize_shot_type (JStr l) = Return (Some l))
  /\ (Worker._normalize_result x = Return (Some l) ->
      In l Metrics.results
      /\ Evaluator._normalize_result (JStr l) = Return (Some l)).
Proof.
  split.
  - unfold Worker._normalize_range.
    destruct (negb (truthy x)); [discriminate|].
    destruct x; try discriminate.
    unfold Evaluator.shot_type_mapping. cbn [dict_get]. intros H.
    repeat match type of H with
           | (if ?c then _ else _) = _ => destruct c
           | Return (if ?c then _ else _) = _ => destruct c
           end;
      inversion H; subst l; (split; [simpl; tauto | reflexivity]).
  - unfold Worker._normalize_result.
    destruct (negb (truthy x)); [discriminate|].
    destruct x; try discriminate.
    cbv zeta.
    destruct (upper (strip s) =? "MAKE");
      [intros H; inversion H; subst l; split; [simpl; tauto | reflexivity]|].
    destruct (upper (strip s) =? "MISS");
      [intros H; inversion H; subst l; split; [simpl; tauto | reflexivity]|].
    discriminate.
Qed.

End WorkerLabels.

(** ** The further properties on the example data *)

Section FurtherExamples.
Import DataManager Evaluator.

Ltac in_cases H := simpl in H; repeat (destruct H as [H|H]; [subst|]); try contradiction.

Lemma download_missing_videos_completes_witness :
  missing_videos "data/videos"
                 (snd (download_missing_videos Examples.storage "data/videos"
                                               Examples.disk Examples.data_frame))
                 Examples.data_frame = []
  /\ download_missing_videos
       Examples.storage "data/videos"
       (snd (download_missing_videos Examples.storage "data/videos"
                                     Examples.disk Examples.data_frame))
       Examples.data_frame
     = ([], snd (download_missing_videos Examples.storage "data/videos"
                                         Examples.disk Examples.data_frame)).
Proof.
  apply (download_missing_videos_completes Examples.storage "data/videos"
                                           Examples.disk Examples.data_frame).
  intros item H. vm_compute in H. destruct H as [<-|[]]. vm_compute. reflexivity.
Defined.

Lemma dataset_stats_bounds_witness :
  exists stats,
    get_dataset_stats (Some [Examples.entry_present; Examples.entry_missing])
                      (path_exists (Examples.world Examples.fenced_answer))
    = Return (StatsOk stats)
    /\ (has_user_corrections stats <= total_clips stats)%nat
    /\ (videos_downloaded stats <= total_clips stats)%nat.
Proof.
  destruct (get_dataset_stats (Some [Examples.entry_present; Examples.entry_missing])
                              (path_exists (Examples.world Examples.fenced_answer)))
    as [[msg|stats]|e] eqn:E; try (vm_compute in E; discriminate E).
  exists stats. split; [reflexivity|].
  destruct (dataset_stats_bounds _ _ _ E) as (H1 & H2 & _). auto.
Defined.

Lemma dataset_stats_distributions_witness :
  exists stats,
    get_dataset_stats (Some [Examples.entry_present; Examples.entry_missing])
                      (path_exists (Examples.world Examples.fenced_answer))
    = Return (StatsOk stats)
    /\ occurrences (shot_type_distribution stats) (Some "lay_up") = 2%nat
    /\ occurrences (result_distribution stats) (Some "miss") = 0%nat.
Proof.
  destruct (get_dataset_stats (Some [Examples.entry_present; Examples.entry_missing])
                              (path_exists (Examples.world Examples.fenced_answer)))
    as [[msg|stats]|e] eqn:E; try (vm_compute in E; discriminate E).
  exists stats. split; [reflexivity|].
  split.
  - rewrite (proj1 (dataset_stats_distributions _ _ _ (Some "lay_up") E)). reflexivity.
  - rewrite (proj2 (dataset_stats_distributions _ _ _ (Some "miss") E)). reflexivity.
Defined.

Lemma sync_without_overrides_counts_no_correction_witness :
  exists stats,
    get_dataset_stats
      (Some (save_ground_truth "data/videos"
               (fetch_fallback [Examples.clip1; Examples.clip2]
                               [Examples.analysis1; Examples.analysis2]
                               Examples.stray_overrides)))
      (fun _ => false)
    = Return (StatsOk stats)
    /\ has_user_corrections stats = 0%nat.
Proof.
  destruct (get_dataset_stats
              (Some (save_ground_truth "data/videos"
                       (fetch_fallback [Examples.clip1; Examples.clip2]
                                       [Examples.analysis1; Examples.analysis2]
                                       Examples.stray_overrides)))
              (fun _ => false))
    as [[msg|stats]|e] eqn:E; try (vm_compute in E; discriminate E).
  exists stats. split; [reflexivity|].
  refine (proj1 (sync_without_overrides_counts_no_correction _ _ _ _ _ _ _ _ E)).
  - intros a o Ha Ho. in_cases Ha; in_cases Ho; discriminate.
  - intros a Ha _. in_cases Ha; split; discriminate.
Defined.

Lemma full_download_gives_every_video_witness :
  exists stats,
    get_dataset_stats
      (Some (save_ground_truth "data/videos" Examples.data_frame))
      (dict_contains String.eqb
         (snd (download_missing_videos Examples.storage "data/videos"
                                       Examples.disk Examples.data_frame)))
    = Return (StatsOk stats)
    /\ videos_downloaded stats = total_clips stats.
Proof.
  destruct (get_dataset_stats
              (Some (save_ground_truth "data/videos" Examples.data_frame))
              (dict_contains String.eqb
                 (snd (download_missing_videos Examples.storage "data/videos"
                                               Examples.disk Examples.data_frame))))
    as [[msg|stats]|e] eqn:E; try (vm_compute in E; discriminate E).
  exists stats. split; [reflexivity|].
  refine (full_download_gives_every_video _ _ _ _ _ _ E).
  intros item H. vm_compute in H. destruct H as [<-|[]]. vm_compute. reflexivity.
Defined.

Lemma estimate_cost_monotone_witness :
  (_estimate_cost "models/gemini-2.5-pro" 5000000 100
   <= _estimate_cost "models/gemini-2.5-pro" 9000000 2000)%Q.
Proof. apply estimate_cost_monotone; lia. Defined.

Lemma estimate_cost_floor_witness :
  _estimate_cost "models/gemini-2.5-flash" 500000 120
  = _estimate_cost "models/gemini-2.5-flash" 0 0
  /\ (_estimate_cost "models/gemini-2.5-flash" 500000 120 == 21 # 200000)%Q.
Proof.
  destruct (estimate_cost_floor "models/gemini-2.5-flash" 500000 120) as [A B];
    [lia | lia |].
  split; [exact A|].
  rewrite (B (75 # 1000, 30 # 100)%Q eq_refl). reflexivity.
Defined.

Lemma parse_extracts_braced_part_witness :
  _parse_model_output
    MiniJson.json_loads
    ("Here is the result: "
     ++ String lbrace (MiniJson.quoted "'make_miss':'MISS'"
                       ++ String rbrace " Hope it helps."))%string
  = Return (JObj [("make_miss", JStr "MISS")]).
Proof.
  apply (parse_extracts_braced_part MiniJson.json_loads "Here is the result: "
           (MiniJson.quoted "'make_miss':'MISS'") " Hope it helps.");
    vm_compute; reflexivity.
Defined.

Lemma cleaned_text_of_fenced_block_witness :
  cleaned_text ("```" ++ "python" ++ nl ++ "{}" ++ nl ++ "```") = "{}".
Proof. exact (cleaned_text_of_fenced_block "python" "{}" eq_refl). Defined.

Lemma metrics_rates_bounded_witness :
  exists m,
    _calculate_metrics Examples.ten_samples = Return (Some m)
    /\ (m_valid_predictions m <= total_samples m)%nat
    /\ (0 <= both_correct_accuracy m <= 1)%Q.
Proof.
  destruct (_calculate_metrics Examples.ten_samples) as [[m|]|e] eqn:E;
    try (vm_compute in E; discriminate E).
  exists m. split; [reflexivity|].
  destruct (metrics_rates_bounded _ _ E) as (H1 & _ & _ & _ & H5). auto.
Defined.

Lemma confusion_dict_tallies_witness :
  exists m,
    _calculate_metrics Examples.ten_samples = Return (Some m)
    /\ tally (shot_type_confusion_matrix m) "lay_up -> lay_up" = 3%nat
    /\ tally (result_confusion_matrix m) "miss -> make" = 1%nat.
Proof.
  destruct (_calculate_metrics Examples.ten_samples) as [[m|]|e] eqn:E;
    try (vm_compute in E; discriminate E).
  exists m. split; [reflexivity|].
  split.
  - rewrite (proj1 (confusion_dict_tallies _ _ "lay_up -> lay_up" E)). reflexivity.
  - rewrite (proj2 (confusion_dict_tallies _ _ "miss -> make" E)). reflexivity.
Defined.

Lemma shot_type_heatmap_counts_samples_witness :
  exists m matrix,
    _calculate_metrics Examples.ten_samples = Return (Some m)
    /\ Metrics._build_confusion_matrix
         (Metrics.as_read (shot_type_confusion_matrix m)) Metrics.shot_types
       = Return (matrix, Metrics.shot_types)
    /\ Metrics.square 5 matrix
    /\ Metrics.cell matrix 0 0 = Some 3%Z
    /\ Metrics.cell matrix 3 0 = Some 1%Z.
Proof.
  destruct (_calculate_metrics Examples.ten_samples) as [[m|]|e] eqn:E;
    try (vm_compute in E; discriminate E).
  assert (Hok : forallb Metrics.key_ok (map fst (shot_type_confusion_matrix m)) = true).
  { pose proof E as E0. vm_compute in E0. inversion E0. reflexivity. }
  destruct (shot_type_heatmap_counts_samples _ _ E Hok) as (matrix & B & Q & C).
  exists m, matrix. split; [reflexivity|]. split; [exact B|]. split; [exact Q|].
  split.
  - rewrite (C 0%nat 0%nat "lay_up" "lay_up" eq_refl eq_refl). reflexivity.
  - rewrite (C 3%nat 0%nat "three_pointer" "lay_up" eq_refl eq_refl). reflexivity.
Defined.

Lemma result_heatmap_counts_samples_witness :
  exists m matrix,
    _calculate_metrics Examples.ten_samples = Return (Some m)
    /\ Metrics._build_confusion_matrix
         (Metrics.as_read (result_confusion_matrix m)) Metrics.results
       = Return (matrix, Metrics.results)
    /\ Metrics.cell matrix 0 0 = Some 4%Z
    /\ Metrics.cell matrix 1 0 = Some 1%Z.
Proof.
  destruct (_calculate_metrics Examples.ten_samples) as [[m|]|e] eqn:E;
    try (vm_compute in E; discriminate E).
  assert (Hok : forallb Metrics.key_ok (map fst (result_confusion_matrix m)) = true).
  { pose proof E as E0. vm_compute in E0. inversion E0. reflexivity. }
  destruct (result_heatmap_counts_samples _ _ E Hok) as (matrix & B & C).
  exists m, matrix. split; [reflexivity|]. split; [exact B|].
  split.
  - rewrite (C 0%nat 0%nat "make" "make" eq_refl eq_refl). reflexivity.
  - rewrite (C 1%nat 0%nat "miss" "make" eq_refl eq_refl). reflexivity.
Defined.

Lemma metrics_of_unparsed_run_witness :
  exists m,
    _calculate_metrics Examples.unparsed_samples = Return (Some m)
    /\ m_valid_predictions m = 0%nat
    /\ both_correct_accuracy m = (0 # 1)%Q.
Proof.
  destruct (metrics_of_unparsed_run MiniJson.json_loads Examples.unparsed_samples)
    as (m & E & _ & V & _ & _ & B & _).
  - discriminate.
  - intros res H. in_cases H.
    + exists "I cannot tell". split; vm_compute; reflexivity.
    + exists "no idea". split; vm_compute; reflexivity.
  - exists m. auto.
Defined.

Lemma evaluate_model_report_witness :
  exists report,
    evaluate_model MiniJson.json_loads (Examples.world Examples.fenced_answer)
                   "models/gemini-2.5-flash" "Classify the shot."
                   [Examples.entry_missing; Examples.entry_present] 24 "MEDIUM" None
    = Return report
    /\ results report <> []
    /\ r_total_samples report = List.length (results report).
Proof.
  destruct (evaluate_model MiniJson.json_loads (Examples.world Examples.fenced_answer)
                           "models/gemini-2.5-flash" "Classify the shot."
                           [Examples.entry_missing; Examples.entry_present]
                           24 "MEDIUM" None)
    as [report|e] eqn:E; [|vm_compute in E; discriminate E].
  exists report. split; [reflexivity|].
  destruct (evaluate_model_report _ _ _ _ _ _ _ _ E) as (H1 & _ & _ & H4 & _). auto.
Defined.

Lemma empty_response_is_recorded_witness :
  exists res,
    evaluate_entry MiniJson.json_loads Examples.silent_world
                   "models/gemini-2.5-flash" "Classify the shot." 24 "MEDIUM"
                   Examples.entry_present = Some res
    /\ prediction res = parse_failure EmptyString
    /\ valid_sample res = false.
Proof.
  destruct (empty_response_is_recorded
              MiniJson.json_loads Examples.silent_world
              "models/gemini-2.5-flash" "Classify the shot." 24 "MEDIUM"
              Examples.entry_present "video bytes")
    as (res & E & P & V & _); try reflexivity.
  exists res. auto.
Defined.

Lemma both_correct_is_outside_the_error_table_witness :
  exists m rows,
    _calculate_metrics Examples.parsed_samples = Return (Some m)
    /\ Metrics.generate_error_analysis Examples.parsed_samples = Return rows
    /\ map Metrics.er_clip_id rows = ["s02"; "s03"]
    /\ both_correct_accuracy m = ratio 1 3.
Proof.
  destruct (_calculate_metrics Examples.parsed_samples) as [[m|]|e] eqn:E;
    try (vm_compute in E; discriminate E).
  destruct (Metrics.generate_error_analysis Examples.parsed_samples)
    as [rows|e] eqn:R; [|vm_compute in R; discriminate R].
  exists m, rows. split; [reflexivity|]. split; [reflexivity|].
  assert (Hvalid : forall res, In res Examples.parsed_samples ->
                               error_truthy res = false).
  { intros res H. in_cases H; reflexivity. }
  destruct (both_correct_is_outside_the_error_table _ _ _ Hvalid E R) as [_ B].
  pose proof R as R0. vm_compute in R0. inversion R0; subst rows.
  split; [reflexivity | exact B].
Defined.

Lemma comparison_row_of_run_witness :
  exists report,
    evaluate_model MiniJson.json_loads (Examples.world Examples.fenced_answer)
                   "models/gemini-2.5-flash" "Classify the shot."
                   [Examples.entry_present] 24 "MEDIUM" None
    = Return report
    /\ Metrics.cr_total_samples
         (Metrics.comparison_row
            "gemini-2.5-flash"
            (output_data 1700000000 "models/gemini-2.5-flash" (results report)
                         (metrics report) "Classify the shot." 24 "MEDIUM"))
       = JInt (r_total_samples report).
Proof.
  destruct (evaluate_model MiniJson.json_loads (Examples.world Examples.fenced_answer)
                           "models/gemini-2.5-flash" "Classify the shot."
                           [Examples.entry_present] 24 "MEDIUM" None)
    as [report|e] eqn:E; [|vm_compute in E; discriminate E].
  exists report. split; [reflexivity|].
  exact (proj1 (comparison_row_of_run _ _ _ _ _ _ _ _ 1700000000%Z "gemini-2.5-flash" E)).
Defined.

Lemma results_dir_strips_prefix_witness :
  results_dir ("models/" ++ "gemini-2.5-flash") = "gemini-2.5-flash".
Proof. apply results_dir_strips_prefix; vm_compute; reflexivity. Defined.

End FurtherExamples.
